(** * The /api/transform route handler: request validation, two-pass model
      invocation, response validation and sanitization.

    Shallow embedding of the route handler (the [POST] function together with
    its schemas, prompt builders and [normalizeOpenAIError]).  The external
    collaborators (the OpenAI client, [JSON.parse], [JSON.stringify],
    [Number.prototype.toLocaleString]) are taken as parameters; everything
    the handler itself computes is a definition below.  [NextResponse.json]
    follows the [Response] constructor of the Fetch standard, which throws
    on a status that a response with a body cannot carry. *)

From Stdlib Require Import List ZArith NArith QArith Bool Lia String Ascii.
From Stdlib Require DecimalString.
Import ListNotations.
Local Open Scope Z_scope.

(* ================================================================== *)
(** ** JavaScript strings *)

(** A JavaScript string is a sequence of UTF-16 code units; [.length] counts
    code units. *)
Definition code_unit := N.
Definition jsstring := list code_unit.

Fixpoint jsstring_eqb (a b : jsstring) : bool :=
  match a, b with
  | [], [] => true
  | x :: a', y :: b' => (N.eqb x y && jsstring_eqb a' b')%bool
  | _, _ => false
  end.

(** ASCII literals of the source. *)
Definition lit (s : string) : jsstring :=
  map N_of_ascii (list_ascii_of_string s).

Arguments lit s%_string.

Definition nl : jsstring := [10%N].

(** [s.length] *)
Definition js_length (s : jsstring) : Z := Z.of_nat (List.length s).

(** [String(n)] for a non-negative integer. *)
Definition String_of_number (n : Z) : jsstring :=
  lit (DecimalString.NilEmpty.string_of_uint (N.to_uint (Z.to_N n))).

(** ECMAScript WhiteSpace and LineTerminator code points, the characters
    that [String.prototype.trim] strips. *)
Definition isWhiteSpace (c : code_unit) : bool :=
  let in_range (lo hi : N) := (N.leb lo c && N.leb c hi)%bool in
  (in_range 0x09 0x0D || N.eqb c 0x20 || N.eqb c 0xA0 || N.eqb c 0x1680
   || in_range 0x2000 0x200A || N.eqb c 0x2028 || N.eqb c 0x2029
   || N.eqb c 0x202F || N.eqb c 0x205F || N.eqb c 0x3000
   || N.eqb c 0xFEFF)%bool%N.

Fixpoint trimStart (s : jsstring) : jsstring :=
  match s with
  | [] => []
  | c :: rest => if isWhiteSpace c then trimStart rest else s
  end.

Definition trimEnd (s : jsstring) : jsstring := rev (trimStart (rev s)).

(** [s.trim()] *)
Definition trim (s : jsstring) : jsstring := trimEnd (trimStart s).

(** [s.startsWith(p)] *)
Fixpoint startsWith (s p : jsstring) : bool :=
  match p, s with
  | [], _ => true
  | _ :: _, [] => false
  | a :: p', b :: s' => (N.eqb a b && startsWith s' p')%bool
  end.

(** [s.includes(p)] *)
Fixpoint includes (s p : jsstring) : bool :=
  (startsWith s p
   || match s with
      | [] => false
      | _ :: s' => includes s' p
      end)%bool.

(** A string is truthy when it is not empty. *)
Definition truthy_string (s : jsstring) : bool :=
  match s with [] => false | _ :: _ => true end.

(** [!s] for a string that may be [undefined]. *)
Definition falsy_string (s : option jsstring) : bool :=
  match s with
  | Some s' => negb (truthy_string s')
  | None => true
  end.

(* ================================================================== *)
(** ** JavaScript values *)

(** Values as the handler sees them: the result of [JSON.parse], of
    [request.json()], and whatever a rejected promise carries.  Objects keep
    their properties as an association list (first binding wins).  Only
    integer numbers are represented: the single number the handler reads is
    an HTTP status. *)
#[local] Set Warnings "-register-all".
Inductive value : Type :=
| VUndefined
| VNull
| VBool (b : bool)
| VNum (n : Z)
| VStr (s : jsstring)
| VArr (items : list value)
| VObj (props : list (jsstring * value)).

Fixpoint lookup (k : jsstring) (props : list (jsstring * value)) : value :=
  match props with
  | [] => VUndefined
  | (k', v) :: rest => if jsstring_eqb k k' then v else lookup k rest
  end.

(** Property access [v.k]; a missing property reads as [undefined].  Arrays
    and primitives carry none of the properties the handler asks for. *)
Definition prop (k : string) (v : value) : value :=
  match v with
  | VObj props => lookup (lit k) props
  | _ => VUndefined
  end.

Arguments prop k%_string v.

(** [typeof v === 'object'] (true of [null], arrays and objects). *)
Definition typeof_object (v : value) : bool :=
  match v with
  | VNull | VArr _ | VObj _ => true
  | _ => false
  end.

(** JavaScript truthiness. *)
Definition truthy (v : value) : bool :=
  match v with
  | VUndefined | VNull => false
  | VBool b => b
  | VNum n => negb (n =? 0)
  | VStr s => truthy_string s
  | VArr _ | VObj _ => true
  end.

(* ================================================================== *)
(** ** Zod schemas *)

Module Zod.

Inductive IssueCode := invalid_type | too_small | too_big.

Inductive PathItem := Key (k : string) | Index (i : nat).
Arguments Key k%_string.

Record Issue := { code : IssueCode; path : list PathItem }.

(** Outcome of [schema.parse]: the typed data, or the issues carried by
    the thrown [ZodError]. *)
Inductive Parsed (A : Type) : Type :=
| Data (a : A)
| Issues (issues : list Issue).
Arguments Data {A} a.
Arguments Issues {A} issues.

Definition issues_of {A} (r : Parsed A) : list Issue :=
  match r with
  | Data _ => []
  | Issues l => l
  end.

Definition Schema (A : Type) := list PathItem -> value -> Parsed A.

(** [z.string()] with optional [.min(lo)] and [.max(hi)] checks.  Every
    failing check contributes its own issue. *)
Definition string_ (lo hi : option Z) : Schema jsstring :=
  fun p input =>
    match input with
    | VStr s =>
        let small :=
          match lo with
          | Some m => if js_length s <? m then [{| code := too_small; path := p |}] else []
          | None => []
          end in
        let big :=
          match hi with
          | Some m => if js_length s >? m then [{| code := too_big; path := p |}] else []
          | None => []
          end in
        match small ++ big with
        | [] => Data s
        | issues => Issues issues
        end
    | _ => Issues [{| code := invalid_type; path := p |}]
    end.

(** [schema.optional()] *)
Definition optional {A} (inner : Schema A) : Schema (option A) :=
  fun p input =>
    match input with
    | VUndefined => Data None
    | _ =>
        match inner p input with
        | Data a => Data (Some a)
        | Issues l => Issues l
        end
    end.

(** Element-wise parsing of an array, issues of all elements collected. *)
Fixpoint elements {A} (inner : Schema A) (p : list PathItem) (i : nat)
         (items : list value) : Parsed (list A) :=
  match items with
  | [] => Data []
  | x :: rest =>
      match inner (p ++ [Index i]) x, elements inner p (S i) rest with
      | Data a, Data l => Data (a :: l)
      | r, rs => Issues (issues_of r ++ issues_of rs)
      end
  end.

(** [z.array(inner)] *)
Definition array {A} (inner : Schema A) : Schema (list A) :=
  fun p input =>
    match input with
    | VArr items => elements inner p 0 items
    | _ => Issues [{| code := invalid_type; path := p |}]
    end.

(** A field of a [z.object] shape: the schema applied to [input.k]. *)
Definition field {A} (k : string) (s : Schema A) (p : list PathItem)
           (input : value) : Parsed A :=
  s (p ++ [Key k]) (prop k input).
Arguments field {A} k%_string s p input.

Definition is_object (v : value) : bool :=
  match v with VObj _ => true | _ => false end.

(** [schema.safeParse(input).success] *)
Definition accepted {A} (r : Parsed A) : bool :=
  match r with Data _ => true | Issues _ => false end.

End Zod.

(* ================================================================== *)
(** ** Data model *)

(** Data accepted by [transformRequestSchema]. *)
Record TransformRequest := {
  text : jsstring;
  notes : option jsstring
}.

Record Section_ := {
  heading : jsstring;
  bullets : list jsstring
}.

Record NextAction := {
  action : jsstring;
  first_step : jsstring
}.

(** Data accepted by [transformResponseSchema]. *)
Record TransformResponse := {
  title : jsstring;
  summary : jsstring;
  sections : list Section_;
  next_actions : list NextAction
}.

(** Server configuration read from the environment.  The [Number(... ?? d)]
    and [?? d] defaults of the source are [default_env]. *)
Record Env := {
  OPENAI_API_KEY : option jsstring;
  MAX_INPUT_CHARS : Z;
  MAX_FILE_BYTES : Z;
  OPENAI_TEXT_MODEL : jsstring;
  OPENAI_FILE_MODEL : jsstring
}.

Definition default_env (key : option jsstring) : Env := {|
  OPENAI_API_KEY := key;
  MAX_INPUT_CHARS := 100000;
  MAX_FILE_BYTES := 10 * 1024 * 1024;
  OPENAI_TEXT_MODEL := lit "gpt-4o";
  OPENAI_FILE_MODEL := lit "gpt-4o-mini"
|}.

Section Schemas.

Variable env : Env.

Import Zod.

(** [z.object({ text: z.string().min(1).max(MAX_INPUT_CHARS),
                notes: z.string().max(10_000).optional() })] *)
Definition transformRequestSchema : Schema TransformRequest :=
  fun p input =>
    if is_object input then
      let t := field "text" (string_ (Some 1) (Some (MAX_INPUT_CHARS env))) p input in
      let n := field "notes" (optional (string_ None (Some 10000))) p input in
      match t, n with
      | Data t', Data n' => Data {| text := t'; notes := n' |}
      | _, _ => Issues (issues_of t ++ issues_of n)
      end
    else Issues [{| code := invalid_type; path := p |}].

(** [z.object({ notes: z.string().max(10_000).optional() })], applied to
    the object literal [{ notes: notesValue }]; the result is its [.notes]. *)
Definition transformFileNotesSchema : Schema (option jsstring) :=
  fun p input =>
    if is_object input then
      field "notes" (optional (string_ None (Some 10000))) p input
    else Issues [{| code := invalid_type; path := p |}].

Definition sectionSchema : Schema Section_ :=
  fun p input =>
    if is_object input then
      let h := field "heading" (string_ None None) p input in
      let b := field "bullets" (array (string_ None None)) p input in
      match h, b with
      | Data h', Data b' => Data {| heading := h'; bullets := b' |}
      | _, _ => Issues (issues_of h ++ issues_of b)
      end
    else Issues [{| code := invalid_type; path := p |}].

Definition nextActionSchema : Schema NextAction :=
  fun p input =>
    if is_object input then
      let a := field "action" (string_ None None) p input in
      let f := field "first_step" (string_ None None) p input in
      match a, f with
      | Data a', Data f' => Data {| action := a'; first_step := f' |}
      | _, _ => Issues (issues_of a ++ issues_of f)
      end
    else Issues [{| code := invalid_type; path := p |}].

(** [transformResponseSchema]; unknown keys are stripped, as [z.object]
    does by default. *)
Definition transformResponseSchema : Schema TransformResponse :=
  fun p input =>
    if is_object input then
      let t := field "title" (string_ None None) p input in
      let s := field "summary" (string_ None None) p input in
      let c := field "sections" (array sectionSchema) p input in
      let n := field "next_actions" (array nextActionSchema) p input in
      match t, s, c, n with
      | Data t', Data s', Data c', Data n' =>
          Data {| title := t'; summary := s'; sections := c'; next_actions := n' |}
      | _, _, _, _ =>
          Issues (issues_of t ++ issues_of s ++ issues_of c ++ issues_of n)
      end
    else Issues [{| code := invalid_type; path := p |}].

End Schemas.

(* ================================================================== *)
(** ** Prompt builders *)

(** [notes && notes.trim().length > 0] *)
Definition notes_given (notes : option jsstring) : bool :=
  match notes with
  | Some n => (truthy_string n && (js_length (trim n) >? 0))%bool
  | None => false
  end.

Definition shouldApplyNotesRewritePass (notes : option jsstring) : bool :=
  notes_given notes.

Definition notes_text (notes : option jsstring) : jsstring :=
  match notes with Some n => trim n | None => [] end.

Definition buildFileUserPrompt (notes : option jsstring) : jsstring :=
  let notesPart :=
    if notes_given notes
    then nl ++ nl ++ lit "Additional user notes / instructions (treat as instructions, NOT as source facts):"
         ++ nl ++ notes_text notes ++ nl
    else [] in
  lit "Analyze the attached file and produce the requested structured output as valid JSON."
  ++ notesPart.

Definition buildTextUserPrompt (text : jsstring) (notes : option jsstring) : jsstring :=
  let notesPart :=
    if notes_given notes
    then nl ++ nl ++ lit "Additional user notes / instructions (treat as instructions, NOT as source facts):"
         ++ nl ++ notes_text notes ++ nl
    else [] in
  lit "Transform the following input into the required response as valid JSON."
  ++ notesPart ++ nl ++ nl ++ lit "INPUT (source facts):" ++ nl ++ text.

Definition buildNotesRewritePrompt (originalJson : jsstring) (notes : option jsstring) : jsstring :=
  let notesPart :=
    if notes_given notes
    then nl ++ nl ++ lit "User notes / instructions (REQUIRED constraints):"
         ++ nl ++ notes_text notes ++ nl
    else [] in
  lit "Rewrite the following JSON output so it complies with the user's notes/instructions while preserving facts."
  ++ nl ++ nl
  ++ lit "CRITICAL:" ++ nl
  ++ lit "- Do NOT add facts that are not already present in the JSON below" ++ nl
  ++ lit "- Do NOT remove facts that are already present; you may rephrase them" ++ nl
  ++ lit "- Keep EXACTLY the same JSON schema/keys as before (title, summary, sections[{heading,bullets}], next_actions[{action,first_step}])" ++ nl
  ++ lit "- You MAY change tone, ordering, emphasis, verbosity, and phrasing to match the notes" ++ nl
  ++ lit "- It is OK to use line breaks (\n) inside strings if the notes request it (e.g., poetry)" ++ nl
  ++ lit "- If the user's instructions conflict with the schema, comply by expressing the intent INSIDE the strings while keeping the schema" ++ nl
  ++ nl
  ++ lit "Return ONLY valid JSON." ++ nl
  ++ notesPart ++ nl
  ++ nl
  ++ lit "JSON to rewrite (source facts):" ++ nl
  ++ originalJson.

(* ================================================================== *)
(** ** Upstream error normalization *)

Record NormalizedError := { ne_status : Z; ne_message : jsstring }.

Definition fallback : NormalizedError := {|
  ne_status := 500;
  ne_message := lit "Failed to analyze input. Please try again."
|}.

(** [typeof v === 'string' && v.trim()], kept when truthy. *)
Definition trimmed_string (v : value) : option jsstring :=
  match v with
  | VStr s => if truthy_string (trim s) then Some (trim s) else None
  | _ => None
  end.

Definition normalizeOpenAIError (error : value) : NormalizedError :=
  if (negb (truthy error) || negb (typeof_object error))%bool then fallback
  else
    let status :=
      match prop "status" error with
      | VNum n => n
      | _ => 500
      end in
    let nestedMessage :=
      if (truthy (prop "error" error) && typeof_object (prop "error" error))%bool
      then prop "message" (prop "error" error)
      else VUndefined in
    let message :=
      match trimmed_string nestedMessage with
      | Some m => m
      | None =>
          match trimmed_string (prop "message" error) with
          | Some m => m
          | None => ne_message fallback
          end
      end in
    {| ne_status := status; ne_message := message |}.

(* ================================================================== *)
(** ** Requests, responses and the provider *)

(** Outcome of awaiting a promise. *)
Inductive Awaited (A : Type) : Type :=
| Resolved (a : A)
| Rejected (reason : value).
Arguments Resolved {A} a.
Arguments Rejected {A} reason.

(** An uploaded [File]; its bytes are opaque to the handler, which reads
    only [name], [type] and [size]. *)
Record File := {
  file_name : jsstring;
  file_type : jsstring;
  file_size : Z
}.

Inductive FormDataEntryValue :=
| EntryString (s : jsstring)
| EntryFile (f : File).

Definition FormData := list (jsstring * FormDataEntryValue).

(** [form.get(k)]: the first entry named [k], or [null]. *)
Fixpoint form_get (k : jsstring) (form : FormData) : option FormDataEntryValue :=
  match form with
  | [] => None
  | (k', v) :: rest => if jsstring_eqb k k' then Some v else form_get k rest
  end.

(** The parts of the incoming request the handler reads:
    [request.headers.get('content-type')], [await request.formData()] and
    [await request.json()]. *)
Record Request := {
  content_type : option jsstring;
  formData : Awaited FormData;
  json : Awaited value
}.

Inductive Body :=
| ErrorBody (error : jsstring)
| TransformBody (r : TransformResponse).

Record Response := {
  status : Z;
  body : Body;
  headers : list (jsstring * jsstring)
}.

(** Statuses of responses that cannot carry a body. *)
Definition null_body_status (n : Z) : bool :=
  ((n =? 101) || (n =? 103) || (n =? 204) || (n =? 205) || (n =? 304))%bool.

(** What the [Response] constructor throws, as a [catch] clause sees it: a
    [RangeError] and a [TypeError], each an object with a [message].  The
    runtime words the message; the texts here stand for its wording. *)
Definition RangeError_status : value :=
  VObj [(lit "message",
         VStr (lit "init.status must be in the range of 200 to 599, inclusive."))].

Definition TypeError_null_body : value :=
  VObj [(lit "message", VStr (lit "Response with null body status cannot have body"))].

(** [NextResponse.json(body, { status, headers })], that is
    [new Response(JSON.stringify(body), init)]: the response, or what the
    constructor throws.  The status defaults to 200 and is read as an
    unsigned 16-bit integer; the constructor throws a [RangeError] when it
    is outside 200..599 and a [TypeError] when it is a null body status,
    the body of a JSON response never being null. *)
Definition NextResponse_json (b : Body) (st : option Z)
           (hs : list (jsstring * jsstring)) : Awaited Response :=
  let status := match st with Some n => n mod 65536 | None => 200 end in
  if negb ((200 <=? status) && (status <=? 599))%bool then Rejected RangeError_status
  else if null_body_status status then Rejected TypeError_null_body
  else Resolved {| status := status; body := b; headers := hs |}.

(** Arguments of [openai.files.create]. *)
Record FilesCreateParams := {
  upload_name : jsstring;
  upload_type : option jsstring;
  upload_size : Z;
  purpose : jsstring
}.

Inductive InputContent :=
| input_text (text : jsstring)
| input_image (detail : jsstring) (file_id : jsstring)
| input_file (file_id : jsstring).

(** Arguments of [openai.responses.create]: one user message with the given
    content items. *)
Record ResponsesCreateParams := {
  model : jsstring;
  instructions : jsstring;
  content : list InputContent;
  text_format : jsstring;
  temperature : Q
}.

(** The provider: [files.create] resolves to the uploaded file's id,
    [responses.create] to the response's [output_text] ([None] when it is
    [undefined] or [null]). *)
Record OpenAI := {
  files_create : FilesCreateParams -> Awaited jsstring;
  responses_create : ResponsesCreateParams -> Awaited (option jsstring)
}.

(** One provider call together with its outcome. *)
Inductive Event :=
| FilesCreate (p : FilesCreateParams) (r : Awaited jsstring)
| ResponsesCreate (p : ResponsesCreateParams) (r : Awaited (option jsstring)).

(** Built-ins of the JavaScript runtime the handler relies on.
    [JSON_parse] is [None] where [JSON.parse] throws. *)
Record Runtime := {
  JSON_parse : jsstring -> option value;
  JSON_stringify : TransformResponse -> jsstring;
  toLocaleString : Z -> jsstring
}.

(* ================================================================== *)
(** ** Control flow of the handler *)

Inductive Exn :=
| ZodError (issues : list Zod.Issue)
| Thrown (reason : value).

(** How a block of the handler completes: normally with a value, by
    [return]ing a response, or by throwing. *)
Inductive Completion (A : Type) : Type :=
| Normal (a : A)
| Return (r : Response)
| Throw (e : Exn).
Arguments Normal {A} a.
Arguments Return {A} r.
Arguments Throw {A} e.

(** A block: its completion and the provider calls it made, in order. *)
Definition M (A : Type) : Type := Completion A * list Event.

Definition ret {A} (a : A) : M A := (Normal a, []).
Definition return_ {A} (r : Response) : M A := (Return r, []).
Definition throw {A} (e : Exn) : M A := (Throw e, []).

Definition bind {A B} (m : M A) (k : A -> M B) : M B :=
  match m with
  | (Normal a, tr) => let (c, tr') := k a in (c, tr ++ tr')
  | (Return r, tr) => (Return r, tr)
  | (Throw e, tr) => (Throw e, tr)
  end.

(** [try { m } catch (e) { h e }] *)
Definition try_catch {A} (m : M A) (h : Exn -> M A) : M A :=
  match m with
  | (Throw e, tr) => let (c, tr') := h e in (c, tr ++ tr')
  | done => done
  end.

Declare Scope handler_scope.
Delimit Scope handler_scope with handler.
Notation "x <- m ;; k" := (bind m (fun x => k))
  (at level 100, m at next level, right associativity) : handler_scope.
Notation "' pat <- m ;; k" := (bind m (fun x => match x with pat => k end))
  (at level 100, pat pattern, m at next level, right associativity) : handler_scope.

(** [await p] *)
Definition await {A} (p : Awaited A) : M A :=
  match p with
  | Resolved a => ret a
  | Rejected reason => throw (Thrown reason)
  end.

(** [return NextResponse.json(b, { status, headers })] *)
Definition return_json {A} (b : Body) (st : option Z)
           (hs : list (jsstring * jsstring)) : M A :=
  match NextResponse_json b st hs with
  | Resolved r => return_ r
  | Rejected reason => throw (Thrown reason)
  end.

(** [schema.parse(input)] *)
Definition parse {A} (s : Zod.Schema A) (input : value) : M A :=
  match s [] input with
  | Zod.Data a => ret a
  | Zod.Issues issues => throw (ZodError issues)
  end.

(** [new Error(message)] as [normalizeOpenAIError] sees it. *)
Definition Error_ (message : string) : value :=
  VObj [(lit "message", VStr (lit message))].
Arguments Error_ message%_string.

(* ================================================================== *)
(** ** Sanitization *)

(** The filter predicate of the handler:
    [a.action.trim().length > 0 && a.first_step.trim().length > 0]. *)
Definition keep_action (a : NextAction) : bool :=
  ((js_length (trim (action a)) >? 0) && (js_length (trim (first_step a)) >? 0))%bool.

(** [{ ...validated, next_actions: validated.next_actions.filter(...) }] *)
Definition sanitize (validated : TransformResponse) : TransformResponse := {|
  title := title validated;
  summary := summary validated;
  sections := sections validated;
  next_actions := filter keep_action (next_actions validated)
|}.

(** The headers of the success response:
    [{ 'x-received-notes-length': String((notesForRequest ?? '').length) }] *)
Definition notes_length_header (notesForRequest : option jsstring)
  : list (jsstring * jsstring) :=
  [(lit "x-received-notes-length",
    String_of_number
      (js_length (match notesForRequest with
                  | Some n => n
                  | None => []
                  end)))].

(** The success response (handler lines 333-344): status 200, the sanitized
    output, and the length of the received notes in a header. *)
Definition delivered (validated : TransformResponse)
           (notesForRequest : option jsstring) : Response :=
  {| status := 200;
     body := TransformBody (sanitize validated);
     headers := notes_length_header notesForRequest |}.

(** The arguments of the upload:
    [toFile(bytes, file.name, { type: file.type || undefined })] with
    purpose ['assistants']. *)
Definition upload_params (f : File) : FilesCreateParams :=
  {| upload_name := file_name f;
     upload_type := if truthy_string (file_type f) then Some (file_type f) else None;
     upload_size := file_size f;
     purpose := lit "assistants" |}.

(* ================================================================== *)
(** ** The route handler *)

Section Handler.

Variable env : Env.
Variable rt : Runtime.
(** The fixed policy text returned by [getSystemPrompt()]; the handler
    passes it on without inspecting it. *)
Variable systemPrompt : jsstring.
Variable openai : OpenAI.

Local Open Scope handler_scope.

(** [await openai.files.create(p)], [(await ...).id] *)
Definition call_files_create (p : FilesCreateParams) : M jsstring :=
  let r := files_create openai p in
  match r with
  | Resolved id => (Normal id, [FilesCreate p r])
  | Rejected reason => (Throw (Thrown reason), [FilesCreate p r])
  end.

(** [(await openai.responses.create(p)).output_text ?? null] *)
Definition call_responses_create (p : ResponsesCreateParams) : M (option jsstring) :=
  let r := responses_create openai p in
  match r with
  | Resolved output_text => (Normal output_text, [ResponsesCreate p r])
  | Rejected reason => (Throw (Thrown reason), [ResponsesCreate p r])
  end.

(** [JSON.parse(t)], throwing a [SyntaxError] where it fails. *)
Definition json_parse (t : jsstring) : M value :=
  match JSON_parse rt t with
  | Some v => ret v
  | None => throw (Thrown (Error_ "Unexpected token"))
  end.

Definition editorInstructions : jsstring :=
  lit "You are a careful editor. You rewrite content for style ONLY, preserving facts and schema.".

(** The [multipart/form-data] branch (handler lines 177-240): yields
    [rawModelText] and [notesForRequest]. *)
Definition multipart_branch (request : Request)
  : M (option jsstring * option jsstring) :=
  form <- await (formData request) ;;
  let file := form_get (lit "file") form in
  let notesValue := form_get (lit "notes") form in
  notes <- match notesValue with
           | Some (EntryString s) =>
               parse (transformFileNotesSchema) (VObj [(lit "notes", VStr s)])
           | _ => ret None
           end ;;
  match file with
  | Some (EntryFile file) =>
      if file_size file >? MAX_FILE_BYTES env then
        return_json
          (ErrorBody (lit "File is too large. Maximum is "
                      ++ toLocaleString rt (MAX_FILE_BYTES env)
                      ++ lit " bytes."))
          (Some 413) []
      else
        uploaded <- call_files_create (upload_params file) ;;
        let isImage := startsWith (file_type file) (lit "image/") in
        let fileContent :=
          if isImage then input_image (lit "auto") uploaded
          else input_file uploaded in
        response <- call_responses_create
                      {| model := OPENAI_FILE_MODEL env;
                         instructions := systemPrompt;
                         content := [input_text (buildFileUserPrompt notes); fileContent];
                         text_format := lit "json_object";
                         temperature := 1 # 10 |} ;;
        ret (response, notes)
  | _ =>
      return_json
        (ErrorBody (lit "Missing file upload (expected form field 'file')."))
        (Some 400) []
  end.

(** The JSON-body branch (handler lines 240-280): yields [rawModelText]
    and [notesForRequest]. *)
Definition json_branch (request : Request)
  : M (option jsstring * option jsstring) :=
  parsed <- try_catch
              (body <- await (json request) ;;
               parse (transformRequestSchema env) body)
              (fun error =>
                 match error with
                 | ZodError issues =>
                     let tooBig :=
                       existsb (fun issue =>
                                  match Zod.code issue with
                                  | Zod.too_big => true
                                  | _ => false
                                  end) issues in
                     return_json
                       (ErrorBody
                          (if tooBig
                           then lit "Input text is too large. Maximum is "
                                ++ toLocaleString rt (MAX_INPUT_CHARS env)
                                ++ lit " characters."
                           else lit "Invalid request format"))
                       (Some (if tooBig then 413 else 400)) []
                 | Thrown _ =>
                     return_json (ErrorBody (lit "Invalid request body")) (Some 400) []
                 end) ;;
  response <- call_responses_create
                {| model := OPENAI_TEXT_MODEL env;
                   instructions := systemPrompt;
                   content := [input_text (buildTextUserPrompt (text parsed) (notes parsed))];
                   text_format := lit "json_object";
                   temperature := 1 # 10 |} ;;
  ret (response, notes parsed).

(** Validation of the request and the first model call, by content
    type. *)
Definition first_pass (request : Request)
  : M (option jsstring * option jsstring) :=
  let contentType :=
    match content_type request with Some c => c | None => [] end in
  if includes contentType (lit "multipart/form-data")
  then multipart_branch request
  else json_branch request.

(** Arguments of the second model call. *)
Definition rewrite_params (validated : TransformResponse)
           (notesForRequest : option jsstring) : ResponsesCreateParams :=
  {| model := OPENAI_TEXT_MODEL env;
     instructions := editorInstructions;
     content := [input_text
                   (buildNotesRewritePrompt
                      (JSON_stringify rt validated)
                      notesForRequest)];
     text_format := lit "json_object";
     temperature := 4 # 10 |}.

(** The optional second pass (handler lines 298-329): rewrite the validated
    output for style, keeping the first pass's result when the rewritten
    text is missing, does not parse or does not validate.  The call itself
    is made outside the inner [try]. *)
Definition rewrite_pass (validated : TransformResponse)
           (notesForRequest : option jsstring) : M TransformResponse :=
  if shouldApplyNotesRewritePass notesForRequest then
    rewrittenText <- call_responses_create
                       (rewrite_params validated notesForRequest) ;;
    match rewrittenText with
    | Some t =>
        if truthy_string t then
          try_catch
            (rewrittenParsed <- json_parse t ;;
             parse transformResponseSchema rewrittenParsed)
            (fun _ => ret validated)
        else ret validated
    | None => ret validated
    end
  else ret validated.

(** From the raw model text to the delivered response (handler lines
    282-344). *)
Definition respond (rawModelText : option jsstring)
           (notesForRequest : option jsstring) : M Response :=
  rawModelText <- match rawModelText with
                  | Some t =>
                      if truthy_string t then ret t
                      else throw (Thrown (Error_ "No response from OpenAI"))
                  | None => throw (Thrown (Error_ "No response from OpenAI"))
                  end ;;
  parsed <- try_catch (json_parse rawModelText)
              (fun _ =>
                 return_json
                   (ErrorBody (lit "Model returned an invalid response format. Please try again."))
                   (Some 502) []) ;;
  validated <- parse transformResponseSchema parsed ;;
  validated <- rewrite_pass validated notesForRequest ;;
  let sanitized := sanitize validated in
  return_json (TransformBody sanitized) None (notes_length_header notesForRequest).

(** The body of the handler's outer [try] (handler lines 162-344). *)
Definition POST_try (request : Request) : M Response :=
  if falsy_string (OPENAI_API_KEY env) then
    return_json
      (ErrorBody (lit "Server is missing OPENAI_API_KEY configuration."))
      (Some 500) []
  else
    '(rawModelText, notesForRequest) <- first_pass request ;;
    respond rawModelText notesForRequest.

(** The handler's outer [catch] (handler lines 345-354): the response it
    returns, or what [NextResponse.json] throws there, which nothing
    catches. *)
Definition POST_catch (error : Exn) : Awaited Response :=
  match error with
  | ZodError _ =>
      NextResponse_json
        (ErrorBody (lit "Model returned an unexpected response shape. Please try again."))
        (Some 502) []
  | Thrown reason =>
      let normalized := normalizeOpenAIError reason in
      NextResponse_json (ErrorBody (ne_message normalized))
        (Some (ne_status normalized)) []
  end.

(** [POST]: what the handler's promise settles to, the response for the
    client or the error the handler throws, and the provider calls made on
    the way. *)
Definition POST (request : Request) : Awaited Response * list Event :=
  match POST_try request with
  | (Normal r, tr) => (Resolved r, tr)
  | (Return r, tr) => (Resolved r, tr)
  | (Throw e, tr) => (POST_catch e, tr)
  end.

End Handler.

(* ================================================================== *)
(** ** Vocabulary of the specification *)

(** Empty or whitespace-only: every code unit is one that [trim] strips. *)
Definition blank (s : jsstring) : bool := forallb isWhiteSpace s.

(** Notes that are present and carry at least one non-whitespace
    character. *)
Definition notes_present (notes : option jsstring) : bool :=
  match notes with
  | Some n => negb (blank n)
  | None => false
  end.

(** An entry is a placeholder when its action or its first step is empty or
    whitespace-only. *)
Definition placeholder (a : NextAction) : bool :=
  (blank (action a) || blank (first_step a))%bool.

(** [kept_in_order l' l]: [l'] arises from [l] by deleting entries, the
    remaining ones keeping their relative order. *)
Inductive kept_in_order {A : Type} : list A -> list A -> Prop :=
| kept_nil : kept_in_order [] []
| kept_keep x l' l : kept_in_order l' l -> kept_in_order (x :: l') (x :: l)
| kept_drop x l' l : kept_in_order l' l -> kept_in_order l' (x :: l).

Definition is_string (v : value) : bool :=
  match v with VStr _ => true | _ => false end.

Definition is_array_of (elem : value -> bool) (v : value) : bool :=
  match v with VArr items => forallb elem items | _ => false end.

(** The TransformResponse shape, read structurally: an object with string
    [title] and [summary], [sections] an array of objects with a string
    [heading] and an array of strings [bullets], and [next_actions] an array
    of objects with string [action] and [first_step].  Further properties
    are allowed. *)
Definition conforms_section (v : value) : bool :=
  (Zod.is_object v && is_string (prop "heading" v)
   && is_array_of is_string (prop "bullets" v))%bool.

Definition conforms_next_action (v : value) : bool :=
  (Zod.is_object v && is_string (prop "action" v)
   && is_string (prop "first_step" v))%bool.

Definition conforms (v : value) : bool :=
  (Zod.is_object v && is_string (prop "title" v) && is_string (prop "summary" v)
   && is_array_of conforms_section (prop "sections" v)
   && is_array_of conforms_next_action (prop "next_actions" v))%bool.

(** The reason a provider call was rejected with, if it was. *)
Definition rejection (ev : Event) : option value :=
  match ev with
  | FilesCreate _ (Rejected reason) => Some reason
  | ResponsesCreate _ (Rejected reason) => Some reason
  | _ => None
  end.

(** The restyle pass is the model call made at temperature 0.4. *)
Definition is_restyle_call (ev : Event) : bool :=
  match ev with
  | ResponsesCreate p _ => Qeq_bool (temperature p) (4 # 10)
  | FilesCreate _ _ => false
  end.

Definition restyle_attempted (tr : list Event) : bool :=
  existsb is_restyle_call tr.

(** A block that does not make the restyle call. *)
Definition no_restyle {A} (m : M A) : Prop := restyle_attempted (snd m) = false.

(** [contentType.includes('multipart/form-data')] *)
Definition is_multipart (request : Request) : bool :=
  includes (match content_type request with Some c => c | None => [] end)
           (lit "multipart/form-data").

(** The [notes] field of the form, when it is a string, has at most 10,000
    code units. *)
Definition notes_field_within_limit (form : FormData) : Prop :=
  match form_get (lit "notes") form with
  | Some (EntryString n) => js_length n <= 10000
  | _ => True
  end.

(** The size-rejection response of the multipart branch. *)
Definition file_too_large (rt : Runtime) (env : Env) : Response :=
  {| status := 413;
     body := ErrorBody (lit "File is too large. Maximum is "
                        ++ toLocaleString rt (MAX_FILE_BYTES env)
                        ++ lit " bytes.");
     headers := [] |}.

(** The size-rejection response of the JSON branch. *)
Definition text_too_large (rt : Runtime) (env : Env) : Response :=
  {| status := 413;
     body := ErrorBody (lit "Input text is too large. Maximum is "
                        ++ toLocaleString rt (MAX_INPUT_CHARS env)
                        ++ lit " characters.");
     headers := [] |}.

Definition unexpected_shape : Response :=
  {| status := 502;
     body := ErrorBody (lit "Model returned an unexpected response shape. Please try again.");
     headers := [] |}.

Definition invalid_request_format : Response :=
  {| status := 400;
     body := ErrorBody (lit "Invalid request format");
     headers := [] |}.

(** The [notes] property of a JSON body is absent or a string of at most
    10,000 code units. *)
Definition notes_property_valid (body : value) : Prop :=
  match prop "notes" body with
  | VUndefined => True
  | VStr n => js_length n <= 10000
  | _ => False
  end.

(** An issue list with a [too_big] entry, as the JSON branch tests it. *)
Definition has_too_big (issues : list Zod.Issue) : bool :=
  existsb (fun issue => match Zod.code issue with
                        | Zod.too_big => true
                        | _ => false
                        end) issues.

(** The error response built from a provider failure: the provider's status
    when it is a number and 500 otherwise, and as message the provider's
    nested or top-level message, trimmed, or the fixed fallback text. *)
Definition upstream_status (reason : value) : Z :=
  match prop "status" reason with
  | VNum n => n
  | _ => 500
  end.

Definition upstream_message (reason : value) : jsstring :=
  match trimmed_string (prop "message" (prop "error" reason)) with
  | Some m => m
  | None =>
      match trimmed_string (prop "message" reason) with
      | Some m => m
      | None => lit "Failed to analyze input. Please try again."
      end
  end.


(** A status that a response with a body can carry: an integer from 200 to
    599 other than 204, 205 and 304. *)
Definition usable_status (n : Z) : bool :=
  ((200 <=? n) && (n <=? 599)
   && negb ((n =? 204) || (n =? 205) || (n =? 304)))%bool.

(** The first model call of the request returned the non-empty text [raw],
    after the provider calls [tr]; [notes] are the request's validated
    notes. *)
Definition first_pass_yields (env : Env) (rt : Runtime) (systemPrompt : jsstring)
           (openai : OpenAI) (request : Request)
           (raw : jsstring) (notes : option jsstring) (tr : list Event) : Prop :=
  falsy_string (OPENAI_API_KEY env) = false
  /\ first_pass env rt systemPrompt openai request = (Normal (Some raw, notes), tr)
  /\ truthy_string raw = true.

(** A block lets the rejection of a provider call propagate: when one of
    its calls was rejected, the block throws the rejection's reason. *)
Definition rejections_propagate {A} (m : M A) : Prop :=
  forall ev reason,
    In ev (snd m) -> rejection ev = Some reason -> fst m = Throw (Thrown reason).

(** [validated] is what the response schema yields on some text that
    [JSON.parse] accepts. *)
Definition validated_output (rt : Runtime) (validated : TransformResponse) : Prop :=
  exists t v,
    JSON_parse rt t = Some v /\ transformResponseSchema [] v = Zod.Data validated.

(** A block returns early only with error bodies. *)
Definition returns_errors {A} (m : M A) : Prop :=
  forall resp, fst m = Return resp -> exists msg, body resp = ErrorBody msg.

(** The status and the body of the response the handler answers with; none
    when the handler throws. *)
Definition status_of (outcome : Awaited Response) : option Z :=
  match outcome with
  | Resolved resp => Some (status resp)
  | Rejected _ => None
  end.

Definition body_of (outcome : Awaited Response) : option Body :=
  match outcome with
  | Resolved resp => Some (body resp)
  | Rejected _ => None
  end.

Definition headers_of (outcome : Awaited Response)
  : option (list (jsstring * jsstring)) :=
  match outcome with
  | Resolved resp => Some (headers resp)
  | Rejected _ => None
  end.

(** Two handler runs with the same provider calls, status and body; when
    one of them throws, so does the other, and the same. *)
Definition same_calls_status_body (a b : Awaited Response * list Event) : Prop :=
  snd a = snd b
  /\ match fst a, fst b with
     | Resolved ra, Resolved rb => status ra = status rb /\ body ra = body rb
     | Rejected ea, Rejected eb => ea = eb
     | _, _ => False
     end.

(* ================================================================== *)
(** ** Sample requests and worlds *)

Definition str (s : string) : value := VStr (lit s).
Arguments str s%_string.

Definition obj (fields : list (string * value)) : value :=
  VObj (map (fun kv => (lit (fst kv), snd kv)) fields).

(** A JSON request with body [{ text, notes? }]. *)
Definition json_request (t : jsstring) (n : option jsstring) : Request := {|
  content_type := Some (lit "application/json");
  formData := Rejected (Error_ "Content-Type was not multipart/form-data");
  json := Resolved (VObj ((lit "text", VStr t)
                          :: match n with
                             | Some n' => [(lit "notes", VStr n')]
                             | None => []
                             end))
|}.

(** A multipart request with a [file] field and an optional [notes]
    field. *)
Definition multipart_request (f : File) (n : option jsstring) : Request := {|
  content_type := Some (lit "multipart/form-data; boundary=----x");
  formData := Resolved ((lit "file", EntryFile f)
                        :: match n with
                           | Some n' => [(lit "notes", EntryString n')]
                           | None => []
                           end);
  json := Rejected (Error_ "Unexpected token")
|}.

(** en-US digit grouping, the usual result of [toLocaleString] on the
    server. *)
Fixpoint group3 (digits_rev : jsstring) : jsstring :=
  match digits_rev with
  | a :: b :: c :: ((_ :: _) as rest) => a :: b :: c :: 44%N :: group3 rest
  | l => l
  end.

Definition toLocaleString_en_US (n : Z) : jsstring :=
  rev (group3 (rev (String_of_number n))).

(** A runtime whose [JSON.parse] knows the given texts. *)
Definition table_runtime (tbl : list (jsstring * value)) : Runtime := {|
  JSON_parse := fun t => match lookup t tbl with
                         | VUndefined => None
                         | v => Some v
                         end;
  JSON_stringify := fun r => lit "{...}";
  toLocaleString := toLocaleString_en_US
|}.

(** A provider with fixed outcomes for the upload, the first pass and the
    restyle pass. *)
Definition scripted (upload : Awaited jsstring)
           (first second : Awaited (option jsstring)) : OpenAI := {|
  files_create := fun _ => upload;
  responses_create := fun p =>
    if Qeq_bool (temperature p) (4 # 10) then second else first
|}.

Definition sample_output : value :=
  obj [("title", str "Launch plan");
       ("summary", str "Launch on March 15 with a 250k budget.");
       ("sections", VArr [obj [("heading", str "Budget");
                               ("bullets", VArr [str "250k"; str ""])]]);
       ("next_actions",
        VArr [obj [("action", str "Schedule design review");
                   ("first_step", str "Email the design team")];
              obj [("action", str "  "); ("first_step", str "")]])]%string.

Definition sample_restyled : value :=
  obj [("title", str "Ode to a launch");
       ("summary", str "On March 15 we fly, with 250k held high.");
       ("sections", VArr []);
       ("next_actions", VArr [])]%string.

(** Valid JSON that omits [summary]. *)
Definition sample_missing_summary : value :=
  obj [("title", str "Launch plan");
       ("sections", VArr []);
       ("next_actions", VArr [])]%string.

Definition sample_runtime : Runtime :=
  table_runtime [(lit "first", sample_output);
                 (lit "restyled", sample_restyled);
                 (lit "no-summary", sample_missing_summary)].

Definition sample_env : Env := default_env (Some (lit "sk-test")).

(** What the response schema yields on [sample_output]. *)
Definition sample_validated : TransformResponse := {|
  title := lit "Launch plan";
  summary := lit "Launch on March 15 with a 250k budget.";
  sections := [{| heading := lit "Budget"; bullets := [lit "250k"; lit ""] |}];
  next_actions := [{| action := lit "Schedule design review";
                      first_step := lit "Email the design team" |};
                   {| action := lit "  "; first_step := lit "" |}]
|}.

(** A provider whose upload and first pass succeed with the given output
    and whose restyle pass has the given outcome. *)
Definition sample_openai (first : jsstring)
           (second : Awaited (option jsstring)) : OpenAI :=
  scripted (Resolved (lit "file-1")) (Resolved (Some first)) second.

Definition sample_POST (openai : OpenAI) (request : Request)
  : Awaited Response * list Event :=
  POST sample_env sample_runtime (lit "policy") openai request.

Definition sample_file (size : Z) : File := {|
  file_name := lit "results.csv";
  file_type := lit "text/csv";
  file_size := size
|}.

Definition rate_limited : value :=
  obj [("status", VNum 429);
       ("message", str "429 Rate limit reached");
       ("error", obj [("message", str " Rate limit reached ");
                      ("type", str "rate_limit_error");
                      ("code", str "rate_limit_exceeded")]);
       ("headers", obj [("x-request-id", str "req_123")])]%string.



(* ================================================================== *)
(** ** Further vocabulary *)

(** An error response with a fixed message. *)
Definition error_response (st : Z) (msg : string) : Response :=
  {| status := st; body := ErrorBody (lit msg); headers := [] |}.
Arguments error_response st msg%_string.

(** The [text] property of a JSON body is not a string longer than
    MAX_INPUT_CHARS. *)
Definition text_not_oversize (env : Env) (body : value) : Prop :=
  match prop "text" body with
  | VStr s => js_length s <= MAX_INPUT_CHARS env
  | _ => True
  end.

(** The [notes] property of a JSON body is not a string longer than 10,000
    code units. *)
Definition notes_not_oversize (body : value) : Prop :=
  match prop "notes" body with
  | VStr n => js_length n <= 10000
  | _ => True
  end.

(** The form has no [file] field that is a file. *)
Definition no_file_field (form : FormData) : Prop :=
  match form_get (lit "file") form with
  | Some (EntryFile _) => False
  | _ => True
  end.

(** No provider call follows a rejected one. *)
Definition stops_at_failure (tr : list Event) : Prop :=
  forall tr1 ev tr2, tr = tr1 ++ ev :: tr2 -> rejection ev <> None -> tr2 = [].

(** The text of a content item contains the word JSON. *)
Definition mentions_JSON (c : InputContent) : bool :=
  match c with
  | input_text t => includes t (lit "JSON")
  | _ => false
  end.

(** A model call in JSON mode: the [json_object] format, with the word JSON
    in its input text (the provider refuses the format otherwise). *)
Definition json_mode_call (ev : Event) : bool :=
  match ev with
  | ResponsesCreate p _ =>
      (jsstring_eqb (text_format p) (lit "json_object")
       && existsb mentions_JSON (content p))%bool
  | FilesCreate _ _ => true
  end.

(** An error body carries a non-empty message and comes without headers. *)
Definition sound_error (resp : Response) : Prop :=
  forall msg, body resp = ErrorBody msg -> msg <> [] /\ headers resp = [].

(** A block returns early only with sound responses. *)
Definition returns_sound {A} (m : M A) : Prop :=
  forall resp, fst m = Return resp -> sound_error resp.

(** What the handler settles to is, when it is a response, a sound one. *)
Definition settles_sound (outcome : Awaited Response) : Prop :=
  match outcome with
  | Resolved resp => sound_error resp
  | Rejected _ => True
  end.

(** A block that ends with a response ends with a sound one. *)
Definition completes_sound (m : M Response) : Prop :=
  match fst m with
  | Normal r => sound_error r
  | Return r => sound_error r
  | Throw _ => True
  end.

(** The JavaScript object of a TransformResponse, as it is serialized into
    the response body and read back by whoever parses that body. *)
Definition section_value (s : Section_) : value :=
  VObj [(lit "heading", VStr (heading s));
        (lit "bullets", VArr (map VStr (bullets s)))].

Definition next_action_value (a : NextAction) : value :=
  VObj [(lit "action", VStr (action a));
        (lit "first_step", VStr (first_step a))].

Definition response_value (r : TransformResponse) : value :=
  VObj [(lit "title", VStr (title r));
        (lit "summary", VStr (summary r));
        (lit "sections", VArr (map section_value (sections r)));
        (lit "next_actions", VArr (map next_action_value (next_actions r)))].

(** The keys of the response schema. *)
Definition response_key (k : jsstring) : bool :=
  (jsstring_eqb (lit "title") k || jsstring_eqb (lit "summary") k
   || jsstring_eqb (lit "sections") k || jsstring_eqb (lit "next_actions") k)%bool.

(** Notes, when present, of at most 10,000 code units. *)
Definition notes_bounded (notes : option jsstring) : Prop :=
  match notes with
  | Some n => js_length n <= 10000
  | None => True
  end.

(** The arguments of the first model call of a JSON request. *)
Definition text_call (env : Env) (systemPrompt : jsstring)
           (t : jsstring) (notes : option jsstring) : ResponsesCreateParams :=
  {| model := OPENAI_TEXT_MODEL env;
     instructions := systemPrompt;
     content := [input_text (buildTextUserPrompt t notes)];
     text_format := lit "json_object";
     temperature := 1 # 10 |}.

(** The arguments of the first model call of a multipart request, for the
    uploaded file's id. *)
Definition file_call (env : Env) (systemPrompt : jsstring)
           (f : File) (id : jsstring) (notes : option jsstring)
  : ResponsesCreateParams :=
  {| model := OPENAI_FILE_MODEL env;
     instructions := systemPrompt;
     content := [input_text (buildFileUserPrompt notes);
                 if startsWith (file_type f) (lit "image/")
                 then input_image (lit "auto") id
                 else input_file id];
     text_format := lit "json_object";
     temperature := 1 # 10 |}.

(** The notes of a JSON body, once validated. *)
Definition body_notes (body : value) : option jsstring :=
  match prop "notes" body with
  | VStr n => Some n
  | _ => None
  end.

(** The notes of a form, once validated. *)
Definition form_notes (form : FormData) : option jsstring :=
  match form_get (lit "notes") form with
  | Some (EntryString n) => Some n
  | _ => None
  end.

(** The notes a request carries, as the handler reads them: the string in
    the [notes] field of the form, or in the [notes] property of the JSON
    body. *)
Definition request_notes (request : Request) : option jsstring :=
  if is_multipart request then
    match formData request with
    | Resolved form => form_notes form
    | Rejected _ => None
    end
  else
    match json request with
    | Resolved body => body_notes body
    | Rejected _ => None
    end.

(** A configuration with small limits: 5 characters, 8 bytes. *)
Definition small_env : Env := {|
  OPENAI_API_KEY := Some (lit "sk-test");
  MAX_INPUT_CHARS := 5;
  MAX_FILE_BYTES := 8;
  OPENAI_TEXT_MODEL := lit "gpt-4o";
  OPENAI_FILE_MODEL := lit "gpt-4o-mini"
|}.

(* ================================================================== *)
(** ** Thrown values as [instanceof Error] sees them *)

(** What a [catch] clause that tests [err instanceof Error] sees: an [Error]
    with its message, or some other thrown value. *)
Inductive Caught :=
| AnError (message : jsstring)
| NotAnError.

(** Outcome of awaiting a promise whose rejection is inspected that way. *)
Inductive Settled (A : Type) : Type :=
| Fulfilled (a : A)
| Failed (err : Caught).
Arguments Fulfilled {A} a.
Arguments Failed {A} err.

(* ================================================================== *)
(** ** The page: what the client sends and what it shows *)

Module Page.

(** Kept in sync with the server's MAX_INPUT_CHARS by hand. *)
Definition MAX_TEXT_CHARS : Z := 100000.

(** [getMeaningfulNextActions] *)
Definition getMeaningfulNextActions (output : TransformResponse) : list NextAction :=
  filter (fun a => ((js_length (trim (action a)) >? 0)
                    && (js_length (trim (first_step a)) >? 0))%bool)
         (next_actions output).

(** What the page reads of a fetched response: [response.status],
    [await response.json()] and [await response.text()]. *)
Record Fetched := {
  fetched_status : Z;
  fetched_json : Settled value;
  fetched_text : Settled jsstring
}.

(** [response.ok] *)
Definition ok (response : Fetched) : bool :=
  ((200 <=? fetched_status response) && (fetched_status response <=? 299))%bool.

(** Built-ins of the browser the page relies on: the message of a
    [ZodError], [String(v)] for a value that is not a string,
    [toLocaleString] and the boundary of a multipart body. *)
Record Browser := {
  zod_message : list Zod.Issue -> jsstring;
  ToString : value -> jsstring;
  number_toLocaleString : Z -> jsstring;
  boundary : jsstring
}.

(** The request the server receives for
    [fetch('/api/transform', { body: JSON.stringify({ text: inputText }) })]
    with the JSON content type. *)
Definition text_request (inputText : jsstring) : Request := {|
  content_type := Some (lit "application/json");
  formData := Rejected (Error_ "Content-Type was not multipart/form-data");
  json := Resolved (VObj [(lit "text", VStr inputText)])
|}.

(** The request the server receives for the [FormData] body, which holds
    the selected file when there is one. *)
Definition file_request (browser : Browser) (selectedFile : option File) : Request := {|
  content_type := Some (lit "multipart/form-data; boundary=" ++ boundary browser);
  formData := Resolved match selectedFile with
                       | Some f => [(lit "file", EntryFile f)]
                       | None => []
                       end;
  json := Rejected (Error_ "Unexpected token")
|}.

(** What [handleMakeUsable] leaves on the page: nothing new, an error
    message ([setError]) or an output ([setOutput]). *)
Inductive Shown :=
| Unchanged
| ShowError (message : jsstring)
| ShowOutput (output : TransformResponse).

(** [data?.error || message] *)
Definition error_or (data : value) (message : jsstring) : value :=
  if truthy (prop "error" data) then prop "error" data else VStr message.

(** The message of [new Error(v)]. *)
Definition Error_message (browser : Browser) (v : value) : jsstring :=
  match v with
  | VStr s => s
  | _ => ToString browser v
  end.

Section Handlers.

Variable browser : Browser.
(** [fetch] to [/api/transform]: the response, or the error thrown. *)
Variable fetch : Request -> Settled Fetched.

(** The request [handleMakeUsable] sends, by whether there is text. *)
Definition request_of (inputText : jsstring) (selectedFile : option File) : Request :=
  if js_length (trim inputText) >? 0
  then text_request inputText
  else file_request browser selectedFile.

(** The [try] block of [handleMakeUsable]: the validated output, or what
    was thrown. *)
Definition exchange (request : Request) : TransformResponse + Caught :=
  match fetch request with
  | Failed err => inr err
  | Fulfilled response =>
      if negb (ok response) then
        let message :=
          lit "Request failed (" ++ String_of_number (fetched_status response)
          ++ lit ")" in
        let message :=
          match fetched_json response with
          | Fulfilled data => error_or data message
          | Failed _ =>
              match fetched_text response with
              | Fulfilled t => if truthy_string t then VStr t else VStr message
              | Failed _ => VStr message
              end
          end in
        inr (AnError (Error_message browser message))
      else
        match fetched_json response with
        | Failed err => inr err
        | Fulfilled data =>
            match transformResponseSchema [] data with
            | Zod.Data validated => inl validated
            | Zod.Issues issues => inr (AnError (zod_message browser issues))
            end
        end
  end.

Definition handleMakeUsable (inputText : jsstring) (selectedFile : option File) : Shown :=
  let noFile := match selectedFile with Some _ => false | None => true end in
  if (noFile && negb (truthy_string (trim inputText)))%bool then Unchanged
  else if (noFile && (js_length inputText >? MAX_TEXT_CHARS))%bool then
    ShowError (lit "This input is too long ("
               ++ number_toLocaleString browser (js_length inputText)
               ++ lit " chars). Maximum is "
               ++ number_toLocaleString browser MAX_TEXT_CHARS
               ++ lit " chars. Try shortening the text or uploading a file instead.")
  else
    match exchange (request_of inputText selectedFile) with
    | inl validated => ShowOutput validated
    | inr (AnError message) => ShowError message
    | inr NotAnError =>
        ShowError (lit "An unexpected error occurred. Please try again.")
    end.

End Handlers.

(** The guards of [handleMakeUsable] let the request go out: there is a
    file or some non-whitespace text, and without a file the text is within
    MAX_TEXT_CHARS. *)
Definition sends (inputText : jsstring) (selectedFile : option File) : bool :=
  match selectedFile with
  | Some _ => true
  | None => (truthy_string (trim inputText)
             && negb (js_length inputText >? MAX_TEXT_CHARS))%bool
  end.

(** The body of a server response as [response.json()] yields it. *)
Definition body_value (b : Body) : value :=
  match b with
  | ErrorBody msg => VObj [(lit "error", VStr msg)]
  | TransformBody r => response_value r
  end.

(** A response of the route handler as the page fetches it; [raw] is what
    [response.text()] would yield. *)
Definition on_the_wire (raw : Settled jsstring) (resp : Response) : Fetched :=
  {| fetched_status := status resp;
     fetched_json := Fulfilled (body_value (body resp));
     fetched_text := raw |}.

(** [fetch] answered by the route handler; [crash] is what the page gets
    from the framework when the handler throws. *)
Definition served (env : Env) (rt : Runtime) (systemPrompt : jsstring)
           (openai : OpenAI) (raw : Settled jsstring) (crash : Settled Fetched)
           (request : Request) : Settled Fetched :=
  match fst (POST env rt systemPrompt openai request) with
  | Resolved resp => Fulfilled (on_the_wire raw resp)
  | Rejected _ => crash
  end.

Definition sample_browser : Browser := {|
  zod_message := fun _ => lit "[ ... ]";
  ToString := fun _ => lit "[object Object]";
  number_toLocaleString := toLocaleString_en_US;
  boundary := lit "----WebKitFormBoundaryx"
|}.

End Page.

(* ================================================================== *)
(** ** The text-only route handler *)

(** The route handler of [app/api/transform/route.ts]: JSON bodies with a
    [text] only, one chat completion, no sanitization. *)
Module TextOnly.

(** [z.object({ text: z.string().min(1).max(MAX_INPUT_CHARS) })]; the
    result is its [.text]. *)
Definition transformRequestSchema (env : Env) : Zod.Schema jsstring :=
  fun p input =>
    if Zod.is_object input then
      Zod.field "text" (Zod.string_ (Some 1) (Some (MAX_INPUT_CHARS env))) p input
    else Zod.Issues [{| Zod.code := Zod.invalid_type; Zod.path := p |}].

(** Arguments of [openai.chat.completions.create]. *)
Record ChatParams := {
  chat_model : jsstring;
  system_content : jsstring;
  user_content : jsstring;
  response_format : jsstring;
  chat_temperature : Q
}.

(** The provider: [chat.completions.create] settles to
    [choices[0]?.message?.content] ([None] when it is missing or [null]). *)
Record OpenAI := {
  chat_completions_create : ChatParams -> Settled (option jsstring)
}.

(** [NextResponse.json({ error: msg }, { status: st })] *)
Definition respond (st : Z) (msg : string) : Awaited Response :=
  NextResponse_json (ErrorBody (lit msg)) (Some st) [].
Arguments respond st msg%_string.

(** A [return NextResponse.json(...)] inside the second [try]: what the
    constructor throws there is an [Error], which the [catch] answers. *)
Definition in_try (r : Awaited Response) : Awaited Response :=
  match r with
  | Resolved resp => Resolved resp
  | Rejected _ => respond 500 "Failed to transform text. Please try again."
  end.

Section Handler.

Variable env : Env.
Variable rt : Runtime.
(** The fixed system prompt of this handler. *)
Variable systemPrompt : jsstring.
Variable openai : OpenAI.

Definition chat_params (text : jsstring) : ChatParams :=
  {| chat_model := lit "gpt-4o";
     system_content := systemPrompt;
     user_content := text;
     response_format := lit "json_object";
     chat_temperature := 1 # 10 |}.

(** The second [try] of the handler and its [catch] (lines 56-128), for a
    validated text. *)
Definition transform (text : jsstring) : Awaited Response :=
  match chat_completions_create openai (chat_params text) with
  | Failed (AnError _) => respond 500 "Failed to transform text. Please try again."
  | Failed NotAnError => respond 500 "An unexpected error occurred"
  | Fulfilled content =>
      match content with
      | Some c =>
          if truthy_string c then
            match JSON_parse rt c with
            | None =>
                in_try (respond 502 "Model returned an invalid response format. Please try again.")
            | Some parsed =>
                match transformResponseSchema [] parsed with
                | Zod.Issues _ =>
                    respond 502 "Model returned an unexpected response shape. Please try again."
                | Zod.Data validated =>
                    in_try (NextResponse_json (TransformBody validated) None [])
                end
            end
          else respond 500 "Failed to transform text. Please try again."
      | None => respond 500 "Failed to transform text. Please try again."
      end
  end.

(** The body of [POST] (lines 32-129): what the handler's promise settles
    to and the chat calls made. *)
Definition handle (request : Request) : Awaited Response * list ChatParams :=
  match json request with
  | Rejected _ => (respond 400 "Invalid request body", [])
  | Resolved body =>
      match transformRequestSchema env [] body with
      | Zod.Issues issues =>
          let tooBig :=
            existsb (fun issue =>
                       match Zod.code issue with
                       | Zod.too_big => true
                       | _ => false
                       end) issues in
          (NextResponse_json
             (ErrorBody
                (if tooBig
                 then lit "Input text is too large. Maximum is "
                      ++ toLocaleString rt (MAX_INPUT_CHARS env)
                      ++ lit " characters."
                 else lit "Invalid request format"))
             (Some (if tooBig then 413 else 400)) [], [])
      | Zod.Data text => (transform text, [chat_params text])
      end
  end.

(** The module builds its client when it is loaded (lines 5-7):
    [new OpenAI({ apiKey: process.env.OPENAI_API_KEY })] throws when the
    key is undefined, and the route is then without a handler. *)
Definition module_loads : bool :=
  match OPENAI_API_KEY env with
  | Some _ => true
  | None => false
  end.

(** [POST], where the module exports it. *)
Definition POST (request : Request)
  : option (Awaited Response * list ChatParams) :=
  if module_loads then Some (handle request) else None.

End Handler.

End TextOnly.

(* ================================================================== *)
(** * Properties *)

(** ** Strings *)

Lemma jsstring_eqb_eq (a b : jsstring) : jsstring_eqb a b = true <-> a = b.
Proof.
  revert b; induction a as [|x a IH]; intros [|y b]; simpl;
    try (split; [discriminate | congruence]); [tauto|].
  rewrite andb_true_iff, N.eqb_eq, IH.
  split; [intros [-> ->]; reflexivity | intros [= -> ->]; auto].
Qed.

Lemma trimStart_nil (s : jsstring) : trimStart s = [] <-> blank s = true.
Proof.
  induction s as [|c s IH]; simpl; [tauto|].
  destruct (isWhiteSpace c); simpl; [exact IH|].
  split; discriminate.
Qed.

(** What [trimStart] leaves is empty or begins with a non-whitespace
    unit. *)
Lemma trimStart_blank (s : jsstring) :
  blank (trimStart s) = true -> trimStart s = [].
Proof.
  induction s as [|c s IH]; simpl; [reflexivity|].
  destruct (isWhiteSpace c) eqn:Hc; [exact IH|].
  simpl; rewrite Hc; discriminate.
Qed.

Lemma blank_rev (s : jsstring) : blank (rev s) = blank s.
Proof.
  unfold blank; induction s as [|c s IH]; simpl; [reflexivity|].
  rewrite forallb_app, IH; simpl.
  rewrite andb_true_r; apply andb_comm.
Qed.

Lemma rev_nil_iff {A} (l : list A) : rev l = [] <-> l = [].
Proof.
  split; [|intros ->; reflexivity].
  intros H; apply (f_equal (@rev A)) in H.
  rewrite rev_involutive in H; exact H.
Qed.

Lemma trim_nil (s : jsstring) : trim s = [] <-> blank s = true.
Proof.
  unfold trim, trimEnd; split.
  - intros H; apply rev_nil_iff, trimStart_nil in H.
    rewrite blank_rev in H.
    apply trimStart_nil, trimStart_blank, H.
  - intros H; apply trimStart_nil in H; rewrite H; reflexivity.
Qed.

(** [s.trim().length > 0] holds exactly of the strings with a
    non-whitespace unit. *)
Lemma trim_length_pos (s : jsstring) :
  (js_length (trim s) >? 0) = negb (blank s).
Proof.
  destruct (blank s) eqn:Hb; simpl.
  - apply trim_nil in Hb; rewrite Hb; reflexivity.
  - destruct (trim s) eqn:Ht.
    + apply trim_nil in Ht; congruence.
    + unfold js_length; cbn [List.length negb].
      apply Z.gtb_lt; lia.
Qed.

Lemma keep_action_spec (a : NextAction) :
  keep_action a = (negb (blank (action a)) && negb (blank (first_step a)))%bool.
Proof. unfold keep_action; now rewrite !trim_length_pos. Qed.

(** ** Order-preserving selection *)

Section KeptInOrder.

Context {A : Type}.

Hint Constructors kept_in_order : core.

Lemma filter_kept_in_order (f : A -> bool) (l : list A) :
  kept_in_order (filter f l) l.
Proof. induction l as [|x l IH]; simpl; [|destruct (f x)]; auto. Qed.

Lemma filter_idempotent (f : A -> bool) (l : list A) :
  filter f (filter f l) = filter f l.
Proof.
  induction l as [|x l IH]; simpl; [reflexivity|].
  destruct (f x) eqn:Hx; simpl; [rewrite Hx, IH|]; auto.
Qed.

End KeptInOrder.

(** ** Sanitization *)

(** C6: the sanitizer drops exactly the [next_actions] entries whose action
    or first step is empty or whitespace-only, keeps the surviving entries in
    their relative order, and so every retained entry has an action and a
    first step with a non-whitespace character. *)
Theorem sanitize_drops_placeholders (validated : TransformResponse) :
  next_actions (sanitize validated)
  = filter (fun a => negb (placeholder a)) (next_actions validated)
  /\ kept_in_order (next_actions (sanitize validated)) (next_actions validated)
  /\ (forall a, In a (next_actions (sanitize validated))
                <-> In a (next_actions validated) /\ placeholder a = false)
  /\ Forall (fun a => blank (action a) = false /\ blank (first_step a) = false
                      /\ trim (action a) <> [] /\ trim (first_step a) <> [])
            (next_actions (sanitize validated)).
Proof.
  assert (Hf : forall a, keep_action a = negb (placeholder a)).
  { intros a; rewrite keep_action_spec; unfold placeholder.
    now rewrite negb_orb. }
  assert (Hin : forall a, In a (next_actions (sanitize validated))
                <-> In a (next_actions validated) /\ placeholder a = false).
  { intros a; simpl; rewrite filter_In, Hf, negb_true_iff; tauto. }
  split; [|split; [|split]].
  - simpl; apply filter_ext; exact Hf.
  - apply filter_kept_in_order.
  - exact Hin.
  - apply Forall_forall; intros a Ha.
    apply Hin in Ha; destruct Ha as [_ Ha].
    unfold placeholder in Ha; apply orb_false_iff in Ha; destruct Ha as [Ha Hs].
    repeat split; auto; intros Ht; apply trim_nil in Ht; congruence.
Qed.

(** C7: sanitizing twice is the same as sanitizing once. *)
Theorem sanitize_idempotent (validated : TransformResponse) :
  sanitize (sanitize validated) = sanitize validated.
Proof.
  unfold sanitize; simpl; now rewrite filter_idempotent.
Qed.

(** ** Schemas *)

Section SchemaFacts.

Import Zod.

Lemma accepted_string (p : list PathItem) (v : value) :
  accepted (string_ None None p v) = is_string v.
Proof. destruct v; reflexivity. Qed.

Lemma accepted_elements {A} (inner : Schema A) (ok : value -> bool) :
  (forall p v, accepted (inner p v) = ok v) ->
  forall items p i, accepted (elements inner p i items) = forallb ok items.
Proof.
  intros Hok; induction items as [|x items IH]; intros p i; simpl; [reflexivity|].
  rewrite <- (Hok (p ++ [Index i]) x), <- (IH p (S i)).
  destruct (inner (p ++ [Index i]) x), (elements inner p (S i) items); reflexivity.
Qed.

Lemma accepted_array {A} (inner : Schema A) (ok : value -> bool) :
  (forall p v, accepted (inner p v) = ok v) ->
  forall p v, accepted (array inner p v) = is_array_of ok v.
Proof.
  intros Hok p v; destruct v; simpl; try reflexivity.
  now apply accepted_elements.
Qed.

Lemma accepted_section (p : list PathItem) (v : value) :
  accepted (sectionSchema p v) = conforms_section v.
Proof.
  unfold sectionSchema, conforms_section, field.
  destruct (is_object v); [|reflexivity]; simpl.
  rewrite <- (accepted_string (p ++ [Key "heading"])).
  rewrite <- (accepted_array _ _ accepted_string (p ++ [Key "bullets"])).
  destruct (string_ None None _ _), (array _ _ _); reflexivity.
Qed.

Lemma accepted_next_action (p : list PathItem) (v : value) :
  accepted (nextActionSchema p v) = conforms_next_action v.
Proof.
  unfold nextActionSchema, conforms_next_action, field.
  destruct (is_object v); [|reflexivity]; simpl.
  rewrite <- (accepted_string (p ++ [Key "action"])).
  rewrite <- (accepted_string (p ++ [Key "first_step"])).
  destruct (string_ None None _ (prop "action" v)),
           (string_ None None _ (prop "first_step" v)); reflexivity.
Qed.

(** The response schema accepts exactly the values of the
    TransformResponse shape. *)
Lemma accepted_response (p : list PathItem) (v : value) :
  accepted (transformResponseSchema p v) = conforms v.
Proof.
  unfold transformResponseSchema, conforms, field.
  destruct (is_object v); [|reflexivity]; simpl.
  rewrite <- (accepted_string (p ++ [Key "title"])).
  rewrite <- (accepted_string (p ++ [Key "summary"])).
  rewrite <- (accepted_array _ _ accepted_section (p ++ [Key "sections"])).
  rewrite <- (accepted_array _ _ accepted_next_action (p ++ [Key "next_actions"])).
  destruct (string_ None None _ (prop "title" v)),
           (string_ None None _ (prop "summary" v)),
           (array sectionSchema _ _), (array nextActionSchema _ _); reflexivity.
Qed.

Lemma response_rejected (v : value) :
  conforms v = false ->
  exists issues, transformResponseSchema [] v = Issues issues.
Proof.
  rewrite <- (accepted_response []).
  destruct (transformResponseSchema [] v); [discriminate|eauto].
Qed.

Lemma response_accepted (v : value) :
  conforms v = true ->
  exists validated, transformResponseSchema [] v = Data validated.
Proof.
  rewrite <- (accepted_response []).
  destruct (transformResponseSchema [] v); [eauto|discriminate].
Qed.

End SchemaFacts.

(** ** Upstream errors *)

Lemma normalizeOpenAIError_spec (reason : value) :
  normalizeOpenAIError reason
  = {| ne_status := upstream_status reason; ne_message := upstream_message reason |}.
Proof.
  unfold normalizeOpenAIError, upstream_status, upstream_message.
  destruct reason as [| |b|n|s|items|props]; try reflexivity.
  - destruct b; reflexivity.
  - simpl; destruct (n =? 0); reflexivity.
  - simpl; destruct (truthy_string s); reflexivity.
  - cbn [truthy typeof_object negb orb].
    destruct (prop "error" (VObj props)) as [| |b|n|s|items'|props']; try reflexivity.
    + destruct b; reflexivity.
    + simpl truthy; destruct (negb (n =? 0)); reflexivity.
    + simpl truthy; destruct (truthy_string s); reflexivity.
Qed.

Lemma usable_status_in_range (n : Z) :
  usable_status n = true ->
  200 <= n <= 599 /\ null_body_status n = false.
Proof.
  unfold usable_status, null_body_status; intros H.
  apply andb_prop in H as [H Hn]; apply andb_prop in H as [Hlo Hhi].
  apply Z.leb_le in Hlo, Hhi; split; [lia|].
  apply negb_true_iff in Hn.
  apply orb_false_iff in Hn as [Hn H304]; apply orb_false_iff in Hn as [H204 H205].
  rewrite H204, H205, H304.
  replace (n =? 101) with false by (symmetry; apply Z.eqb_neq; lia).
  replace (n =? 103) with false by (symmetry; apply Z.eqb_neq; lia).
  reflexivity.
Qed.

(** [NextResponse.json] builds the response exactly for the usable
    statuses. *)
Lemma NextResponse_json_usable (b : Body) (n : Z) (hs : list (jsstring * jsstring)) :
  usable_status n = true ->
  NextResponse_json b (Some n) hs
  = Resolved {| status := n; body := b; headers := hs |}.
Proof.
  intros H; apply usable_status_in_range in H as [Hr Hn].
  unfold NextResponse_json; rewrite Z.mod_small by lia.
  replace (200 <=? n) with true by (symmetry; apply Z.leb_le; lia).
  replace (n <=? 599) with true by (symmetry; apply Z.leb_le; lia).
  cbn [andb negb]; now rewrite Hn.
Qed.

Lemma NextResponse_json_unusable (b : Body) (n : Z) (hs : list (jsstring * jsstring)) :
  0 <= n < 65536 ->
  usable_status n = false ->
  exists error, NextResponse_json b (Some n) hs = Rejected error.
Proof.
  intros Hr H; unfold NextResponse_json; rewrite Z.mod_small by lia.
  destruct (negb ((200 <=? n) && (n <=? 599))) eqn:Hrange; [eauto|].
  apply negb_false_iff in Hrange.
  unfold usable_status in H; rewrite Hrange in H; cbn [andb] in H.
  apply negb_false_iff in H.
  assert (Hn : null_body_status n = true).
  { unfold null_body_status.
    apply orb_true_iff in H as [H|H]; [apply orb_true_iff in H as [H|H]|];
      rewrite H; rewrite ?orb_true_r; reflexivity. }
  rewrite Hn; eauto.
Qed.

Lemma POST_catch_thrown (reason : value) :
  POST_catch (Thrown reason)
  = NextResponse_json (ErrorBody (upstream_message reason))
      (Some (upstream_status reason)) [].
Proof.
  unfold POST_catch; now rewrite normalizeOpenAIError_spec.
Qed.


(** ** Propagation of provider failures *)

Create HintDb propagate.

Section Propagation.

Variable env : Env.
Variable rt : Runtime.
Variable systemPrompt : jsstring.
Variable openai : OpenAI.

Lemma propagate_silent {A} (m : M A) : snd m = [] -> rejections_propagate m.
Proof. intros H ev reason Hin; rewrite H in Hin; destruct Hin. Qed.

Lemma propagate_bind {A B} (m : M A) (k : A -> M B) :
  rejections_propagate m ->
  (forall a, rejections_propagate (k a)) ->
  rejections_propagate (bind m k).
Proof.
  intros Hm Hk ev reason; destruct m as [[a|r|e] tr]; simpl.
  - specialize (Hk a); destruct (k a) as [c tr'] eqn:Hka; simpl.
    intros Hin Hrej; apply in_app_or in Hin; destruct Hin as [Hin|Hin].
    + specialize (Hm ev reason Hin Hrej); discriminate.
    + exact (Hk ev reason Hin Hrej).
  - intros Hin Hrej; specialize (Hm ev reason Hin Hrej); discriminate.
  - intros Hin Hrej; specialize (Hm ev reason Hin Hrej).
    simpl in Hm; congruence.
Qed.

Lemma propagate_try_catch {A} (m : M A) (h : Exn -> M A) :
  snd m = [] ->
  (forall e, rejections_propagate (h e)) ->
  rejections_propagate (try_catch m h).
Proof.
  intros Hm Hh; destruct m as [[a|r|e] tr]; simpl in *; subst tr;
    try (apply propagate_silent; reflexivity).
  specialize (Hh e); destruct (h e) as [c tr'] eqn:He; exact Hh.
Qed.

Lemma propagate_files_create (p : FilesCreateParams) :
  rejections_propagate (call_files_create openai p).
Proof.
  unfold call_files_create; intros ev reason.
  destruct (files_create openai p) eqn:Hr; simpl;
    intros [<-|[]]; simpl; congruence.
Qed.

Lemma propagate_responses_create (p : ResponsesCreateParams) :
  rejections_propagate (call_responses_create openai p).
Proof.
  unfold call_responses_create; intros ev reason.
  destruct (responses_create openai p) eqn:Hr; simpl;
    intros [<-|[]]; simpl; congruence.
Qed.

Lemma silent_await {A} (p : Awaited A) : snd (await p) = [].
Proof. destruct p; reflexivity. Qed.

Lemma silent_return_json {A} (b : Body) (st : option Z)
      (hs : list (jsstring * jsstring)) :
  snd (@return_json A b st hs) = [].
Proof. unfold return_json; destruct (NextResponse_json b st hs); reflexivity. Qed.

Lemma silent_parse {A} (s : Zod.Schema A) (v : value) : snd (parse s v) = [].
Proof. unfold parse; destruct (s [] v); reflexivity. Qed.

Lemma silent_json_parse (t : jsstring) : snd (json_parse rt t) = [].
Proof. unfold json_parse; destruct (JSON_parse rt t); reflexivity. Qed.

Lemma silent_bind {A B} (m : M A) (k : A -> M B) :
  snd m = [] -> (forall a, snd (k a) = []) -> snd (bind m k) = [].
Proof.
  intros Hm Hk; destruct m as [[a|r|e] tr]; simpl in *; subst tr; auto.
  specialize (Hk a); destruct (k a); simpl in *; subst; reflexivity.
Qed.

Hint Resolve propagate_silent propagate_bind propagate_try_catch
     propagate_files_create propagate_responses_create
     silent_await silent_return_json silent_parse silent_json_parse
     silent_bind : propagate.

Lemma propagate_multipart (request : Request) :
  rejections_propagate
    (multipart_branch env rt systemPrompt openai request).
Proof.
  unfold multipart_branch.
  apply propagate_bind; [auto with propagate|intros form].
  apply propagate_bind.
  - destruct (form_get (lit "notes") form) as [[s|f]|]; auto with propagate.
  - intros notes.
    destruct (form_get (lit "file") form) as [[s|f]|];
      try (apply propagate_silent; reflexivity).
    destruct (file_size f >? MAX_FILE_BYTES env);
      [apply propagate_silent; reflexivity|].
    apply propagate_bind; [auto with propagate|intros uploaded].
    apply propagate_bind; [auto with propagate|intros response].
    apply propagate_silent; reflexivity.
Qed.

Lemma propagate_json (request : Request) :
  rejections_propagate (json_branch env rt systemPrompt openai request).
Proof.
  unfold json_branch.
  apply propagate_bind.
  - apply propagate_try_catch; [auto with propagate|].
    intros [issues|reason]; apply propagate_silent; apply silent_return_json.
  - intros parsed.
    apply propagate_bind; [auto with propagate|intros response].
    apply propagate_silent; reflexivity.
Qed.

Lemma propagate_first_pass (request : Request) :
  rejections_propagate (first_pass env rt systemPrompt openai request).
Proof.
  unfold first_pass.
  destruct (includes _ _); [apply propagate_multipart|apply propagate_json].
Qed.

Lemma propagate_rewrite_pass (validated : TransformResponse)
      (notes : option jsstring) :
  rejections_propagate (rewrite_pass env rt openai validated notes).
Proof.
  unfold rewrite_pass.
  destruct (shouldApplyNotesRewritePass notes);
    [|apply propagate_silent; reflexivity].
  apply propagate_bind; [auto with propagate|intros [t|]];
    [|apply propagate_silent; reflexivity].
  destruct (truthy_string t); [|apply propagate_silent; reflexivity].
  apply propagate_try_catch; [auto with propagate|].
  intros e; apply propagate_silent; reflexivity.
Qed.



End Propagation.

(** ** The stages of the handler *)

Lemma shouldApplyNotesRewritePass_spec (notes : option jsstring) :
  shouldApplyNotesRewritePass notes = notes_present notes.
Proof.
  destruct notes as [n|]; [|reflexivity].
  unfold shouldApplyNotesRewritePass, notes_given, notes_present.
  rewrite trim_length_pos.
  destruct n; reflexivity.
Qed.

(** The success response is the one [NextResponse.json] builds from the
    sanitized output. *)
Lemma return_json_delivered {A} (validated : TransformResponse)
      (notes : option jsstring) :
  @return_json A (TransformBody (sanitize validated)) None (notes_length_header notes)
  = return_ (delivered validated notes).
Proof. reflexivity. Qed.

Lemma return_json_usable {A} (b : Body) (n : Z) (hs : list (jsstring * jsstring)) :
  usable_status n = true ->
  @return_json A b (Some n) hs
  = return_ {| status := n; body := b; headers := hs |}.
Proof.
  intros H; unfold return_json; now rewrite (NextResponse_json_usable b n hs H).
Qed.

(** A [return NextResponse.json(...)] with a usable constant status
    returns the response. *)
Ltac answer :=
  repeat match goal with
         | |- context [@return_json ?A ?b (Some ?n) ?hs] =>
             rewrite (@return_json_usable A b n hs eq_refl)
         end.

(** Reduction of the control-flow combinators only. *)
Ltac flow :=
  cbn [bind ret throw return_ try_catch await app fst snd];
  answer;
  cbn [bind ret throw return_ try_catch await app fst snd].

Ltac kept validated :=
  exists validated; split; [reflexivity | left; reflexivity].

Section Stages.

Variable env : Env.
Variable rt : Runtime.
Variable systemPrompt : jsstring.
Variable openai : OpenAI.

(** The result of the second pass once its call has resolved: the
    rewritten output when it is present, parses and validates, and the
    first pass's output otherwise. *)
Lemma rewrite_pass_resolved (validated : TransformResponse)
      (notes : option jsstring) (out : option jsstring) :
  notes_present notes = true ->
  responses_create openai (rewrite_params env rt validated notes) = Resolved out ->
  exists final,
    rewrite_pass env rt openai validated notes
    = (Normal final,
       [ResponsesCreate (rewrite_params env rt validated notes) (Resolved out)])
    /\ (final = validated
        \/ exists t v, out = Some t /\ JSON_parse rt t = Some v
                       /\ transformResponseSchema [] v = Zod.Data final).
Proof.
  intros Hn Hr; unfold rewrite_pass, call_responses_create.
  rewrite shouldApplyNotesRewritePass_spec, Hn, Hr; simpl.
  destruct out as [t|]; [|kept validated].
  destruct (truthy_string t); [|kept validated].
  unfold json_parse; destruct (JSON_parse rt t) as [v|] eqn:Hv; simpl;
    [|kept validated].
  unfold parse; destruct (transformResponseSchema [] v) as [final|issues] eqn:Hs;
    simpl; [|kept validated].
  exists final; split; [reflexivity|right; eauto].
Qed.

(** The second pass falls back to the first pass's output when its call
    resolves without a usable rewrite. *)
Lemma rewrite_pass_fallback (validated : TransformResponse)
      (notes : option jsstring) (out : option jsstring) :
  notes_present notes = true ->
  responses_create openai (rewrite_params env rt validated notes) = Resolved out ->
  (forall t v, out = Some t -> truthy_string t = true ->
               JSON_parse rt t = Some v -> conforms v = false) ->
  rewrite_pass env rt openai validated notes
  = (Normal validated,
     [ResponsesCreate (rewrite_params env rt validated notes) (Resolved out)]).
Proof.
  intros Hn Hr Hbad; unfold rewrite_pass, call_responses_create.
  rewrite shouldApplyNotesRewritePass_spec, Hn, Hr; simpl.
  destruct out as [t|]; [|reflexivity].
  destruct (truthy_string t) eqn:Ht; [|reflexivity].
  unfold json_parse; destruct (JSON_parse rt t) as [v|] eqn:Hv; simpl;
    [|reflexivity].
  destruct (response_rejected v (Hbad t v eq_refl Ht Hv)) as [issues Hi].
  unfold parse; rewrite Hi; reflexivity.
Qed.

Lemma rewrite_pass_rejected (validated : TransformResponse)
      (notes : option jsstring) (reason : value) :
  notes_present notes = true ->
  responses_create openai (rewrite_params env rt validated notes) = Rejected reason ->
  rewrite_pass env rt openai validated notes
  = (Throw (Thrown reason),
     [ResponsesCreate (rewrite_params env rt validated notes) (Rejected reason)]).
Proof.
  intros Hn Hr; unfold rewrite_pass, call_responses_create.
  now rewrite shouldApplyNotesRewritePass_spec, Hn, Hr.
Qed.

Lemma rewrite_pass_skipped (validated : TransformResponse)
      (notes : option jsstring) :
  notes_present notes = false ->
  rewrite_pass env rt openai validated notes = (Normal validated, []).
Proof.
  intros Hn; unfold rewrite_pass.
  now rewrite shouldApplyNotesRewritePass_spec, Hn.
Qed.

Lemma respond_schema_error (raw : jsstring) (notes : option jsstring)
      (v : value) (issues : list Zod.Issue) :
  truthy_string raw = true ->
  JSON_parse rt raw = Some v ->
  transformResponseSchema [] v = Zod.Issues issues ->
  respond env rt openai (Some raw) notes = (Throw (ZodError issues), []).
Proof.
  intros Ht Hv Hs; unfold respond, json_parse, parse.
  rewrite Ht; flow; rewrite Hv; flow; rewrite Hs; reflexivity.
Qed.

Lemma respond_validated (raw : jsstring) (notes : option jsstring)
      (v : value) (validated : TransformResponse) :
  truthy_string raw = true ->
  JSON_parse rt raw = Some v ->
  transformResponseSchema [] v = Zod.Data validated ->
  respond env rt openai (Some raw) notes
  = bind (rewrite_pass env rt openai validated notes)
         (fun final => return_ (delivered final notes)).
Proof.
  intros Ht Hv Hs; unfold respond, json_parse, parse.
  rewrite Ht; flow; rewrite Hv; flow; rewrite Hs; flow.
  destruct (rewrite_pass env rt openai validated notes) as [[a|r|e] tr];
    reflexivity.
Qed.

(** The handler after a first pass that returned text. *)
Lemma POST_after_first_pass (request : Request) (raw : jsstring)
      (notes : option jsstring) (tr : list Event) :
  first_pass_yields env rt systemPrompt openai request raw notes tr ->
  POST env rt systemPrompt openai request
  = match respond env rt openai (Some raw) notes with
    | (Normal r, tr') => (Resolved r, tr ++ tr')
    | (Return r, tr') => (Resolved r, tr ++ tr')
    | (Throw e, tr') => (POST_catch e, tr ++ tr')
    end.
Proof.
  intros (Hk & Hf & _); unfold POST, POST_try.
  rewrite Hk, Hf; simpl.
  destruct (respond env rt openai (Some raw) notes) as [[r|r|e] tr'];
    reflexivity.
Qed.

End Stages.

(** C3: when the first pass's output parses as JSON but is not of the
    TransformResponse shape (a required field is missing or is not a string,
    or the nesting of sections/bullets or of next_actions is wrong), the
    handler answers 502 with the body [{error: ...}] of the unexpected-shape
    condition, without any further provider call: no part of the output is
    delivered. *)
Theorem schema_violation_is_502
        (env : Env) (rt : Runtime) (systemPrompt : jsstring) (openai : OpenAI)
        (request : Request) (raw : jsstring) (notes : option jsstring)
        (tr : list Event) (v : value) :
  first_pass_yields env rt systemPrompt openai request raw notes tr ->
  JSON_parse rt raw = Some v ->
  conforms v = false ->
  POST env rt systemPrompt openai request
  = (Resolved
       {| status := 502;
          body := ErrorBody (lit "Model returned an unexpected response shape. Please try again.");
          headers := [] |}, tr).
Proof.
  intros Hf Hv Hc.
  destruct (response_rejected v Hc) as [issues Hi].
  rewrite (POST_after_first_pass _ _ _ _ _ _ _ _ Hf).
  destruct Hf as (_ & _ & Ht).
  rewrite (respond_schema_error _ _ _ _ _ _ issues Ht Hv Hi).
  now rewrite app_nil_r.
Qed.

(** ** Early returns of the first pass *)

Create HintDb early.

Section EarlyReturns.

Variable env : Env.
Variable rt : Runtime.
Variable systemPrompt : jsstring.
Variable openai : OpenAI.

Lemma errors_no_return {A} (m : M A) :
  (forall resp, fst m <> Return resp) -> returns_errors m.
Proof. intros H resp Hr; destruct (H resp Hr). Qed.

Lemma errors_bind {A B} (m : M A) (k : A -> M B) :
  returns_errors m -> (forall a, returns_errors (k a)) ->
  returns_errors (bind m k).
Proof.
  intros Hm Hk resp; destruct m as [[a|r|e] tr]; simpl.
  - specialize (Hk a resp); destruct (k a) as [c tr']; exact Hk.
  - intros [= <-]; apply (Hm r); reflexivity.
  - discriminate.
Qed.

Lemma errors_try_catch {A} (m : M A) (h : Exn -> M A) :
  returns_errors m -> (forall e, returns_errors (h e)) ->
  returns_errors (try_catch m h).
Proof.
  intros Hm Hh resp; destruct m as [[a|r|e] tr]; simpl.
  - discriminate.
  - intros [= <-]; apply (Hm r); reflexivity.
  - specialize (Hh e resp); destruct (h e) as [c tr']; exact Hh.
Qed.

Lemma errors_return {A} (msg : jsstring) (st : option Z) :
  returns_errors (@return_json A (ErrorBody msg) st []).
Proof.
  unfold return_json, NextResponse_json; intros resp.
  destruct (negb _); [discriminate|]; destruct (null_body_status _); [discriminate|].
  intros [= <-]; eexists; reflexivity.
Qed.

Lemma errors_await {A} (p : Awaited A) : returns_errors (await p).
Proof. apply errors_no_return; destruct p; discriminate. Qed.

Lemma errors_parse {A} (s : Zod.Schema A) (v : value) :
  returns_errors (parse s v).
Proof.
  apply errors_no_return; unfold parse; destruct (s [] v); discriminate.
Qed.

Lemma errors_ret {A} (a : A) : returns_errors (ret a).
Proof. apply errors_no_return; discriminate. Qed.

Lemma errors_files_create (p : FilesCreateParams) :
  returns_errors (call_files_create openai p).
Proof.
  apply errors_no_return; unfold call_files_create.
  destruct (files_create openai p); discriminate.
Qed.

Lemma errors_responses_create (p : ResponsesCreateParams) :
  returns_errors (call_responses_create openai p).
Proof.
  apply errors_no_return; unfold call_responses_create.
  destruct (responses_create openai p); discriminate.
Qed.

Hint Resolve errors_bind errors_try_catch errors_return errors_await
     errors_parse errors_ret errors_files_create errors_responses_create
  : early.

Lemma errors_first_pass (request : Request) :
  returns_errors (first_pass env rt systemPrompt openai request).
Proof.
  unfold first_pass; destruct (includes _ _).
  - unfold multipart_branch.
    apply errors_bind; [auto with early|intros form].
    apply errors_bind.
    + destruct (form_get (lit "notes") form) as [[s|f]|]; auto with early.
    + intros notes.
      destruct (form_get (lit "file") form) as [[s|f]|]; auto with early.
      destruct (file_size f >? MAX_FILE_BYTES env); auto 6 with early.
  - unfold json_branch.
    apply errors_bind; [|auto 6 with early].
    apply errors_try_catch; [auto with early|].
    intros [issues|reason]; auto with early.
Qed.

End EarlyReturns.

(** The outer [catch] answers with an error body, if it answers. *)
Lemma POST_catch_body (e : Exn) (b : Body) :
  body_of (POST_catch e) = Some b -> exists msg, b = ErrorBody msg.
Proof.
  unfold POST_catch, NextResponse_json; destruct e as [issues|reason].
  - intros [= <-]; eexists; reflexivity.
  - destruct (negb _); [discriminate|]; destruct (null_body_status _); [discriminate|].
    intros [= <-]; eexists; reflexivity.
Qed.

Lemma error_body_no_content (e : Exn) (r : TransformResponse) (P : Prop) :
  body_of (POST_catch e) = Some (TransformBody r) -> P.
Proof. intros H; apply POST_catch_body in H as [msg H]; discriminate. Qed.

(** Every body the handler delivers with content is the sanitization of a
    validated model output. *)
Lemma POST_success (env : Env) (rt : Runtime) (systemPrompt : jsstring)
      (openai : OpenAI) (request : Request) (r : TransformResponse) :
  body_of (fst (POST env rt systemPrompt openai request)) = Some (TransformBody r) ->
  exists validated notes,
    validated_output rt validated
    /\ fst (POST env rt systemPrompt openai request)
       = Resolved (delivered validated notes).
Proof.
  unfold POST, POST_try.
  destruct (falsy_string (OPENAI_API_KEY env)); [discriminate|].
  pose proof (errors_first_pass env rt systemPrompt openai request) as He.
  destruct (first_pass env rt systemPrompt openai request)
    as [[[raw notes]|r0|e] tr]; flow.
  - destruct raw as [t|]; [destruct (truthy_string t) eqn:Ht|];
      try (unfold respond; try rewrite Ht; flow; cbn [fst]; apply error_body_no_content).
    destruct (JSON_parse rt t) as [v|] eqn:Hv;
      [|unfold respond, json_parse; rewrite Ht; flow; rewrite Hv; flow;
        discriminate].
    destruct (transformResponseSchema [] v) as [validated|issues] eqn:Hs;
      [|rewrite (respond_schema_error _ _ _ _ _ _ _ Ht Hv Hs); discriminate].
    rewrite (respond_validated _ _ _ _ _ _ _ Ht Hv Hs).
    assert (Hvo : validated_output rt validated) by (exists t, v; auto).
    destruct (notes_present notes) eqn:Hn;
      [|rewrite (rewrite_pass_skipped _ _ _ _ _ Hn); flow; intros _;
        exists validated, notes; auto].
    destruct (responses_create openai (rewrite_params env rt validated notes))
      as [out|reason] eqn:Hr.
    + destruct (rewrite_pass_resolved _ _ _ _ _ _ Hn Hr)
        as (final & -> & [->|(t' & v' & _ & Hv' & Hs')]); flow; intros _.
      * exists validated, notes; auto.
      * exists final, notes; split; [exists t', v'; auto|reflexivity].
    + rewrite (rewrite_pass_rejected _ _ _ _ _ _ Hn Hr).
      cbn [fst]; apply error_body_no_content.
  - intros Hb; destruct (He r0 eq_refl) as [msg Hm]; simpl in Hb; congruence.
  - destruct e as [issues|reason]; [discriminate|cbn [fst]; apply error_body_no_content].
Qed.

(** Every [next_actions] entry of a delivered body has an action and a
    first step with a non-whitespace character. *)
Lemma delivered_actions_have_content (env : Env) (rt : Runtime)
      (systemPrompt : jsstring) (openai : OpenAI) (request : Request)
      (r : TransformResponse) :
  body_of (fst (POST env rt systemPrompt openai request)) = Some (TransformBody r) ->
  Forall (fun a => placeholder a = false) (next_actions r).
Proof.
  intros Hb.
  destruct (POST_success _ _ _ _ _ _ Hb) as (validated & notes & _ & Hd).
  rewrite Hd in Hb; injection Hb as <-.
  apply Forall_forall; intros a Ha; simpl in Ha.
  apply filter_In in Ha; destruct Ha as [_ Ha].
  rewrite keep_action_spec, <- negb_orb in Ha.
  now apply negb_true_iff in Ha.
Qed.

(** C9: the delivered response carries the title, the summary and the
    sections (every heading and bullet, empty ones too) of the validated
    model output it was built from; sanitization touches only
    [next_actions]. *)
Theorem sanitization_frame
        (env : Env) (rt : Runtime) (systemPrompt : jsstring) (openai : OpenAI)
        (request : Request) (r : TransformResponse) :
  body_of (fst (POST env rt systemPrompt openai request)) = Some (TransformBody r) ->
  exists validated,
    validated_output rt validated
    /\ r = sanitize validated
    /\ title r = title validated
    /\ summary r = summary validated
    /\ sections r = sections validated
    /\ next_actions r = filter keep_action (next_actions validated).
Proof.
  intros Hb.
  destruct (POST_success _ _ _ _ _ _ Hb) as (validated & notes & Hv & Hd).
  rewrite Hd in Hb; injection Hb as <-.
  exists validated; repeat split; assumption.
Qed.

(** ** The restyle pass *)

Section Restyle.

Variable env : Env.
Variable rt : Runtime.
Variable systemPrompt : jsstring.
Variable openai : OpenAI.

Variable request : Request.
Variable raw : jsstring.
Variable notes : option jsstring.
Variable tr : list Event.
Variable v : value.
Variable validated : TransformResponse.

Hypothesis first_pass_ok :
  first_pass_yields env rt systemPrompt openai request raw notes tr.
Hypothesis raw_parses : JSON_parse rt raw = Some v.
Hypothesis raw_validates : transformResponseSchema [] v = Zod.Data validated.

Lemma POST_validated :
  POST env rt systemPrompt openai request
  = match rewrite_pass env rt openai validated notes with
    | (Normal final, tr') => (Resolved (delivered final notes), tr ++ tr')
    | (Return r, tr') => (Resolved r, tr ++ tr')
    | (Throw e, tr') => (POST_catch e, tr ++ tr')
    end.
Proof.
  rewrite (POST_after_first_pass _ _ _ _ _ _ _ _ first_pass_ok).
  destruct first_pass_ok as (_ & _ & Ht).
  rewrite (respond_validated _ _ _ _ _ _ _ Ht raw_parses raw_validates).
  destruct (rewrite_pass env rt openai validated notes) as [[final|r|e] tr'];
    flow; rewrite ?app_nil_r; reflexivity.
Qed.

(** Without notes to apply there is a single pass. *)
Lemma single_pass :
  notes_present notes = false ->
  POST env rt systemPrompt openai request
  = (Resolved (delivered validated notes), tr).
Proof.
  intros Hn; rewrite POST_validated, (rewrite_pass_skipped _ _ _ _ _ Hn).
  now rewrite app_nil_r.
Qed.

(** Fallback: a restyle call that resolves without text, or with text that
    does not parse or does not validate, leaves the first pass's result
    in place. *)
Lemma restyle_fallback (out : option jsstring) :
  notes_present notes = true ->
  responses_create openai (rewrite_params env rt validated notes) = Resolved out ->
  (forall t v', out = Some t -> truthy_string t = true ->
                JSON_parse rt t = Some v' -> conforms v' = false) ->
  POST env rt systemPrompt openai request
  = (Resolved (delivered validated notes),
     tr ++ [ResponsesCreate (rewrite_params env rt validated notes) (Resolved out)]).
Proof.
  intros Hn Hr Hbad.
  now rewrite POST_validated, (rewrite_pass_fallback _ _ _ _ _ _ Hn Hr Hbad).
Qed.

(** A restyle call that is rejected is not recovered from: the outer
    [catch] answers in place of the first pass's result. *)
Lemma restyle_rejection_surfaces (reason : value) :
  notes_present notes = true ->
  responses_create openai (rewrite_params env rt validated notes) = Rejected reason ->
  POST env rt systemPrompt openai request
  = (POST_catch (Thrown reason),
     tr ++ [ResponsesCreate (rewrite_params env rt validated notes) (Rejected reason)]).
Proof.
  intros Hn Hr.
  now rewrite POST_validated, (rewrite_pass_rejected _ _ _ _ _ _ Hn Hr).
Qed.

End Restyle.

(** C1, at the request [{text: 'hello team', notes: 'as a poem'}] with a
    valid first-pass output and a restyle call rejected by the provider with
    status 429: without the notes the first pass's sanitized result is
    delivered, with them the client gets the provider's 429 error instead. *)
Theorem restyle_call_failure_blocks_delivery :
  let openai := sample_openai (lit "first") (Rejected rate_limited) in
  transformResponseSchema [] sample_output = Zod.Data sample_validated
  /\ fst (sample_POST openai (json_request (lit "hello team") None))
     = Resolved (delivered sample_validated None)
  /\ notes_present (Some (lit "as a poem")) = true
  /\ fst (sample_POST openai (json_request (lit "hello team") (Some (lit "as a poem"))))
     = Resolved {| status := 429;
                   body := ErrorBody (lit "Rate limit reached");
                   headers := [] |}
  /\ fst (sample_POST openai (json_request (lit "hello team") (Some (lit "as a poem"))))
     <> Resolved (delivered sample_validated (Some (lit "as a poem"))).
Proof.
  intros openai; repeat split; try (vm_compute; reflexivity).
  vm_compute; discriminate.
Qed.

Lemma schema_violation_is_502_witness :
  sample_POST (sample_openai (lit "no-summary") (Resolved None))
              (json_request (lit "hello team") None)
  = (Resolved
       {| status := 502;
          body := ErrorBody (lit "Model returned an unexpected response shape. Please try again.");
          headers := [] |},
     snd (first_pass sample_env sample_runtime (lit "policy")
            (sample_openai (lit "no-summary") (Resolved None))
            (json_request (lit "hello team") None))).
Proof.
  apply (schema_violation_is_502 sample_env sample_runtime (lit "policy")
           (sample_openai (lit "no-summary") (Resolved None))
           (json_request (lit "hello team") None)
           (lit "no-summary") None _ sample_missing_summary).
  - repeat split; vm_compute; reflexivity.
  - vm_compute; reflexivity.
  - vm_compute; reflexivity.
Defined.



Lemma sanitization_frame_witness :
  exists validated,
    validated_output sample_runtime validated
    /\ sanitize sample_validated = sanitize validated
    /\ title (sanitize sample_validated) = title validated
    /\ summary (sanitize sample_validated) = summary validated
    /\ sections (sanitize sample_validated) = sections validated
    /\ next_actions (sanitize sample_validated)
       = filter keep_action (next_actions validated).
Proof.
  apply (sanitization_frame sample_env sample_runtime (lit "policy")
           (sample_openai (lit "first") (Resolved None))
           (json_request (lit "hello team") None)).
  vm_compute; reflexivity.
Defined.

(** ** When the restyle pass runs *)

Lemma restyle_attempted_app (a b : list Event) :
  restyle_attempted (a ++ b) = (restyle_attempted a || restyle_attempted b)%bool.
Proof. apply existsb_app. Qed.

Lemma notes_given_blank (n : jsstring) :
  blank n = true -> notes_given (Some n) = false.
Proof.
  intros Hb; change (notes_given (Some n)) with (shouldApplyNotesRewritePass (Some n)).
  rewrite shouldApplyNotesRewritePass_spec; simpl; now rewrite Hb.
Qed.

Lemma buildTextUserPrompt_blank (t n : jsstring) :
  blank n = true -> buildTextUserPrompt t (Some n) = buildTextUserPrompt t None.
Proof. intros Hb; unfold buildTextUserPrompt; now rewrite notes_given_blank. Qed.

Lemma buildFileUserPrompt_blank (n : jsstring) :
  blank n = true -> buildFileUserPrompt (Some n) = buildFileUserPrompt None.
Proof. intros Hb; unfold buildFileUserPrompt; now rewrite notes_given_blank. Qed.

Lemma notes_within_limit (p : list Zod.PathItem) (n : jsstring) :
  js_length n <= 10000 ->
  Zod.optional (Zod.string_ None (Some 10000)) p (VStr n) = Zod.Data (Some n).
Proof.
  intros Hn; unfold Zod.optional, Zod.string_.
  destruct (js_length n >? 10000) eqn:Hg; [apply Z.gtb_lt in Hg; lia|reflexivity].
Qed.

Create HintDb restyle.

Section RestyleCondition.

Variable env : Env.
Variable rt : Runtime.
Variable systemPrompt : jsstring.
Variable openai : OpenAI.

Lemma no_restyle_silent {A} (m : M A) : snd m = [] -> no_restyle m.
Proof. unfold no_restyle; now intros ->. Qed.

Lemma no_restyle_bind {A B} (m : M A) (k : A -> M B) :
  no_restyle m -> (forall a, no_restyle (k a)) -> no_restyle (bind m k).
Proof.
  unfold no_restyle; intros Hm Hk; destruct m as [[a|r|e] tr]; simpl in *; auto.
  specialize (Hk a); destruct (k a) as [c tr']; simpl in *.
  now rewrite restyle_attempted_app, Hm, Hk.
Qed.

Lemma no_restyle_try_catch {A} (m : M A) (h : Exn -> M A) :
  no_restyle m -> (forall e, no_restyle (h e)) -> no_restyle (try_catch m h).
Proof.
  unfold no_restyle; intros Hm Hh; destruct m as [[a|r|e] tr]; simpl in *; auto.
  specialize (Hh e); destruct (h e) as [c tr']; simpl in *.
  now rewrite restyle_attempted_app, Hm, Hh.
Qed.

Lemma no_restyle_files_create (p : FilesCreateParams) :
  no_restyle (call_files_create openai p).
Proof.
  unfold no_restyle, call_files_create.
  destruct (files_create openai p); reflexivity.
Qed.

Lemma no_restyle_first_call (p : ResponsesCreateParams) :
  temperature p = 1 # 10 -> no_restyle (call_responses_create openai p).
Proof.
  unfold no_restyle, call_responses_create; intros Ht.
  destruct (responses_create openai p); simpl; now rewrite Ht.
Qed.

Lemma no_restyle_return_json {A} (b : Body) (st : option Z)
      (hs : list (jsstring * jsstring)) :
  no_restyle (@return_json A b st hs).
Proof. apply no_restyle_silent, silent_return_json. Qed.

Hint Resolve no_restyle_silent no_restyle_bind no_restyle_try_catch
     no_restyle_files_create no_restyle_first_call no_restyle_return_json
     silent_await silent_parse : restyle.

(** The first pass never makes the restyle call. *)
Lemma first_pass_no_restyle (request : Request) :
  no_restyle (first_pass env rt systemPrompt openai request).
Proof.
  unfold first_pass; destruct (includes _ _).
  - unfold multipart_branch.
    apply no_restyle_bind; [auto with restyle|intros form].
    apply no_restyle_bind.
    + destruct (form_get (lit "notes") form) as [[s|f]|]; auto with restyle.
    + intros notes.
      destruct (form_get (lit "file") form) as [[s|f]|]; auto with restyle.
      destruct (file_size f >? MAX_FILE_BYTES env); auto 7 with restyle.
  - unfold json_branch.
    apply no_restyle_bind; [|auto 7 with restyle].
    apply no_restyle_try_catch; [|intros [issues|reason]; auto with restyle].
    apply no_restyle_silent, silent_bind; auto with restyle.
Qed.

(** Once the first pass's output is validated, the restyle call is made
    exactly when the notes carry a non-whitespace character. *)
Lemma restyle_iff_notes_present (request : Request) (raw : jsstring)
      (notes : option jsstring) (tr : list Event) (v : value)
      (validated : TransformResponse) :
  first_pass_yields env rt systemPrompt openai request raw notes tr ->
  JSON_parse rt raw = Some v ->
  transformResponseSchema [] v = Zod.Data validated ->
  restyle_attempted (snd (POST env rt systemPrompt openai request))
  = notes_present notes.
Proof.
  intros Hf Hv Hs.
  rewrite (POST_validated _ _ _ _ _ _ _ _ _ _ Hf Hv Hs).
  assert (Htr : restyle_attempted tr = false).
  { pose proof (first_pass_no_restyle request) as H.
    destruct Hf as (_ & Hf & _); unfold no_restyle in H; now rewrite Hf in H. }
  destruct (notes_present notes) eqn:Hn.
  - destruct (responses_create openai (rewrite_params env rt validated notes))
      as [out|reason] eqn:Hr.
    + destruct (rewrite_pass_resolved _ _ _ _ _ _ Hn Hr) as (final & -> & _).
      simpl snd; rewrite restyle_attempted_app, Htr; reflexivity.
    + rewrite (rewrite_pass_rejected _ _ _ _ _ _ Hn Hr).
      simpl snd; rewrite restyle_attempted_app, Htr; reflexivity.
  - rewrite (rewrite_pass_skipped _ _ _ _ _ Hn); simpl snd.
    now rewrite app_nil_r.
Qed.

Lemma same_run (a : Awaited Response * list Event) : same_calls_status_body a a.
Proof.
  unfold same_calls_status_body; split; [reflexivity|].
  destruct (fst a); auto.
Qed.

(** With notes that are absent or blank the handler goes from the raw
    model text to the same calls, status and body. *)
Lemma respond_blank (raw : option jsstring) (n : jsstring) (tr : list Event) :
  blank n = true ->
  same_calls_status_body
    (match respond env rt openai raw (Some n) with
     | (Normal r, tr') => (Resolved r, tr ++ tr')
     | (Return r, tr') => (Resolved r, tr ++ tr')
     | (Throw e, tr') => (POST_catch e, tr ++ tr')
     end)
    (match respond env rt openai raw None with
     | (Normal r, tr') => (Resolved r, tr ++ tr')
     | (Return r, tr') => (Resolved r, tr ++ tr')
     | (Throw e, tr') => (POST_catch e, tr ++ tr')
     end).
Proof.
  intros Hb.
  assert (Hn : notes_present (Some n) = false) by (simpl; now rewrite Hb).
  unfold respond.
  destruct raw as [t|]; [destruct (truthy_string t)|]; flow;
    try apply same_run.
  unfold json_parse; destruct (JSON_parse rt t) as [v|]; flow;
    try apply same_run.
  unfold parse; destruct (transformResponseSchema [] v) as [validated|issues];
    flow; try apply same_run.
  rewrite (rewrite_pass_skipped _ _ _ validated _ Hn).
  change (rewrite_pass env rt openai validated None)
    with (@ret TransformResponse validated).
  flow; rewrite !return_json_delivered; flow.
  unfold same_calls_status_body; cbn [fst snd delivered status body]; auto.
Qed.

Lemma respond_blank_prefix (raw : option jsstring) (n : jsstring)
      (tr : list Event) :
  blank n = true ->
  same_calls_status_body
    (let (c, tr0) :=
       let (c, tr') := respond env rt openai raw (Some n) in (c, tr ++ tr') in
     match c with
     | Normal r => (Resolved r, tr0)
     | Return r => (Resolved r, tr0)
     | Throw e => (POST_catch e, tr0)
     end)
    (let (c, tr0) :=
       let (c, tr') := respond env rt openai raw None in (c, tr ++ tr') in
     match c with
     | Normal r => (Resolved r, tr0)
     | Return r => (Resolved r, tr0)
     | Throw e => (POST_catch e, tr0)
     end).
Proof.
  intros Hb; pose proof (respond_blank raw n tr Hb) as H.
  destruct (respond env rt openai raw (Some n)) as [[r1|r1|e1] tr1],
           (respond env rt openai raw None) as [[r2|r2|e2] tr2];
    exact H.
Qed.

Lemma json_content_type :
  includes (lit "application/json") (lit "multipart/form-data") = false.
Proof. reflexivity. Qed.

Lemma multipart_content_type :
  includes (lit "multipart/form-data; boundary=----x") (lit "multipart/form-data")
  = true.
Proof. reflexivity. Qed.

Lemma blank_notes_json (t n : jsstring) :
  blank n = true -> js_length n <= 10000 ->
  same_calls_status_body
    (POST env rt systemPrompt openai (json_request t (Some n)))
    (POST env rt systemPrompt openai (json_request t None)).
Proof.
  intros Hb Hn; unfold POST, POST_try.
  destruct (falsy_string (OPENAI_API_KEY env));
    [apply same_run|].
  unfold first_pass; cbn [json_request content_type].
  rewrite json_content_type.
  unfold json_branch; cbn [json_request json]; flow.
  unfold parse, transformRequestSchema, Zod.field.
  cbn [Zod.is_object].
  change (prop "text" (VObj ((lit "text", VStr t) :: [(lit "notes", VStr n)])))
    with (VStr t).
  change (prop "text" (VObj [(lit "text", VStr t)])) with (VStr t).
  change (prop "notes" (VObj ((lit "text", VStr t) :: [(lit "notes", VStr n)])))
    with (VStr n).
  change (prop "notes" (VObj [(lit "text", VStr t)])) with VUndefined.
  rewrite (notes_within_limit _ n Hn).
  cbn [Zod.optional Zod.issues_of app].
  destruct (Zod.string_ (Some 1) (Some (MAX_INPUT_CHARS env)) _ (VStr t))
    as [t'|issues]; flow.
  - cbn [text notes]; rewrite (buildTextUserPrompt_blank _ _ Hb).
    unfold call_responses_create.
    destruct (responses_create openai _) as [out|reason]; flow.
    + exact (respond_blank_prefix out n [_] Hb).
    + apply same_run.
  - rewrite ?app_nil_r; apply same_run.
Qed.

Lemma blank_notes_multipart (f : File) (n : jsstring) :
  blank n = true -> js_length n <= 10000 ->
  same_calls_status_body
    (POST env rt systemPrompt openai (multipart_request f (Some n)))
    (POST env rt systemPrompt openai (multipart_request f None)).
Proof.
  intros Hb Hn; unfold POST, POST_try.
  destruct (falsy_string (OPENAI_API_KEY env));
    [apply same_run|].
  unfold first_pass; cbn [multipart_request content_type].
  rewrite multipart_content_type.
  unfold multipart_branch; cbn [multipart_request formData]; flow.
  change (form_get (lit "notes") ((lit "file", EntryFile f) :: [(lit "notes", EntryString n)]))
    with (Some (EntryString n)).
  change (form_get (lit "notes") [(lit "file", EntryFile f)])
    with (@None FormDataEntryValue).
  change (form_get (lit "file") ((lit "file", EntryFile f) :: [(lit "notes", EntryString n)]))
    with (Some (EntryFile f)).
  change (form_get (lit "file") [(lit "file", EntryFile f)])
    with (Some (EntryFile f)).
  unfold parse, transformFileNotesSchema, Zod.field; cbn [Zod.is_object].
  change (prop "notes" (VObj [(lit "notes", VStr n)])) with (VStr n).
  rewrite (notes_within_limit _ n Hn); flow.
  destruct (file_size f >? MAX_FILE_BYTES env); flow;
    [apply same_run|].
  unfold call_files_create.
  destruct (files_create openai _) as [id|reason]; flow;
    [|apply same_run].
  rewrite (buildFileUserPrompt_blank _ Hb).
  unfold call_responses_create.
  destruct (responses_create openai _) as [out|reason]; flow.
  - exact (respond_blank_prefix out n [_; _] Hb).
  - apply same_run.
Qed.

End RestyleCondition.

(** C10 (amended): once the first pass's output is validated, the restyle
    call is made exactly when the notes are present with a non-whitespace
    character, and otherwise the first pass's sanitized result is delivered
    after a single pass.  Blank notes of at most 10,000 code units lead to
    the same provider calls, status and body as absent notes, in JSON and in
    multipart requests; the [x-received-notes-length] header is left out of
    the comparison, since it reports the length of the notes received. *)
Theorem restyle_pass_condition
        (env : Env) (rt : Runtime) (systemPrompt : jsstring) (openai : OpenAI) :
  (forall request raw notes tr v validated,
      first_pass_yields env rt systemPrompt openai request raw notes tr ->
      JSON_parse rt raw = Some v ->
      transformResponseSchema [] v = Zod.Data validated ->
      restyle_attempted (snd (POST env rt systemPrompt openai request))
      = notes_present notes
      /\ (notes_present notes = false ->
          POST env rt systemPrompt openai request
          = (Resolved (delivered validated notes), tr)))
  /\ (forall t n,
         blank n = true -> js_length n <= 10000 ->
         same_calls_status_body
           (POST env rt systemPrompt openai (json_request t (Some n)))
           (POST env rt systemPrompt openai (json_request t None)))
  /\ (forall f n,
         blank n = true -> js_length n <= 10000 ->
         same_calls_status_body
           (POST env rt systemPrompt openai (multipart_request f (Some n)))
           (POST env rt systemPrompt openai (multipart_request f None))).
Proof.
  split; [|split].
  - intros request raw notes tr v validated Hf Hv Hs; split.
    + exact (restyle_iff_notes_present _ _ _ _ _ _ _ _ _ _ Hf Hv Hs).
    + intros Hn; exact (single_pass _ _ _ _ _ _ _ _ _ _ Hf Hv Hs Hn).
  - apply blank_notes_json.
  - apply blank_notes_multipart.
Qed.

Lemma restyle_pass_condition_witness :
  let openai := sample_openai (lit "first") (Resolved (Some (lit "restyled"))) in
  restyle_attempted
    (snd (sample_POST openai (json_request (lit "hello team") (Some (lit "as a poem")))))
  = true
  /\ restyle_attempted
       (snd (sample_POST openai (json_request (lit "hello team") (Some (lit "  ")))))
     = false
  /\ same_calls_status_body
       (sample_POST openai (json_request (lit "hello team") (Some (lit "  "))))
       (sample_POST openai (json_request (lit "hello team") None))
  /\ same_calls_status_body
       (sample_POST openai (multipart_request (sample_file 2048) (Some (lit "  "))))
       (sample_POST openai (multipart_request (sample_file 2048) None)).
Proof.
  intros openai.
  destruct (restyle_pass_condition sample_env sample_runtime (lit "policy") openai)
    as (Hiff & Hjson & Hmultipart).
  split; [|split; [|split]].
  - apply (Hiff (json_request (lit "hello team") (Some (lit "as a poem")))
             (lit "first") (Some (lit "as a poem"))
             (snd (first_pass sample_env sample_runtime (lit "policy") openai
                     (json_request (lit "hello team") (Some (lit "as a poem")))))
             sample_output sample_validated).
    + repeat split; vm_compute; reflexivity.
    + vm_compute; reflexivity.
    + vm_compute; reflexivity.
  - apply (Hiff (json_request (lit "hello team") (Some (lit "  ")))
             (lit "first") (Some (lit "  "))
             (snd (first_pass sample_env sample_runtime (lit "policy") openai
                     (json_request (lit "hello team") (Some (lit "  ")))))
             sample_output sample_validated).
    + repeat split; vm_compute; reflexivity.
    + vm_compute; reflexivity.
    + vm_compute; reflexivity.
  - apply Hjson; [reflexivity | vm_compute; discriminate].
  - apply Hmultipart; [reflexivity | vm_compute; discriminate].
Defined.

(** C10, as stated, fails: blank notes do not behave exactly like absent
    notes.  A single space changes the response (its
    [x-received-notes-length] header reads 1 instead of 0), and 10,001
    spaces get the request rejected where absent notes are accepted. *)
Lemma blank_notes_not_exactly_absent :
  let openai := sample_openai (lit "first") (Resolved (Some (lit "restyled"))) in
  let absent := sample_POST openai (json_request (lit "hello team") None) in
  let space := sample_POST openai (json_request (lit "hello team") (Some (lit " "))) in
  let spaces := sample_POST openai
                  (json_request (lit "hello team") (Some (repeat 32%N (Z.to_nat 10001)))) in
  blank (lit " ") = true
  /\ space <> absent
  /\ headers_of (fst absent) = Some [(lit "x-received-notes-length", lit "0")]
  /\ headers_of (fst space) = Some [(lit "x-received-notes-length", lit "1")]
  /\ blank (repeat 32%N (Z.to_nat 10001)) = true
  /\ status_of (fst absent) = Some 200
  /\ status_of (fst spaces) = Some 413.
Proof.
  intros openai absent space spaces.
  repeat split; try (vm_compute; reflexivity).
  vm_compute; discriminate.
Qed.

(** ** Request validation: multipart *)

Section MultipartValidation.

Variable env : Env.
Variable rt : Runtime.
Variable systemPrompt : jsstring.
Variable openai : OpenAI.

Variable request : Request.
Variable form : FormData.

Hypothesis key_configured : falsy_string (OPENAI_API_KEY env) = false.
Hypothesis multipart : is_multipart request = true.
Hypothesis form_read : formData request = Resolved form.

Lemma POST_multipart :
  POST env rt systemPrompt openai request
  = match bind (multipart_branch env rt systemPrompt openai request)
               (fun x => respond env rt openai (fst x) (snd x)) with
    | (Normal r, tr) => (Resolved r, tr)
    | (Return r, tr) => (Resolved r, tr)
    | (Throw e, tr) => (POST_catch e, tr)
    end.
Proof.
  unfold POST, POST_try, first_pass; rewrite key_configured.
  fold (is_multipart request); rewrite multipart.
  destruct (multipart_branch env rt systemPrompt openai request)
    as [[[raw notes]|r|e] tr]; reflexivity.
Qed.

(** Notes within the limit pass the notes schema unchanged. *)
Lemma multipart_notes_parsed :
  notes_field_within_limit form ->
  exists notes,
    match form_get (lit "notes") form with
    | Some (EntryString s) =>
        parse transformFileNotesSchema (VObj [(lit "notes", VStr s)])
    | _ => ret None
    end = (Normal notes, []).
Proof.
  unfold notes_field_within_limit.
  destruct (form_get (lit "notes") form) as [[s|f]|]; intros Hn;
    try (exists None; reflexivity).
  exists (Some s).
  unfold parse, transformFileNotesSchema, Zod.field; cbn [Zod.is_object].
  change (prop "notes" (VObj [(lit "notes", VStr s)])) with (VStr s).
  now rewrite (notes_within_limit _ s Hn).
Qed.

Lemma oversize_file_rejected (f : File) :
  form_get (lit "file") form = Some (EntryFile f) ->
  notes_field_within_limit form ->
  file_size f > MAX_FILE_BYTES env ->
  POST env rt systemPrompt openai request = (Resolved (file_too_large rt env), []).
Proof.
  intros Hfile Hnotes Hsize.
  destruct (multipart_notes_parsed Hnotes) as [notes Hp].
  rewrite POST_multipart; unfold multipart_branch.
  rewrite form_read; flow; rewrite Hp; flow; rewrite Hfile.
  assert (Hg : (file_size f >? MAX_FILE_BYTES env) = true)
    by (apply Z.gtb_lt; lia).
  rewrite Hg; reflexivity.
Qed.

Lemma file_within_limit_uploaded (f : File) :
  form_get (lit "file") form = Some (EntryFile f) ->
  notes_field_within_limit form ->
  file_size f <= MAX_FILE_BYTES env ->
  exists r rest,
    snd (POST env rt systemPrompt openai request)
    = FilesCreate (upload_params f) r :: rest.
Proof.
  intros Hfile Hnotes Hsize.
  destruct (multipart_notes_parsed Hnotes) as [notes Hp].
  rewrite POST_multipart; unfold multipart_branch.
  rewrite form_read; flow; rewrite Hp; flow; rewrite Hfile.
  destruct (file_size f >? MAX_FILE_BYTES env) eqn:Hg;
    [apply Z.gtb_lt in Hg; lia|].
  unfold call_files_create; fold (upload_params f).
  destruct (files_create openai (upload_params f)) as [id|reason]; flow.
  - unfold call_responses_create.
    destruct (responses_create openai _) as [out|reason']; flow.
    + match goal with
      | |- context [respond ?e ?r ?o ?a ?b] =>
          destruct (respond e r o a b) as [[r0|r0|e0] tr0]
      end; eexists; eexists; reflexivity.
    + eexists; eexists; reflexivity.
  - eexists; eexists; reflexivity.
Qed.

(** Notes longer than 10,000 code units make the notes schema throw inside
    the handler's outer [try]; the outer [catch] reports every [ZodError]
    as a malformed model output. *)
Lemma long_multipart_notes (n : jsstring) :
  form_get (lit "notes") form = Some (EntryString n) ->
  js_length n > 10000 ->
  POST env rt systemPrompt openai request = (Resolved unexpected_shape, []).
Proof.
  intros Hnotes Hlen.
  rewrite POST_multipart; unfold multipart_branch.
  rewrite form_read; flow; rewrite Hnotes.
  unfold parse, transformFileNotesSchema, Zod.field; cbn [Zod.is_object].
  change (prop "notes" (VObj [(lit "notes", VStr n)])) with (VStr n).
  unfold Zod.optional, Zod.string_.
  assert (Hg : (js_length n >? 10000) = true) by (apply Z.gtb_lt; lia).
  rewrite Hg; reflexivity.
Qed.

End MultipartValidation.

(** C4 (amended): a multipart request whose file is larger than
    MAX_FILE_BYTES is rejected with status 413 and a message that states the
    configured limit, and only the limit: the message is the same whatever
    the file's size.  A file of at most MAX_FILE_BYTES passes the size check:
    the handler goes on to upload it.  (For requests whose notes field, if
    any, is within its own limit.) *)
Theorem file_size_gate
        (env : Env) (rt : Runtime) (systemPrompt : jsstring) (openai : OpenAI)
        (request : Request) (form : FormData) (f : File) :
  falsy_string (OPENAI_API_KEY env) = false ->
  is_multipart request = true ->
  formData request = Resolved form ->
  form_get (lit "file") form = Some (EntryFile f) ->
  notes_field_within_limit form ->
  (file_size f > MAX_FILE_BYTES env ->
   POST env rt systemPrompt openai request
   = (Resolved
        {| status := 413;
           body := ErrorBody (lit "File is too large. Maximum is "
                              ++ toLocaleString rt (MAX_FILE_BYTES env)
                              ++ lit " bytes.");
           headers := [] |}, []))
  /\ (file_size f <= MAX_FILE_BYTES env ->
      exists r rest,
        snd (POST env rt systemPrompt openai request)
        = FilesCreate (upload_params f) r :: rest).
Proof.
  intros Hk Hm Hform Hfile Hnotes; split; intros Hsize.
  - exact (oversize_file_rejected _ _ _ _ _ _ Hk Hm Hform _ Hfile Hnotes Hsize).
  - exact (file_within_limit_uploaded _ _ _ _ _ _ Hk Hm Hform _ Hfile Hnotes Hsize).
Qed.

Lemma file_size_gate_witness :
  let openai := sample_openai (lit "first") (Resolved None) in
  sample_POST openai (multipart_request (sample_file 10485761) None)
  = (Resolved (file_too_large sample_runtime sample_env), [])
  /\ exists r rest,
       snd (sample_POST openai (multipart_request (sample_file 10485760) None))
       = FilesCreate (upload_params (sample_file 10485760)) r :: rest.
Proof.
  intros openai; split.
  - apply (file_size_gate sample_env sample_runtime (lit "policy") openai
             (multipart_request (sample_file 10485761) None)
             [(lit "file", EntryFile (sample_file 10485761))]
             (sample_file 10485761));
      try reflexivity; exact I.
  - apply (file_size_gate sample_env sample_runtime (lit "policy") openai
             (multipart_request (sample_file 10485760) None)
             [(lit "file", EntryFile (sample_file 10485760))]
             (sample_file 10485760));
      try reflexivity; exact I.
Defined.

(** C4, as stated, fails: with the default limit, a file of 10,485,761 bytes
    and one of 99,999,999 bytes get the same 413 response, whose message names
    the limit and not the size of the file. *)
Lemma oversize_message_omits_actual_size :
  let openai := sample_openai (lit "first") (Resolved None) in
  let run size := fst (sample_POST openai (multipart_request (sample_file size) None)) in
  let message := lit "File is too large. Maximum is 10,485,760 bytes." in
  run 10485761
  = Resolved {| status := 413; body := ErrorBody message; headers := [] |}
  /\ run 99999999 = run 10485761
  /\ includes message (toLocaleString_en_US 10485760) = true
  /\ includes message (toLocaleString_en_US 10485761) = false
  /\ includes message (String_of_number 10485761) = false.
Proof.
  intros openai run message; repeat split; vm_compute; reflexivity.
Qed.

(** C5, at a multipart request with a small file and notes of 10,001 code
    units: the handler answers 502 with the message of a malformed model
    output, although no model was called. *)
Theorem long_multipart_notes_reported_as_502 :
  let openai := sample_openai (lit "first") (Resolved None) in
  let notes := repeat 120%N (Z.to_nat 10001) in
  js_length notes = 10001
  /\ sample_POST openai (multipart_request (sample_file 2048) (Some notes))
     = (Resolved
          {| status := 502;
             body := ErrorBody (lit "Model returned an unexpected response shape. Please try again.");
             headers := [] |}, []).
Proof.
  intros openai notes; split; vm_compute; reflexivity.
Qed.

(** ** Request validation: JSON body *)

Lemma has_too_big_app (a b : list Zod.Issue) :
  has_too_big (a ++ b) = (has_too_big a || has_too_big b)%bool.
Proof. apply existsb_app. Qed.

(** The text check of the request schema accepts exactly the lengths from
    1 to MAX_INPUT_CHARS. *)
Lemma text_check (limit : Z) (p : list Zod.PathItem) (s : jsstring) :
  Zod.accepted (Zod.string_ (Some 1) (Some limit) p (VStr s))
  = ((1 <=? js_length s) && (js_length s <=? limit))%bool.
Proof.
  unfold Zod.string_; rewrite Z.gtb_ltb.
  destruct (Z.ltb_spec (js_length s) 1), (Z.ltb_spec limit (js_length s));
    simpl; symmetry;
    solve [ apply andb_false_iff; rewrite !Z.leb_gt; lia
          | apply andb_true_iff; rewrite !Z.leb_le; lia ].
Qed.

Lemma text_too_long (limit : Z) (p : list Zod.PathItem) (s : jsstring) :
  js_length s > limit ->
  exists issues,
    Zod.string_ (Some 1) (Some limit) p (VStr s) = Zod.Issues issues
    /\ has_too_big issues = true.
Proof.
  intros Hlen; unfold Zod.string_.
  assert (Hg : (js_length s >? limit) = true) by (apply Z.gtb_lt; lia).
  rewrite Hg; destruct (js_length s <? 1); eexists; split; reflexivity.
Qed.

Lemma notes_too_long (p : list Zod.PathItem) (n : jsstring) :
  js_length n > 10000 ->
  Zod.optional (Zod.string_ None (Some 10000)) p (VStr n)
  = Zod.Issues [{| Zod.code := Zod.too_big; Zod.path := p |}].
Proof.
  intros Hlen; unfold Zod.optional, Zod.string_.
  assert (Hg : (js_length n >? 10000) = true) by (apply Z.gtb_lt; lia).
  now rewrite Hg.
Qed.

Lemma notes_property_parsed (p : list Zod.PathItem) (body : value) :
  notes_property_valid body ->
  exists n,
    Zod.optional (Zod.string_ None (Some 10000)) p (prop "notes" body) = Zod.Data n.
Proof.
  unfold notes_property_valid.
  destruct (prop "notes" body) as [| | | |n| |]; try contradiction; intros Hn.
  - exists None; reflexivity.
  - exists (Some n); now apply notes_within_limit.
Qed.

Lemma string_property_object (k : string) (body : value) (s : jsstring) :
  prop k body = VStr s -> Zod.is_object body = true.
Proof. destruct body; simpl; congruence. Qed.

Section JsonValidation.

Variable env : Env.
Variable rt : Runtime.
Variable systemPrompt : jsstring.
Variable openai : OpenAI.

Variable request : Request.
Variable body : value.

Hypothesis key_configured : falsy_string (OPENAI_API_KEY env) = false.
Hypothesis not_multipart : is_multipart request = false.
Hypothesis body_read : json request = Resolved body.

(** A body the request schema rejects is answered at once: 413 with the
    text-size message when some issue is [too_big], 400 otherwise. *)
Lemma json_rejected (issues : list Zod.Issue) :
  transformRequestSchema env [] body = Zod.Issues issues ->
  POST env rt systemPrompt openai request
  = (Resolved (if has_too_big issues then text_too_large rt env
               else invalid_request_format), []).
Proof.
  intros Hs; unfold POST, POST_try, first_pass; rewrite key_configured.
  fold (is_multipart request); rewrite not_multipart.
  unfold json_branch; rewrite body_read; flow.
  unfold parse; rewrite Hs; flow.
  fold (has_too_big issues); destruct (has_too_big issues); reflexivity.
Qed.

(** With valid notes, the schema accepts the body exactly when the text
    has between 1 and MAX_INPUT_CHARS code units. *)
Lemma request_accepted_iff (s : jsstring) :
  prop "text" body = VStr s ->
  notes_property_valid body ->
  Zod.accepted (transformRequestSchema env [] body)
  = ((1 <=? js_length s) && (js_length s <=? MAX_INPUT_CHARS env))%bool.
Proof.
  intros Ht Hn; unfold transformRequestSchema, Zod.field.
  rewrite (string_property_object _ _ _ Ht), Ht.
  destruct (notes_property_parsed ([] ++ [Zod.Key "notes"]) body Hn) as [n ->].
  rewrite <- (text_check _ ([] ++ [Zod.Key "text"])).
  destruct (Zod.string_ _ _ _ _); reflexivity.
Qed.

Lemma oversize_text_rejected (s : jsstring) :
  prop "text" body = VStr s ->
  js_length s > MAX_INPUT_CHARS env ->
  POST env rt systemPrompt openai request = (Resolved (text_too_large rt env), []).
Proof.
  intros Ht Hlen.
  destruct (text_too_long (MAX_INPUT_CHARS env) ([] ++ [Zod.Key "text"]) s Hlen)
    as (issues & Hi & Hbig).
  rewrite (json_rejected
             (issues ++ Zod.issues_of
                (Zod.optional (Zod.string_ None (Some 10000))
                   ([] ++ [Zod.Key "notes"]) (prop "notes" body)))).
  - now rewrite has_too_big_app, Hbig.
  - unfold transformRequestSchema, Zod.field.
    rewrite (string_property_object _ _ _ Ht), Ht, Hi.
    destruct (Zod.optional _ _ _); reflexivity.
Qed.

Lemma empty_text_rejected :
  prop "text" body = VStr [] ->
  notes_property_valid body ->
  0 <= MAX_INPUT_CHARS env ->
  POST env rt systemPrompt openai request = (Resolved invalid_request_format, []).
Proof.
  intros Ht Hn Hmax.
  destruct (notes_property_parsed ([] ++ [Zod.Key "notes"]) body Hn) as [n Hp].
  rewrite (json_rejected [{| Zod.code := Zod.too_small;
                             Zod.path := [] ++ [Zod.Key "text"] |}]);
    [reflexivity|].
  unfold transformRequestSchema, Zod.field.
  rewrite (string_property_object _ _ _ Ht), Ht, Hp.
  unfold Zod.string_; cbn [js_length List.length Z.of_nat Z.ltb Z.compare].
  assert (Hg : (0 >? MAX_INPUT_CHARS env) = false)
    by (rewrite Z.gtb_ltb; apply Z.ltb_ge; lia).
  now rewrite Hg.
Qed.

(** Notes over their limit are reported with the status and the message
    of an oversize text, whatever the text is. *)
Lemma long_json_notes (n : jsstring) :
  prop "notes" body = VStr n ->
  js_length n > 10000 ->
  POST env rt systemPrompt openai request = (Resolved (text_too_large rt env), []).
Proof.
  intros Hn Hlen.
  rewrite (json_rejected
             (Zod.issues_of
                (Zod.string_ (Some 1) (Some (MAX_INPUT_CHARS env))
                   ([] ++ [Zod.Key "text"]) (prop "text" body))
              ++ [{| Zod.code := Zod.too_big;
                     Zod.path := [] ++ [Zod.Key "notes"] |}])).
  - rewrite has_too_big_app; simpl; now rewrite orb_true_r.
  - unfold transformRequestSchema, Zod.field.
    rewrite (string_property_object _ _ _ Hn), Hn, (notes_too_long _ n Hlen).
    destruct (Zod.string_ _ _ _ _); reflexivity.
Qed.

End JsonValidation.

(** C2, at the body [{text: 'a', notes: <10,001 characters>}]: the text has
    length 1, within the limit of 100,000, and the only violation is the
    length of the notes; the handler answers 413 with the message of an
    oversize text, where the same text with notes of 10,000 characters is
    accepted and an empty text gets 400. *)
Theorem long_json_notes_reported_as_text_too_large :
  let openai := sample_openai (lit "first") (Resolved None) in
  let notes := repeat 120%N (Z.to_nat 10001) in
  js_length (lit "a") = 1
  /\ js_length notes = 10001
  /\ sample_POST openai (json_request (lit "a") (Some notes))
     = (Resolved
          {| status := 413;
             body := ErrorBody (lit "Input text is too large. Maximum is 100,000 characters.");
             headers := [] |}, [])
  /\ status_of (fst (sample_POST openai
                       (json_request (lit "a") (Some (repeat 120%N (Z.to_nat 10000))))))
     = Some 200
  /\ fst (sample_POST openai (json_request [] None))
     = Resolved invalid_request_format.
Proof.
  intros openai notes; repeat split; vm_compute; reflexivity.
Qed.

(* ================================================================== *)
(** * Further properties of the handler *)

(** ** Early exits *)

(** X1: without an API key the handler answers 500 with the configuration
    message and calls nothing, whatever the request. *)
Theorem missing_api_key_is_500
        (env : Env) (rt : Runtime) (systemPrompt : jsstring) (openai : OpenAI)
        (request : Request) :
  falsy_string (OPENAI_API_KEY env) = true ->
  POST env rt systemPrompt openai request
  = (Resolved (error_response 500 "Server is missing OPENAI_API_KEY configuration."), []).
Proof.
  intros Hk; unfold POST, POST_try; now rewrite Hk.
Qed.

Lemma missing_api_key_is_500_witness :
  POST (default_env (Some [])) sample_runtime (lit "policy")
       (sample_openai (lit "first") (Resolved None))
       (json_request (lit "hello team") None)
  = (Resolved (error_response 500 "Server is missing OPENAI_API_KEY configuration."), []).
Proof.
  apply (missing_api_key_is_500 (default_env (Some []))); reflexivity.
Defined.

Section EarlyExits.

Variable env : Env.
Variable rt : Runtime.
Variable systemPrompt : jsstring.
Variable openai : OpenAI.

(** A first pass that returns a response, or throws a schema error, has
    called nothing. *)
Lemma first_pass_exit_silent (request : Request) :
  (exists r, fst (first_pass env rt systemPrompt openai request) = Return r)
  \/ (exists issues,
        fst (first_pass env rt systemPrompt openai request) = Throw (ZodError issues)) ->
  snd (first_pass env rt systemPrompt openai request) = [].
Proof.
  unfold first_pass; destruct (includes _ _).
  - unfold multipart_branch.
    destruct (formData request) as [form|reason]; flow;
      [|intros [[r H]|[i H]]; discriminate].
    destruct (form_get (lit "notes") form) as [[s|f0]|]; flow.
    + unfold parse; destruct (transformFileNotesSchema [] _) as [notes|issues];
        flow; [|reflexivity].
      destruct (form_get (lit "file") form) as [[s'|f]|]; flow; try reflexivity.
      destruct (file_size f >? MAX_FILE_BYTES env); flow; [reflexivity|].
      unfold call_files_create, call_responses_create.
      destruct (files_create openai _); flow;
        [|intros [[r H]|[i H]]; discriminate].
      destruct (responses_create openai _); flow;
        intros [[r H]|[i H]]; discriminate.
    + destruct (form_get (lit "file") form) as [[s'|f]|]; flow; try reflexivity.
      destruct (file_size f >? MAX_FILE_BYTES env); flow; [reflexivity|].
      unfold call_files_create, call_responses_create.
      destruct (files_create openai _); flow;
        [|intros [[r H]|[i H]]; discriminate].
      destruct (responses_create openai _); flow;
        intros [[r H]|[i H]]; discriminate.
    + destruct (form_get (lit "file") form) as [[s'|f]|]; flow; try reflexivity.
      destruct (file_size f >? MAX_FILE_BYTES env); flow; [reflexivity|].
      unfold call_files_create, call_responses_create.
      destruct (files_create openai _); flow;
        [|intros [[r H]|[i H]]; discriminate].
      destruct (responses_create openai _); flow;
        intros [[r H]|[i H]]; discriminate.
  - unfold json_branch.
    destruct (json request) as [body|reason]; flow; [|reflexivity].
    unfold parse; destruct (transformRequestSchema env [] body) as [parsed|issues];
      flow; [|destruct (existsb _ issues); reflexivity].
    unfold call_responses_create.
    destruct (responses_create openai _); flow;
      intros [[r H]|[i H]]; discriminate.
Qed.

End EarlyExits.

(** X2: request validation comes before any provider call.  When the first
    pass ends by returning a response (a rejected request), that response is
    the handler's answer and no provider call was made. *)
Theorem validation_precedes_provider_calls
        (env : Env) (rt : Runtime) (systemPrompt : jsstring) (openai : OpenAI)
        (request : Request) (r : Response) :
  falsy_string (OPENAI_API_KEY env) = false ->
  fst (first_pass env rt systemPrompt openai request) = Return r ->
  POST env rt systemPrompt openai request = (Resolved r, []).
Proof.
  intros Hk Hr.
  pose proof (first_pass_exit_silent env rt systemPrompt openai request
                (or_introl (ex_intro _ r Hr))) as Hs.
  unfold POST, POST_try; rewrite Hk.
  destruct (first_pass env rt systemPrompt openai request) as [c tr];
    simpl in Hr, Hs; subst; reflexivity.
Qed.

Lemma validation_precedes_provider_calls_witness :
  sample_POST (sample_openai (lit "first") (Resolved None))
              (multipart_request (sample_file 10485761) None)
  = (Resolved (file_too_large sample_runtime sample_env), []).
Proof.
  apply (validation_precedes_provider_calls sample_env sample_runtime (lit "policy"));
    reflexivity.
Defined.

(** ** Rejected requests *)

Lemma has_too_big_string (lo hi : option Z) (p : list Zod.PathItem) (v : value) :
  has_too_big (Zod.issues_of (Zod.string_ lo hi p v))
  = match v, hi with
    | VStr s, Some m => js_length s >? m
    | _, _ => false
    end.
Proof.
  destruct v as [| | | |s| |]; try reflexivity.
  unfold Zod.string_.
  destruct lo as [l|], hi as [h|]; simpl;
    try destruct (js_length s <? l); try destruct (js_length s >? h);
    reflexivity.
Qed.

Lemma has_too_big_optional (hi : option Z) (p : list Zod.PathItem) (v : value) :
  has_too_big (Zod.issues_of (Zod.optional (Zod.string_ None hi) p v))
  = match v, hi with
    | VStr s, Some m => js_length s >? m
    | _, _ => false
    end.
Proof.
  rewrite <- (has_too_big_string None hi p v).
  unfold Zod.optional; destruct v; try reflexivity;
    destruct (Zod.string_ None hi p _); reflexivity.
Qed.

(** The issues of a rejected body hold a [too_big] entry exactly when the
    text or the notes are an oversize string. *)
Lemma request_issues_too_big (env : Env) (body : value) :
  text_not_oversize env body ->
  notes_not_oversize body ->
  has_too_big (Zod.issues_of (transformRequestSchema env [] body)) = false.
Proof.
  unfold text_not_oversize, notes_not_oversize, transformRequestSchema, Zod.field.
  intros Ht Hn; destruct (Zod.is_object body); [|reflexivity].
  assert (H1 : has_too_big
                 (Zod.issues_of
                    (Zod.string_ (Some 1) (Some (MAX_INPUT_CHARS env))
                       ([] ++ [Zod.Key "text"]) (prop "text" body))) = false).
  { rewrite has_too_big_string; destruct (prop "text" body); try reflexivity.
    rewrite Z.gtb_ltb; apply Z.ltb_ge; exact Ht. }
  assert (H2 : has_too_big
                 (Zod.issues_of
                    (Zod.optional (Zod.string_ None (Some 10000))
                       ([] ++ [Zod.Key "notes"]) (prop "notes" body))) = false).
  { rewrite has_too_big_optional; destruct (prop "notes" body); try reflexivity.
    rewrite Z.gtb_ltb; apply Z.ltb_ge; exact Hn. }
  destruct (Zod.string_ _ _ _ _), (Zod.optional _ _ _); simpl in *;
    rewrite ?has_too_big_app, ?H1, ?H2; reflexivity.
Qed.

(** X3: a JSON-branch request whose body cannot be read as JSON is answered
    400 'Invalid request body' without any provider call. *)
Theorem unreadable_body_is_400
        (env : Env) (rt : Runtime) (systemPrompt : jsstring) (openai : OpenAI)
        (request : Request) (reason : value) :
  falsy_string (OPENAI_API_KEY env) = false ->
  is_multipart request = false ->
  json request = Rejected reason ->
  POST env rt systemPrompt openai request
  = (Resolved (error_response 400 "Invalid request body"), []).
Proof.
  intros Hk Hm Hj; unfold POST, POST_try, first_pass; rewrite Hk.
  fold (is_multipart request); rewrite Hm.
  unfold json_branch; rewrite Hj; reflexivity.
Qed.

Lemma unreadable_body_is_400_witness :
  sample_POST (sample_openai (lit "first") (Resolved None))
              {| content_type := None;
                 formData := Rejected VUndefined;
                 json := Rejected (Error_ "Unexpected end of JSON input") |}
  = (Resolved (error_response 400 "Invalid request body"), []).
Proof.
  apply (unreadable_body_is_400 sample_env sample_runtime (lit "policy") _ _
           (Error_ "Unexpected end of JSON input")); reflexivity.
Defined.

(** X4: a JSON body that the request schema rejects for a reason other than
    an oversize text or oversize notes (not an object, text missing, empty or
    not a string, notes not a string) is answered 400 'Invalid request
    format' without any provider call. *)
Theorem malformed_body_is_400
        (env : Env) (rt : Runtime) (systemPrompt : jsstring) (openai : OpenAI)
        (request : Request) (body : value) :
  falsy_string (OPENAI_API_KEY env) = false ->
  is_multipart request = false ->
  json request = Resolved body ->
  Zod.accepted (transformRequestSchema env [] body) = false ->
  text_not_oversize env body ->
  notes_not_oversize body ->
  POST env rt systemPrompt openai request = (Resolved invalid_request_format, []).
Proof.
  intros Hk Hm Hj Ha Ht Hn.
  pose proof (request_issues_too_big env body Ht Hn) as Hb.
  destruct (transformRequestSchema env [] body) as [parsed|issues] eqn:Hs;
    [discriminate|].
  rewrite (json_rejected env rt systemPrompt openai request body Hk Hm Hj issues Hs).
  simpl in Hb; now rewrite Hb.
Qed.

Lemma malformed_body_is_400_witness :
  sample_POST (sample_openai (lit "first") (Resolved None))
              {| content_type := Some (lit "application/json");
                 formData := Rejected VUndefined;
                 json := Resolved (obj [("text"%string, VNum 42);
                                        ("notes"%string, VNull)]) |}
  = (Resolved invalid_request_format, []).
Proof.
  apply (malformed_body_is_400 sample_env sample_runtime (lit "policy") _ _
           (obj [("text"%string, VNum 42); ("notes"%string, VNull)]));
    try reflexivity; exact I.
Defined.

(** X5: a multipart request without a file in its [file] field (the field is
    missing or holds a string) is answered 400 with the missing-file message
    and no provider call, provided its notes are within their limit. *)
Theorem missing_file_is_400
        (env : Env) (rt : Runtime) (systemPrompt : jsstring) (openai : OpenAI)
        (request : Request) (form : FormData) :
  falsy_string (OPENAI_API_KEY env) = false ->
  is_multipart request = true ->
  formData request = Resolved form ->
  no_file_field form ->
  notes_field_within_limit form ->
  POST env rt systemPrompt openai request
  = (Resolved (error_response 400 "Missing file upload (expected form field 'file')."), []).
Proof.
  intros Hk Hm Hf Hno Hnotes.
  destruct (multipart_notes_parsed form Hnotes) as [notes Hp].
  rewrite (POST_multipart env rt systemPrompt openai request Hk Hm).
  unfold multipart_branch; rewrite Hf; flow; rewrite Hp; flow.
  unfold no_file_field in Hno.
  destruct (form_get (lit "file") form) as [[s|f]|]; [reflexivity|destruct Hno|reflexivity].
Qed.

Lemma missing_file_is_400_witness :
  sample_POST (sample_openai (lit "first") (Resolved None))
              {| content_type := Some (lit "multipart/form-data; boundary=x");
                 formData := Resolved [(lit "file", EntryString (lit "results.csv"));
                                       (lit "notes", EntryString (lit "short"))];
                 json := Rejected VUndefined |}
  = (Resolved (error_response 400 "Missing file upload (expected form field 'file')."), []).
Proof.
  apply (missing_file_is_400 sample_env sample_runtime (lit "policy") _ _
           [(lit "file", EntryString (lit "results.csv"));
            (lit "notes", EntryString (lit "short"))]);
    try reflexivity; try exact I.
  vm_compute; discriminate.
Defined.

(** ** Model output *)

(** X6: when the first model call resolves without output text (none, or the
    empty string), the handler answers 500 'No response from OpenAI' and
    makes no further call. *)
Theorem empty_model_output_is_500
        (env : Env) (rt : Runtime) (systemPrompt : jsstring) (openai : OpenAI)
        (request : Request) (raw notes : option jsstring) (tr : list Event) :
  falsy_string (OPENAI_API_KEY env) = false ->
  first_pass env rt systemPrompt openai request = (Normal (raw, notes), tr) ->
  falsy_string raw = true ->
  POST env rt systemPrompt openai request
  = (Resolved (error_response 500 "No response from OpenAI"), tr).
Proof.
  intros Hk Hf Hraw; unfold POST, POST_try; rewrite Hk, Hf; flow.
  unfold respond.
  destruct raw as [t|]; [simpl in Hraw; apply negb_true_iff in Hraw; rewrite Hraw|];
    flow; rewrite app_nil_r; reflexivity.
Qed.

Lemma empty_model_output_is_500_witness :
  let openai := scripted (Resolved (lit "file-1")) (Resolved (Some [])) (Resolved None) in
  sample_POST openai (json_request (lit "hello team") (Some (lit "as a poem")))
  = (Resolved (error_response 500 "No response from OpenAI"),
     snd (first_pass sample_env sample_runtime (lit "policy") openai
            (json_request (lit "hello team") (Some (lit "as a poem"))))).
Proof.
  intros openai.
  apply (empty_model_output_is_500 sample_env sample_runtime (lit "policy") openai
           _ (Some []) (Some (lit "as a poem"))); reflexivity.
Defined.

(** X7: when the first pass's output text is not JSON, the handler answers
    502 with the invalid-format message and makes no further call. *)
Theorem unparsable_model_output_is_502
        (env : Env) (rt : Runtime) (systemPrompt : jsstring) (openai : OpenAI)
        (request : Request) (raw : jsstring) (notes : option jsstring)
        (tr : list Event) :
  first_pass_yields env rt systemPrompt openai request raw notes tr ->
  JSON_parse rt raw = None ->
  POST env rt systemPrompt openai request
  = (Resolved (error_response 502 "Model returned an invalid response format. Please try again."),
     tr).
Proof.
  intros Hf Hp.
  rewrite (POST_after_first_pass _ _ _ _ _ _ _ _ Hf).
  destruct Hf as (_ & _ & Ht).
  unfold respond, json_parse; rewrite Ht; flow; rewrite Hp; flow.
  now rewrite app_nil_r.
Qed.

Lemma unparsable_model_output_is_502_witness :
  let openai := sample_openai (lit "Sorry, I cannot help with that.") (Resolved None) in
  sample_POST openai (json_request (lit "hello team") None)
  = (Resolved (error_response 502 "Model returned an invalid response format. Please try again."),
     snd (first_pass sample_env sample_runtime (lit "policy") openai
            (json_request (lit "hello team") None))).
Proof.
  intros openai.
  apply (unparsable_model_output_is_502 sample_env sample_runtime (lit "policy")
           openai _ (lit "Sorry, I cannot help with that.") None).
  - repeat split; vm_compute; reflexivity.
  - vm_compute; reflexivity.
Defined.

(** X8: when the notes call for a restyle pass and its output text parses
    and validates, the delivered response is the sanitized restyled output
    (not the first pass's), after exactly one further call. *)
Theorem restyled_output_is_delivered
        (env : Env) (rt : Runtime) (systemPrompt : jsstring) (openai : OpenAI)
        (request : Request) (raw : jsstring) (notes : option jsstring)
        (tr : list Event) (v : value) (validated : TransformResponse)
        (t : jsstring) (v' : value) (restyled : TransformResponse) :
  first_pass_yields env rt systemPrompt openai request raw notes tr ->
  JSON_parse rt raw = Some v ->
  transformResponseSchema [] v = Zod.Data validated ->
  notes_present notes = true ->
  responses_create openai (rewrite_params env rt validated notes) = Resolved (Some t) ->
  truthy_string t = true ->
  JSON_parse rt t = Some v' ->
  transformResponseSchema [] v' = Zod.Data restyled ->
  POST env rt systemPrompt openai request
  = (Resolved (delivered restyled notes),
     tr ++ [ResponsesCreate (rewrite_params env rt validated notes)
              (Resolved (Some t))]).
Proof.
  intros Hf Hv Hs Hn Hr Ht Hv' Hs'.
  rewrite (POST_validated _ _ _ _ _ _ _ _ _ _ Hf Hv Hs).
  unfold rewrite_pass, call_responses_create, json_parse, parse.
  rewrite shouldApplyNotesRewritePass_spec, Hn, Hr; flow.
  rewrite Ht, Hv'; flow; rewrite Hs'; reflexivity.
Qed.

Lemma restyled_output_is_delivered_witness :
  let openai := sample_openai (lit "first") (Resolved (Some (lit "restyled"))) in
  fst (sample_POST openai (json_request (lit "hello team") (Some (lit "as a poem"))))
  = Resolved (delivered {| title := lit "Ode to a launch";
                           summary := lit "On March 15 we fly, with 250k held high.";
                           sections := []; next_actions := [] |}
                        (Some (lit "as a poem"))).
Proof.
  intros openai; unfold sample_POST.
  rewrite (restyled_output_is_delivered sample_env sample_runtime (lit "policy") openai
             (json_request (lit "hello team") (Some (lit "as a poem")))
             (lit "first") (Some (lit "as a poem"))
             (snd (first_pass sample_env sample_runtime (lit "policy") openai
                     (json_request (lit "hello team") (Some (lit "as a poem")))))
             sample_output sample_validated
             (lit "restyled") sample_restyled
             {| title := lit "Ode to a launch";
                summary := lit "On March 15 we fly, with 250k held high.";
                sections := []; next_actions := [] |});
    try (vm_compute; reflexivity).
  repeat split; vm_compute; reflexivity.
Defined.

(** X9: when the restyle call resolves without usable output (no text, empty
    text, text that is not JSON, or JSON that is not of the response shape),
    the first pass's sanitized result is delivered, with status 200. *)
Theorem unusable_restyle_output_falls_back
        (env : Env) (rt : Runtime) (systemPrompt : jsstring) (openai : OpenAI)
        (request : Request) (raw : jsstring) (notes : option jsstring)
        (tr : list Event) (v : value) (validated : TransformResponse)
        (out : option jsstring) :
  first_pass_yields env rt systemPrompt openai request raw notes tr ->
  JSON_parse rt raw = Some v ->
  transformResponseSchema [] v = Zod.Data validated ->
  notes_present notes = true ->
  responses_create openai (rewrite_params env rt validated notes) = Resolved out ->
  (forall t v', out = Some t -> truthy_string t = true ->
                JSON_parse rt t = Some v' -> conforms v' = false) ->
  POST env rt systemPrompt openai request
  = (Resolved (delivered validated notes),
     tr ++ [ResponsesCreate (rewrite_params env rt validated notes) (Resolved out)])
  /\ status (delivered validated notes) = 200
  /\ body (delivered validated notes) = TransformBody (sanitize validated).
Proof.
  intros Hf Hv Hs Hn Hr Hbad; split; [|split; reflexivity].
  exact (restyle_fallback _ _ _ _ _ _ _ _ _ _ Hf Hv Hs out Hn Hr Hbad).
Qed.

Lemma unusable_restyle_output_falls_back_witness :
  let openai := sample_openai (lit "first") (Resolved (Some (lit "no-summary"))) in
  fst (sample_POST openai (json_request (lit "hello team") (Some (lit "as a poem"))))
  = Resolved (delivered sample_validated (Some (lit "as a poem"))).
Proof.
  intros openai.
  destruct (unusable_restyle_output_falls_back
              sample_env sample_runtime (lit "policy") openai
              (json_request (lit "hello team") (Some (lit "as a poem")))
              (lit "first") (Some (lit "as a poem"))
              (snd (first_pass sample_env sample_runtime (lit "policy") openai
                      (json_request (lit "hello team") (Some (lit "as a poem")))))
              sample_output sample_validated (Some (lit "no-summary")))
    as [H _].
  - repeat split; vm_compute; reflexivity.
  - vm_compute; reflexivity.
  - vm_compute; reflexivity.
  - vm_compute; reflexivity.
  - vm_compute; reflexivity.
  - intros t v' [= <-] _ Hp; vm_compute in Hp; injection Hp as <-.
    vm_compute; reflexivity.
  - unfold sample_POST; rewrite H; reflexivity.
Defined.

(** ** The provider calls of a run *)

Section Calls.

Variable env : Env.
Variable rt : Runtime.
Variable systemPrompt : jsstring.
Variable openai : OpenAI.

Lemma length_bind {A B} (m : M A) (k : A -> M B) (a b : nat) :
  (List.length (snd m) <= a)%nat ->
  (forall x, (List.length (snd (k x)) <= b)%nat) ->
  (List.length (snd (bind m k)) <= a + b)%nat.
Proof.
  intros Hm Hk; destruct m as [[x|r|e] tr]; simpl in *; try lia.
  specialize (Hk x); destruct (k x) as [c tr']; simpl in *.
  rewrite length_app; lia.
Qed.

Lemma length_call_responses (p : ResponsesCreateParams) :
  (List.length (snd (call_responses_create openai p)) <= 1)%nat.
Proof.
  unfold call_responses_create; destruct (responses_create openai p); simpl; lia.
Qed.

Lemma length_call_files (p : FilesCreateParams) :
  (List.length (snd (call_files_create openai p)) <= 1)%nat.
Proof.
  unfold call_files_create; destruct (files_create openai p); simpl; lia.
Qed.

Lemma length_silent {A} (m : M A) : snd m = [] -> (List.length (snd m) <= 0)%nat.
Proof. intros ->; simpl; lia. Qed.

Lemma silent_try_catch {A} (m : M A) (h : Exn -> M A) :
  snd m = [] -> (forall e, snd (h e) = []) -> snd (try_catch m h) = [].
Proof.
  intros Hm Hh; destruct m as [[a|r|e] tr]; simpl in *; subst; auto.
  specialize (Hh e); destruct (h e); simpl in *; subst; reflexivity.
Qed.

Lemma silent_request_validation (request : Request) (h : Exn -> M TransformRequest) :
  (forall e, snd (h e) = []) ->
  snd (try_catch (bind (await (json request))
                       (fun body => parse (transformRequestSchema env) body)) h) = [].
Proof.
  intros Hh; apply silent_try_catch; [|exact Hh].
  apply silent_bind; [apply silent_await|intros; apply silent_parse].
Qed.

Lemma length_json_branch (request : Request) :
  (List.length (snd (json_branch env rt systemPrompt openai request)) <= 1)%nat.
Proof.
  unfold json_branch.
  apply (length_bind _ _ 0 1).
  - apply length_silent, silent_request_validation.
    intros [issues|reason]; apply silent_return_json.
  - intros parsed; apply (length_bind _ _ 1 0);
      [apply length_call_responses|intros; simpl; lia].
Qed.

Lemma length_multipart_branch (request : Request) :
  (List.length (snd (multipart_branch env rt systemPrompt openai request)) <= 2)%nat.
Proof.
  unfold multipart_branch.
  apply (length_bind _ _ 0 2); [apply length_silent, silent_await|intros form].
  apply (length_bind _ _ 0 2).
  - apply length_silent.
    destruct (form_get (lit "notes") form) as [[s|f]|];
      [apply silent_parse|reflexivity|reflexivity].
  - intros notes.
    destruct (form_get (lit "file") form) as [[s|f]|]; try (simpl; lia).
    destruct (file_size f >? MAX_FILE_BYTES env); [simpl; lia|].
    apply (length_bind _ _ 1 1); [apply length_call_files|intros id].
    apply (length_bind _ _ 1 0); [apply length_call_responses|intros; simpl; lia].
Qed.

Lemma length_rewrite_pass (validated : TransformResponse) (notes : option jsstring) :
  (List.length (snd (rewrite_pass env rt openai validated notes)) <= 1)%nat.
Proof.
  unfold rewrite_pass.
  destruct (shouldApplyNotesRewritePass notes); [|simpl; lia].
  apply (length_bind _ _ 1 0); [apply length_call_responses|intros [t|]];
    [|simpl; lia].
  destruct (truthy_string t); [|simpl; lia].
  apply length_silent, silent_try_catch; [|reflexivity].
  apply silent_bind; [apply silent_json_parse|intros; apply silent_parse].
Qed.

Lemma length_respond (raw notes : option jsstring) :
  (List.length (snd (respond env rt openai raw notes)) <= 1)%nat.
Proof.
  unfold respond.
  apply (length_bind _ _ 0 1).
  - apply length_silent.
    destruct raw as [t|]; [destruct (truthy_string t)|]; reflexivity.
  - intros t; apply (length_bind _ _ 0 1).
    + apply length_silent, silent_try_catch;
        [apply silent_json_parse|reflexivity].
    + intros parsed; apply (length_bind _ _ 0 1);
        [apply length_silent, silent_parse|intros validated].
      apply (length_bind _ _ 1 0); [apply length_rewrite_pass|intros; simpl; lia].
Qed.

Lemma POST_trace (request : Request) :
  snd (POST env rt systemPrompt openai request)
  = snd (POST_try env rt systemPrompt openai request).
Proof.
  unfold POST; destruct (POST_try env rt systemPrompt openai request) as [[r|r|e] tr];
    reflexivity.
Qed.

End Calls.

(** X10: a run of the handler makes at most three provider calls (upload,
    first pass, restyle pass), and at most two when the request is not
    multipart: no call is ever repeated. *)
Theorem at_most_three_provider_calls
        (env : Env) (rt : Runtime) (systemPrompt : jsstring) (openai : OpenAI)
        (request : Request) :
  (List.length (snd (POST env rt systemPrompt openai request)) <= 3)%nat
  /\ (is_multipart request = false ->
      (List.length (snd (POST env rt systemPrompt openai request)) <= 2)%nat).
Proof.
  rewrite POST_trace; unfold POST_try.
  destruct (falsy_string (OPENAI_API_KEY env)); [simpl; split; intros; lia|].
  unfold first_pass; fold (is_multipart request).
  destruct (is_multipart request); split; try discriminate; intros.
  - apply (length_bind _ _ 2 1); [apply length_multipart_branch|].
    intros [raw notes]; apply length_respond.
  - apply (Nat.le_trans _ 2); [|lia].
    apply (length_bind _ _ 1 1); [apply length_json_branch|].
    intros [raw notes]; apply length_respond.
  - apply (length_bind _ _ 1 1); [apply length_json_branch|].
    intros [raw notes]; apply length_respond.
Qed.

Lemma at_most_three_provider_calls_witness :
  (List.length (snd (sample_POST (sample_openai (lit "first") (Resolved None))
                       (json_request (lit "hello team") (Some (lit "as a poem")))))
   <= 2)%nat.
Proof.
  apply (at_most_three_provider_calls sample_env sample_runtime (lit "policy")).
  reflexivity.
Defined.

Section StopsAtFailure.

Variable env : Env.
Variable rt : Runtime.
Variable systemPrompt : jsstring.
Variable openai : OpenAI.

Lemma stops_nil : stops_at_failure [].
Proof. intros [|e tr1] ev tr2 H; discriminate. Qed.

Lemma stops_single (ev : Event) : stops_at_failure [ev].
Proof.
  intros [|e [|e' tr1]] ev' tr2 H _; simpl in H;
    injection H as _ H; [congruence|discriminate|discriminate].
Qed.

Lemma stops_silent {A} (m : M A) : snd m = [] -> stops_at_failure (snd m).
Proof. intros ->; apply stops_nil. Qed.

Lemma stops_bind {A B} (m : M A) (k : A -> M B) :
  rejections_propagate m ->
  stops_at_failure (snd m) ->
  (forall a, stops_at_failure (snd (k a))) ->
  stops_at_failure (snd (bind m k)).
Proof.
  intros Hp Hm Hk; destruct m as [[a|r|e] tr]; simpl in *; auto.
  specialize (Hk a); destruct (k a) as [c tr']; simpl in *.
  intros tr1 ev tr2 Heq Hrej.
  apply app_eq_app in Heq; destruct Heq as [l [[H1 H2]|[H1 H2]]].
  - destruct l as [|e l].
    + simpl in H2; apply (Hk [] ev tr2); [now rewrite <- H2|exact Hrej].
    + injection H2 as <- H2.
      destruct (rejection ev) as [reason|] eqn:Hr; [|congruence].
      assert (Hin : In ev tr) by (rewrite H1; apply in_or_app; right; left; auto).
      specialize (Hp ev reason Hin Hr); discriminate.
  - apply (Hk l ev tr2); [exact H2|exact Hrej].
Qed.

Lemma stops_call_responses (p : ResponsesCreateParams) :
  stops_at_failure (snd (call_responses_create openai p)).
Proof.
  unfold call_responses_create; destruct (responses_create openai p);
    apply stops_single.
Qed.

Lemma stops_call_files (p : FilesCreateParams) :
  stops_at_failure (snd (call_files_create openai p)).
Proof.
  unfold call_files_create; destruct (files_create openai p); apply stops_single.
Qed.

Lemma stops_first_pass (request : Request) :
  stops_at_failure (snd (first_pass env rt systemPrompt openai request)).
Proof.
  unfold first_pass; destruct (includes _ _).
  - unfold multipart_branch.
    apply stops_bind;
      [apply propagate_silent, silent_await|apply stops_silent, silent_await|].
    intros form; apply stops_bind.
    + apply propagate_silent.
      destruct (form_get (lit "notes") form) as [[s|f]|];
        [apply silent_parse|reflexivity|reflexivity].
    + apply stops_silent.
      destruct (form_get (lit "notes") form) as [[s|f]|];
        [apply silent_parse|reflexivity|reflexivity].
    + intros notes.
      destruct (form_get (lit "file") form) as [[s|f]|]; try apply stops_nil.
      destruct (file_size f >? MAX_FILE_BYTES env); [apply stops_nil|].
      apply stops_bind;
        [apply propagate_files_create|apply stops_call_files|intros id].
      apply stops_bind;
        [apply propagate_responses_create|apply stops_call_responses|].
      intros response; apply stops_nil.
  - unfold json_branch.
    apply stops_bind.
    + apply propagate_silent, silent_request_validation.
      intros [issues|reason]; apply silent_return_json.
    + apply stops_silent, silent_request_validation.
      intros [issues|reason]; apply silent_return_json.
    + intros parsed; apply stops_bind;
        [apply propagate_responses_create|apply stops_call_responses|].
      intros response; apply stops_nil.
Qed.

Lemma silent_restyle_parse (t : jsstring) (validated : TransformResponse) :
  snd (try_catch (bind (json_parse rt t)
                       (fun rewrittenParsed => parse transformResponseSchema rewrittenParsed))
                 (fun _ => ret validated)) = [].
Proof.
  apply silent_try_catch; [|reflexivity].
  apply silent_bind; [apply silent_json_parse|intros; apply silent_parse].
Qed.

Lemma stops_rewrite_pass (validated : TransformResponse) (notes : option jsstring) :
  stops_at_failure (snd (rewrite_pass env rt openai validated notes)).
Proof.
  unfold rewrite_pass.
  destruct (shouldApplyNotesRewritePass notes); [|apply stops_nil].
  apply stops_bind;
    [apply propagate_responses_create|apply stops_call_responses|intros [t|]];
    [|apply stops_nil].
  destruct (truthy_string t); [|apply stops_nil].
  apply stops_silent, silent_restyle_parse.
Qed.

Lemma silent_raw_check (raw : option jsstring) :
  snd (match raw with
       | Some t => if truthy_string t then ret t
                   else throw (Thrown (Error_ "No response from OpenAI"))
       | None => @throw jsstring (Thrown (Error_ "No response from OpenAI"))
       end) = [].
Proof. destruct raw as [t|]; [destruct (truthy_string t)|]; reflexivity. Qed.

Lemma stops_respond (raw notes : option jsstring) :
  stops_at_failure (snd (respond env rt openai raw notes)).
Proof.
  unfold respond.
  apply stops_bind;
    [apply propagate_silent, silent_raw_check|apply stops_silent, silent_raw_check|].
  intros t; apply stops_bind.
  - apply propagate_silent, silent_try_catch; [apply silent_json_parse|reflexivity].
  - apply stops_silent, silent_try_catch; [apply silent_json_parse|reflexivity].
  - intros parsed; apply stops_bind;
      [apply propagate_silent, silent_parse|apply stops_silent, silent_parse|].
    intros validated; apply stops_bind;
      [apply propagate_rewrite_pass|apply stops_rewrite_pass|].
    intros final; apply stops_nil.
Qed.

End StopsAtFailure.

(** X11: no provider call follows a failed one: when a call of a run was
    rejected, it is the last call of that run (no retry, and nothing further
    is attempted). *)
Theorem no_call_after_failure
        (env : Env) (rt : Runtime) (systemPrompt : jsstring) (openai : OpenAI)
        (request : Request) (tr1 tr2 : list Event) (ev : Event) :
  snd (POST env rt systemPrompt openai request) = tr1 ++ ev :: tr2 ->
  rejection ev <> None ->
  tr2 = [].
Proof.
  rewrite POST_trace; unfold POST_try.
  destruct (falsy_string (OPENAI_API_KEY env)); [apply stops_nil|].
  apply stops_bind;
    [apply propagate_first_pass|apply stops_first_pass|].
  intros [raw notes]; apply stops_respond.
Qed.

Lemma no_call_after_failure_witness :
  exists tr1 ev,
    snd (sample_POST (scripted (Rejected rate_limited) (Resolved None) (Resolved None))
                     (multipart_request (sample_file 2048) (Some (lit "as a poem"))))
    = tr1 ++ [ev]
    /\ rejection ev = Some rate_limited.
Proof.
  exists [], (FilesCreate (upload_params (sample_file 2048)) (Rejected rate_limited)).
  assert (H : snd (sample_POST
                     (scripted (Rejected rate_limited) (Resolved None) (Resolved None))
                     (multipart_request (sample_file 2048) (Some (lit "as a poem"))))
              = [] ++ FilesCreate (upload_params (sample_file 2048))
                        (Rejected rate_limited) :: [])
    by (vm_compute; reflexivity).
  assert (Hlast : @nil Event = []).
  { apply (no_call_after_failure sample_env sample_runtime (lit "policy") _ _ _ _ _ H).
    discriminate. }
  split; [exact H | reflexivity].
Defined.

(** ** JSON mode *)

Lemma startsWith_app (s rest p : jsstring) :
  startsWith s p = true -> startsWith (s ++ rest) p = true.
Proof.
  revert s; induction p as [|a p IH]; intros s.
  - destruct s, rest; reflexivity.
  - destruct s as [|b s]; simpl; [discriminate|].
    rewrite !andb_true_iff; intros [H1 H2]; split; [exact H1|apply IH, H2].
Qed.

Lemma includes_app (s rest p : jsstring) :
  includes s p = true -> includes (s ++ rest) p = true.
Proof.
  induction s as [|b s IH]; simpl.
  - rewrite orb_false_r; intros H.
    destruct p; [destruct rest; reflexivity|discriminate].
  - rewrite !orb_true_iff; intros [H|H].
    + left; apply (startsWith_app (b :: s) rest p H).
    + right; apply IH, H.
Qed.

Lemma buildTextUserPrompt_mentions_JSON (t : jsstring) (notes : option jsstring) :
  includes (buildTextUserPrompt t notes) (lit "JSON") = true.
Proof. unfold buildTextUserPrompt; apply includes_app; reflexivity. Qed.

Lemma buildFileUserPrompt_mentions_JSON (notes : option jsstring) :
  includes (buildFileUserPrompt notes) (lit "JSON") = true.
Proof. unfold buildFileUserPrompt; apply includes_app; reflexivity. Qed.

Lemma buildNotesRewritePrompt_mentions_JSON (json : jsstring) (notes : option jsstring) :
  includes (buildNotesRewritePrompt json notes) (lit "JSON") = true.
Proof. unfold buildNotesRewritePrompt; apply includes_app; reflexivity. Qed.

Section JsonMode.

Variable env : Env.
Variable rt : Runtime.
Variable systemPrompt : jsstring.
Variable openai : OpenAI.

Lemma all_bind {A B} (P : Event -> bool) (m : M A) (k : A -> M B) :
  forallb P (snd m) = true ->
  (forall a, forallb P (snd (k a)) = true) ->
  forallb P (snd (bind m k)) = true.
Proof.
  intros Hm Hk; destruct m as [[a|r|e] tr]; simpl in *; auto.
  specialize (Hk a); destruct (k a) as [c tr']; simpl in *.
  now rewrite forallb_app, Hm, Hk.
Qed.

Lemma all_silent {A} (P : Event -> bool) (m : M A) :
  snd m = [] -> forallb P (snd m) = true.
Proof. now intros ->. Qed.

Lemma all_call_responses (P : Event -> bool) (p : ResponsesCreateParams) :
  (forall r, P (ResponsesCreate p r) = true) ->
  forallb P (snd (call_responses_create openai p)) = true.
Proof.
  intros HP; unfold call_responses_create.
  destruct (responses_create openai p); simpl; now rewrite HP.
Qed.

Lemma all_call_files (P : Event -> bool) (p : FilesCreateParams) :
  (forall r, P (FilesCreate p r) = true) ->
  forallb P (snd (call_files_create openai p)) = true.
Proof.
  intros HP; unfold call_files_create.
  destruct (files_create openai p); simpl; now rewrite HP.
Qed.

Lemma json_mode_first_pass (request : Request) :
  forallb json_mode_call (snd (first_pass env rt systemPrompt openai request)) = true.
Proof.
  unfold first_pass; destruct (includes _ _).
  - unfold multipart_branch.
    apply all_bind; [apply all_silent, silent_await|intros form].
    apply all_bind.
    + apply all_silent.
      destruct (form_get (lit "notes") form) as [[s|f]|];
        [apply silent_parse|reflexivity|reflexivity].
    + intros notes.
      destruct (form_get (lit "file") form) as [[s|f]|]; try reflexivity.
      destruct (file_size f >? MAX_FILE_BYTES env); [reflexivity|].
      apply all_bind; [apply all_call_files; reflexivity|intros id].
      apply all_bind; [|reflexivity].
      apply all_call_responses; intros r.
      cbn [json_mode_call text_format content existsb mentions_JSON].
      now rewrite buildFileUserPrompt_mentions_JSON.
  - unfold json_branch.
    apply all_bind.
    + apply all_silent, silent_request_validation.
      intros [issues|reason]; apply silent_return_json.
    + intros parsed; apply all_bind; [|reflexivity].
      apply all_call_responses; intros r.
      cbn [json_mode_call text_format content existsb mentions_JSON].
      now rewrite buildTextUserPrompt_mentions_JSON.
Qed.

Lemma json_mode_respond (raw notes : option jsstring) :
  forallb json_mode_call (snd (respond env rt openai raw notes)) = true.
Proof.
  unfold respond.
  apply all_bind; [apply all_silent, silent_raw_check|intros t].
  apply all_bind;
    [apply all_silent, silent_try_catch; [apply silent_json_parse|reflexivity]|].
  intros parsed; apply all_bind; [apply all_silent, silent_parse|].
  intros validated; apply all_bind; [|reflexivity].
  unfold rewrite_pass.
  destruct (shouldApplyNotesRewritePass notes); [|reflexivity].
  apply all_bind.
  - apply all_call_responses; intros r.
    unfold rewrite_params.
    cbn [json_mode_call text_format content existsb mentions_JSON].
    now rewrite buildNotesRewritePrompt_mentions_JSON.
  - intros [t'|]; [|reflexivity].
    destruct (truthy_string t'); [|reflexivity].
    apply all_silent, silent_restyle_parse.
Qed.

End JsonMode.

(** X12: every model call of a run is made in JSON mode: it asks for the
    [json_object] format and its input text contains the word JSON, which
    the provider requires for that format. *)
Theorem model_calls_are_in_json_mode
        (env : Env) (rt : Runtime) (systemPrompt : jsstring) (openai : OpenAI)
        (request : Request) (p : ResponsesCreateParams)
        (r : Awaited (option jsstring)) :
  In (ResponsesCreate p r) (snd (POST env rt systemPrompt openai request)) ->
  text_format p = lit "json_object"
  /\ exists t, In (input_text t) (content p) /\ includes t (lit "JSON") = true.
Proof.
  intros Hin.
  assert (Hall : forallb json_mode_call
                   (snd (POST env rt systemPrompt openai request)) = true).
  { rewrite POST_trace; unfold POST_try.
    destruct (falsy_string (OPENAI_API_KEY env)); [reflexivity|].
    apply all_bind; [apply json_mode_first_pass|].
    intros [raw notes]; apply json_mode_respond. }
  rewrite forallb_forall in Hall; specialize (Hall _ Hin); simpl in Hall.
  apply andb_true_iff in Hall; destruct Hall as [Hf Hc].
  split; [now apply jsstring_eqb_eq|].
  apply existsb_exists in Hc; destruct Hc as [c [Hc Hm]].
  destruct c as [t|d i|i]; try discriminate.
  exists t; split; assumption.
Qed.

Lemma model_calls_are_in_json_mode_witness :
  let openai := sample_openai (lit "first") (Resolved (Some (lit "restyled"))) in
  let run := sample_POST openai (json_request (lit "hello team") (Some (lit "as a poem"))) in
  exists p r,
    nth_error (snd run) 1 = Some (ResponsesCreate p r)
    /\ temperature p = 4 # 10
    /\ text_format p = lit "json_object".
Proof.
  intros openai run.
  exists (rewrite_params sample_env sample_runtime sample_validated (Some (lit "as a poem"))),
         (Resolved (Some (lit "restyled"))).
  split; [vm_compute; reflexivity|split; [reflexivity|]].
  apply (model_calls_are_in_json_mode sample_env sample_runtime (lit "policy") openai
           (json_request (lit "hello team") (Some (lit "as a poem")))
           _ (Resolved (Some (lit "restyled")))).
  vm_compute; right; left; reflexivity.
Defined.

(** ** Error messages *)

Lemma trimStart_head (s : jsstring) (c : code_unit) (r : jsstring) :
  trimStart s = c :: r -> isWhiteSpace c = false.
Proof.
  induction s as [|x s IH]; simpl; [discriminate|].
  destruct (isWhiteSpace x) eqn:Hx; [exact IH|].
  intros [= <- _]; exact Hx.
Qed.

Lemma trimStart_fixed (s : jsstring) :
  match s with [] => True | c :: _ => isWhiteSpace c = false end ->
  trimStart s = s.
Proof. destruct s as [|c s]; simpl; [reflexivity|now intros ->]. Qed.

Lemma trimStart_idempotent (s : jsstring) : trimStart (trimStart s) = trimStart s.
Proof.
  apply trimStart_fixed; destruct (trimStart s) as [|c r] eqn:H; [exact I|].
  exact (trimStart_head s c r H).
Qed.

Lemma trimStart_suffix (s : jsstring) : exists p, s = p ++ trimStart s.
Proof.
  induction s as [|x s [p IH]]; simpl; [exists []; reflexivity|].
  destruct (isWhiteSpace x); [|exists []; reflexivity].
  exists (x :: p); simpl; now rewrite <- IH.
Qed.

(** What [trim] returns has no whitespace left to strip. *)
Lemma trim_idempotent (s : jsstring) : trim (trim s) = trim s.
Proof.
  unfold trim, trimEnd.
  set (a := trimStart s); set (b := trimStart (rev a)).
  assert (Hb : trimStart (rev b) = rev b).
  { apply trimStart_fixed.
    destruct (rev b) as [|c r] eqn:Hr; [exact I|].
    destruct (trimStart_suffix (rev a)) as [p Hp]; fold b in Hp.
    apply (f_equal (@rev code_unit)) in Hp.
    rewrite rev_involutive, rev_app_distr, Hr in Hp; simpl in Hp.
    apply (trimStart_head s c (r ++ rev p)); exact Hp. }
  rewrite Hb, rev_involutive; unfold b; now rewrite trimStart_idempotent.
Qed.

Lemma trimmed_string_sound (v : value) (m : jsstring) :
  trimmed_string v = Some m -> m <> [] /\ trim m = m.
Proof.
  destruct v as [| | | |s| |]; try discriminate; simpl.
  destruct (truthy_string (trim s)) eqn:Ht; [|discriminate].
  intros [= <-]; split; [|apply trim_idempotent].
  destruct (trim s); [discriminate|congruence].
Qed.

Lemma upstream_message_sound (reason : value) :
  upstream_message reason <> [] /\ trim (upstream_message reason) = upstream_message reason.
Proof.
  unfold upstream_message.
  destruct (trimmed_string (prop "message" (prop "error" reason))) as [m|] eqn:H1;
    [exact (trimmed_string_sound _ _ H1)|].
  destruct (trimmed_string (prop "message" reason)) as [m|] eqn:H2;
    [exact (trimmed_string_sound _ _ H2)|].
  split; [discriminate|reflexivity].
Qed.

(** X15: the message that [normalizeOpenAIError] produces is never empty and
    carries no leading or trailing whitespace.  A nested [error.message] with
    a non-whitespace character wins over the top-level [message]; when
    neither is usable the fixed fallback text is used; the status is 500
    unless the error carries a numeric status. *)
Theorem normalized_error_message
        (reason : value) :
  let n := normalizeOpenAIError reason in
  ne_message n <> []
  /\ trim (ne_message n) = ne_message n
  /\ (forall s, prop "message" (prop "error" reason) = VStr s -> blank s = false ->
                ne_message n = trim s)
  /\ (trimmed_string (prop "message" (prop "error" reason)) = None ->
      forall s, prop "message" reason = VStr s -> blank s = false ->
                ne_message n = trim s)
  /\ (trimmed_string (prop "message" (prop "error" reason)) = None ->
      trimmed_string (prop "message" reason) = None ->
      ne_message n = lit "Failed to analyze input. Please try again.")
  /\ (forall k, ne_status n = k -> k <> 500 -> prop "status" reason = VNum k).
Proof.
  intros n; subst n; rewrite normalizeOpenAIError_spec; cbn [ne_message ne_status].
  assert (Husable : forall s, blank s = false ->
                              trimmed_string (VStr s) = Some (trim s)).
  { intros s Hb; simpl.
    destruct (trim s) eqn:Ht; [apply trim_nil in Ht; congruence|reflexivity]. }
  destruct (upstream_message_sound reason) as [H1 H2].
  repeat split; auto.
  - intros s Hs Hb; unfold upstream_message; now rewrite Hs, (Husable s Hb).
  - intros Hn s Hs Hb; unfold upstream_message; now rewrite Hn, Hs, (Husable s Hb).
  - intros Hn Hm; unfold upstream_message; now rewrite Hn, Hm.
  - unfold upstream_status; intros k <- Hk.
    destruct (prop "status" reason); congruence.
Qed.

Lemma normalized_error_message_witness :
  ne_message (normalizeOpenAIError rate_limited) = lit "Rate limit reached"
  /\ ne_status (normalizeOpenAIError rate_limited) = 429.
Proof.
  destruct (normalized_error_message rate_limited) as (_ & _ & Hnested & _).
  split; [|reflexivity].
  rewrite (Hnested (lit " Rate limit reached ")); reflexivity.
Defined.

Section SoundErrors.

Variable env : Env.
Variable rt : Runtime.
Variable systemPrompt : jsstring.
Variable openai : OpenAI.

Lemma sound_no_return {A} (m : M A) :
  (forall resp, fst m <> Return resp) -> returns_sound m.
Proof. intros H resp Hr; destruct (H resp Hr). Qed.

Lemma sound_bind {A B} (m : M A) (k : A -> M B) :
  returns_sound m -> (forall a, returns_sound (k a)) -> returns_sound (bind m k).
Proof.
  intros Hm Hk resp; destruct m as [[a|r|e] tr]; simpl.
  - specialize (Hk a resp); destruct (k a) as [c tr']; exact Hk.
  - intros [= <-]; apply (Hm r); reflexivity.
  - discriminate.
Qed.

Lemma sound_try_catch {A} (m : M A) (h : Exn -> M A) :
  returns_sound m -> (forall e, returns_sound (h e)) -> returns_sound (try_catch m h).
Proof.
  intros Hm Hh resp; destruct m as [[a|r|e] tr]; simpl.
  - discriminate.
  - intros [= <-]; apply (Hm r); reflexivity.
  - specialize (Hh e resp); destruct (h e) as [c tr']; exact Hh.
Qed.

Lemma sound_json (msg : jsstring) (st : option Z) :
  msg <> [] -> settles_sound (NextResponse_json (ErrorBody msg) st []).
Proof.
  intros Hm; unfold NextResponse_json.
  destruct (negb _); [exact I|]; destruct (null_body_status _); [exact I|].
  intros msg' [= <-]; split; [exact Hm|reflexivity].
Qed.

Lemma sound_literal (st : option Z) (prefix : string) (rest : jsstring) :
  prefix <> EmptyString ->
  settles_sound (NextResponse_json (ErrorBody (lit prefix ++ rest)) st []).
Proof.
  intros Hp; apply sound_json.
  destruct prefix; [congruence|discriminate].
Qed.

Lemma sound_literal_only (st : option Z) (text : string) :
  text <> EmptyString ->
  settles_sound (NextResponse_json (ErrorBody (lit text)) st []).
Proof.
  intros Hp; rewrite <- (app_nil_r (lit text)); now apply sound_literal.
Qed.

Lemma sound_return {A} (b : Body) (st : option Z) (hs : list (jsstring * jsstring)) :
  settles_sound (NextResponse_json b st hs) -> returns_sound (@return_json A b st hs).
Proof.
  unfold return_json; destruct (NextResponse_json b st hs) as [resp|reason];
    [|discriminate].
  intros H r [= <-]; exact H.
Qed.

Lemma completes_return (b : Body) (st : option Z) (hs : list (jsstring * jsstring)) :
  settles_sound (NextResponse_json b st hs) -> completes_sound (return_json b st hs).
Proof.
  unfold return_json, completes_sound.
  destruct (NextResponse_json b st hs) as [resp|reason]; [|intros; exact I].
  intros H; exact H.
Qed.

Lemma sound_await {A} (p : Awaited A) : returns_sound (await p).
Proof. apply sound_no_return; destruct p; discriminate. Qed.

Lemma sound_parse {A} (s : Zod.Schema A) (v : value) : returns_sound (parse s v).
Proof. apply sound_no_return; unfold parse; destruct (s [] v); discriminate. Qed.

Lemma sound_call_files (p : FilesCreateParams) :
  returns_sound (call_files_create openai p).
Proof.
  apply sound_no_return; unfold call_files_create.
  destruct (files_create openai p); discriminate.
Qed.

Lemma sound_call_responses (p : ResponsesCreateParams) :
  returns_sound (call_responses_create openai p).
Proof.
  apply sound_no_return; unfold call_responses_create.
  destruct (responses_create openai p); discriminate.
Qed.

Lemma sound_first_pass (request : Request) :
  returns_sound (first_pass env rt systemPrompt openai request).
Proof.
  unfold first_pass; destruct (includes _ _).
  - unfold multipart_branch.
    apply sound_bind; [apply sound_await|intros form].
    apply sound_bind.
    + destruct (form_get (lit "notes") form) as [[s|f]|];
        [apply sound_parse|apply sound_no_return; discriminate
        |apply sound_no_return; discriminate].
    + intros notes.
      assert (Hmissing : returns_sound
                (@return_json (option jsstring * option jsstring)
                   (ErrorBody (lit "Missing file upload (expected form field 'file')."))
                   (Some 400) []))
        by (apply sound_return, sound_literal_only; discriminate).
      destruct (form_get (lit "file") form) as [[s|f]|]; try exact Hmissing.
      destruct (file_size f >? MAX_FILE_BYTES env).
      * apply sound_return, sound_literal; discriminate.
      * apply sound_bind; [apply sound_call_files|intros id].
        apply sound_bind; [apply sound_call_responses|intros response].
        apply sound_no_return; discriminate.
  - unfold json_branch.
    apply sound_bind.
    + apply sound_try_catch.
      * apply sound_bind; [apply sound_await|intros; apply sound_parse].
      * intros [issues|reason].
        -- apply sound_return.
           destruct (existsb _ issues).
           ++ apply sound_literal; discriminate.
           ++ apply sound_literal_only; discriminate.
        -- apply sound_return, sound_literal_only; discriminate.
    + intros parsed.
      apply sound_bind; [apply sound_call_responses|intros response].
      apply sound_no_return; discriminate.
Qed.

Lemma sound_delivered (validated : TransformResponse) (notes : option jsstring) :
  sound_error (delivered validated notes).
Proof. intros msg; discriminate. Qed.

Lemma completes_bind {A} (m : M A) (k : A -> M Response) :
  returns_sound m -> (forall a, completes_sound (k a)) ->
  completes_sound (bind m k).
Proof.
  unfold completes_sound; intros Hm Hk; destruct m as [[a|r|e] tr]; simpl.
  - specialize (Hk a); destruct (k a) as [c tr']; exact Hk.
  - apply (Hm r); reflexivity.
  - exact I.
Qed.

Lemma completes_respond (raw notes : option jsstring) :
  completes_sound (respond env rt openai raw notes).
Proof.
  unfold respond.
  apply completes_bind.
  - apply sound_no_return.
    destruct raw as [t|]; [destruct (truthy_string t)|]; discriminate.
  - intros t; apply completes_bind.
    + apply sound_try_catch.
      * apply sound_no_return; unfold json_parse;
          destruct (JSON_parse rt t); discriminate.
      * intros e; apply sound_return, sound_literal_only; discriminate.
    + intros parsed; apply completes_bind; [apply sound_parse|].
      intros validated; apply completes_bind.
      * apply sound_no_return; intros resp.
        unfold rewrite_pass, call_responses_create.
        destruct (shouldApplyNotesRewritePass notes); [|discriminate].
        destruct (responses_create openai _) as [[t'|]|reason]; flow;
          try discriminate.
        destruct (truthy_string t'); [|discriminate].
        unfold json_parse, parse.
        destruct (JSON_parse rt t') as [v'|]; flow; [|discriminate].
        destruct (transformResponseSchema [] v'); discriminate.
      * intros final; cbn zeta; rewrite return_json_delivered.
        apply sound_delivered.
Qed.

Lemma sound_POST_catch (e : Exn) : settles_sound (POST_catch e).
Proof.
  destruct e as [issues|reason].
  - apply sound_literal_only; discriminate.
  - rewrite POST_catch_thrown; apply sound_json, upstream_message_sound.
Qed.

End SoundErrors.

(** Every response of the handler is sound as an error response. *)
Lemma POST_sound_error
      (env : Env) (rt : Runtime) (systemPrompt : jsstring) (openai : OpenAI)
      (request : Request) :
  settles_sound (fst (POST env rt systemPrompt openai request)).
Proof.
  unfold POST.
  assert (Hc : completes_sound (POST_try env rt systemPrompt openai request)).
  { unfold POST_try.
    destruct (falsy_string (OPENAI_API_KEY env)).
    - apply completes_return, sound_literal_only; discriminate.
    - apply completes_bind; [apply sound_first_pass|].
      intros [raw notes]; apply completes_respond. }
  unfold completes_sound in Hc.
  destruct (POST_try env rt systemPrompt openai request) as [[r|r|e] tr];
    simpl in *; auto.
  apply sound_POST_catch.
Qed.

(** X13: every error response of the handler carries a non-empty message
    and no header; a client that shows [error] always has something to
    show. *)
Theorem error_responses_have_a_message
        (env : Env) (rt : Runtime) (systemPrompt : jsstring) (openai : OpenAI)
        (request : Request) (msg : jsstring) :
  body_of (fst (POST env rt systemPrompt openai request)) = Some (ErrorBody msg) ->
  msg <> [] /\ headers_of (fst (POST env rt systemPrompt openai request)) = Some [].
Proof.
  pose proof (POST_sound_error env rt systemPrompt openai request) as H.
  destruct (fst (POST env rt systemPrompt openai request)) as [resp|reason];
    [|discriminate].
  intros [= Hb]; destruct (H msg Hb) as [Hm Hh]; split; [exact Hm|].
  simpl; now rewrite Hh.
Qed.

Lemma error_responses_have_a_message_witness :
  let run := sample_POST (sample_openai [] (Resolved None))
                         (json_request (lit "hello team") None) in
  body_of (fst run) = Some (ErrorBody (lit "No response from OpenAI"))
  /\ lit "No response from OpenAI" <> []
  /\ headers_of (fst run) = Some [].
Proof.
  intros run.
  assert (Hb : body_of (fst run) = Some (ErrorBody (lit "No response from OpenAI")))
    by (vm_compute; reflexivity).
  split; [exact Hb|].
  exact (error_responses_have_a_message sample_env sample_runtime (lit "policy")
           _ _ _ Hb).
Defined.

(** ** What the schemas let through *)

Lemma string_accepts (lo hi : option Z) (p : list Zod.PathItem) (v : value)
      (s : jsstring) :
  Zod.string_ lo hi p v = Zod.Data s ->
  v = VStr s
  /\ match lo with Some m => m <= js_length s | None => True end
  /\ match hi with Some m => js_length s <= m | None => True end.
Proof.
  destruct v as [| | | |s'| |]; try discriminate.
  unfold Zod.string_.
  destruct lo as [l|], hi as [h|];
    try destruct (Z.ltb_spec (js_length s') l);
    try (rewrite Z.gtb_ltb; destruct (Z.ltb_spec h (js_length s')));
    simpl; try discriminate; intros [= <-]; repeat split; auto; lia.
Qed.

Lemma optional_accepts (hi : option Z) (p : list Zod.PathItem) (v : value)
      (n : option jsstring) :
  Zod.optional (Zod.string_ None hi) p v = Zod.Data n ->
  match n with
  | Some s => v = VStr s
              /\ match hi with Some m => js_length s <= m | None => True end
  | None => v = VUndefined
  end.
Proof.
  unfold Zod.optional; destruct v as [| | | |s'| |]; try discriminate;
    try (intros [= <-]; reflexivity).
  destruct (Zod.string_ None hi p (VStr s')) as [s|issues] eqn:H; [|discriminate].
  intros [= <-]; apply string_accepts in H; destruct H as (H1 & _ & H3).
  split; assumption.
Qed.

Lemma request_schema_sound (env : Env) (p : list Zod.PathItem) (body : value)
      (parsed : TransformRequest) :
  transformRequestSchema env p body = Zod.Data parsed ->
  prop "text" body = VStr (text parsed)
  /\ 1 <= js_length (text parsed) <= MAX_INPUT_CHARS env
  /\ match notes parsed with
     | Some n => prop "notes" body = VStr n /\ js_length n <= 10000
     | None => prop "notes" body = VUndefined
     end.
Proof.
  unfold transformRequestSchema, Zod.field.
  destruct (Zod.is_object body); [|discriminate].
  destruct (Zod.string_ _ _ _ (prop "text" body)) as [t|i1] eqn:Ht;
    [|destruct (Zod.optional _ _ _); discriminate].
  destruct (Zod.optional _ _ (prop "notes" body)) as [n|i2] eqn:Hn; [|discriminate].
  intros [= <-]; cbn [text notes].
  apply string_accepts in Ht; destruct Ht as (H1 & H2 & H3).
  apply optional_accepts in Hn.
  repeat split; auto.
Qed.

(** X16: the request schema neither trims nor coerces: the data it yields is
    the body's own [text] and [notes], the text has between 1 and
    MAX_INPUT_CHARS code units, and the notes, when present, at most
    10,000. *)
Theorem accepted_request_is_verbatim_and_bounded
        (env : Env) (body : value) (parsed : TransformRequest) :
  transformRequestSchema env [] body = Zod.Data parsed ->
  prop "text" body = VStr (text parsed)
  /\ 1 <= js_length (text parsed) <= MAX_INPUT_CHARS env
  /\ notes_bounded (notes parsed)
  /\ prop "notes" body = match notes parsed with
                         | Some n => VStr n
                         | None => VUndefined
                         end.
Proof.
  intros H; apply request_schema_sound in H; destruct H as (H1 & H2 & H3).
  repeat split; try tauto; try lia;
    destruct (notes parsed); simpl; tauto.
Qed.

Lemma accepted_request_is_verbatim_and_bounded_witness :
  let body := obj [("text"%string, str "  padded  ");
                   ("notes"%string, str " as a poem ");
                   ("extra"%string, VNum 1)] in
  prop "text" body = VStr (lit "  padded  ")
  /\ 1 <= js_length (lit "  padded  ") <= 100000.
Proof.
  intros body.
  destruct (accepted_request_is_verbatim_and_bounded sample_env body
              {| text := lit "  padded  "; notes := Some (lit " as a poem ") |})
    as (H1 & H2 & _); [reflexivity|].
  split; [exact H1|exact H2].
Defined.

Section NotesBound.

Variable env : Env.
Variable rt : Runtime.
Variable systemPrompt : jsstring.
Variable openai : OpenAI.

(** The notes that leave the first pass are the notes of the request, and
    have passed their schema. *)
Lemma first_pass_notes_bounded (request : Request) (raw notes : option jsstring)
      (tr : list Event) :
  first_pass env rt systemPrompt openai request = (Normal (raw, notes), tr) ->
  notes = request_notes request /\ notes_bounded notes.
Proof.
  unfold first_pass, request_notes; fold (is_multipart request).
  destruct (is_multipart request).
  - unfold multipart_branch.
    destruct (formData request) as [form|reason]; flow; [|discriminate].
    assert (Hnotes : forall n,
               match form_get (lit "notes") form with
               | Some (EntryString s) =>
                   parse transformFileNotesSchema (VObj [(lit "notes", VStr s)])
               | _ => ret None
               end = (Normal n, []) -> n = form_notes form /\ notes_bounded n).
    { intros n; unfold form_notes.
      destruct (form_get (lit "notes") form) as [[s|f]|];
        try (intros [= <-]; split; [reflexivity|exact I]).
      unfold parse, transformFileNotesSchema, Zod.field; cbn [Zod.is_object].
      change (prop "notes" (VObj [(lit "notes", VStr s)])) with (VStr s).
      destruct (Zod.optional _ _ _) as [n'|i] eqn:Ho; [|discriminate].
      intros [= <-]; apply optional_accepts in Ho.
      destruct n' as [s'|]; [|discriminate].
      destruct Ho as [[= ->] Hlen]; split; [reflexivity|exact Hlen]. }
    destruct (match form_get (lit "notes") form with
              | Some (EntryString s) => _
              | _ => _
              end) as [[n|r|e] tr0] eqn:Hp; flow; try discriminate.
    assert (tr0 = []) as ->.
    { destruct (form_get (lit "notes") form) as [[s|f]|];
        try (injection Hp as _ <-; reflexivity).
      pose proof (silent_parse transformFileNotesSchema
                    (VObj [(lit "notes", VStr s)])) as Hs.
      rewrite Hp in Hs; exact Hs. }
    specialize (Hnotes n eq_refl).
    destruct (form_get (lit "file") form) as [[s|f]|]; flow; try discriminate.
    destruct (file_size f >? MAX_FILE_BYTES env); flow; [discriminate|].
    unfold call_files_create, call_responses_create.
    destruct (files_create openai _); flow; [|discriminate].
    destruct (responses_create openai _); flow; [|discriminate].
    intros [= _ <- _]; exact Hnotes.
  - unfold json_branch.
    destruct (json request) as [body|reason]; flow; [|discriminate].
    unfold parse; destruct (transformRequestSchema env [] body) as [parsed|issues] eqn:Hs;
      flow; [|destruct (existsb _ issues); discriminate].
    unfold call_responses_create.
    destruct (responses_create openai _); flow; [|discriminate].
    intros [= _ <- _].
    apply request_schema_sound in Hs; destruct Hs as (_ & _ & Hn).
    unfold body_notes.
    destruct (notes parsed) as [n|]; [destruct Hn as [-> Hn]|rewrite Hn];
      split; [reflexivity|exact Hn|reflexivity|exact I].
Qed.

End NotesBound.

Section ContentResponses.

Variable env : Env.
Variable rt : Runtime.
Variable systemPrompt : jsstring.
Variable openai : OpenAI.

(** A content body is the delivery of a validated output together with the
    notes that left the first pass. *)
Lemma POST_success_notes (request : Request) (r : TransformResponse) :
  body_of (fst (POST env rt systemPrompt openai request)) = Some (TransformBody r) ->
  exists validated,
    notes_bounded (request_notes request)
    /\ r = sanitize validated
    /\ fst (POST env rt systemPrompt openai request)
       = Resolved (delivered validated (request_notes request)).
Proof.
  unfold POST, POST_try.
  destruct (falsy_string (OPENAI_API_KEY env)); [discriminate|].
  pose proof (errors_first_pass env rt systemPrompt openai request) as He.
  pose proof (first_pass_notes_bounded env rt systemPrompt openai request) as Hb.
  destruct (first_pass env rt systemPrompt openai request)
    as [[[raw notes]|r0|e] tr]; flow.
  - destruct (Hb raw notes tr eq_refl) as [<- Hbound].
    destruct raw as [t|]; [destruct (truthy_string t) eqn:Ht|];
      try (unfold respond; try rewrite Ht; flow; apply error_body_no_content).
    destruct (JSON_parse rt t) as [v|] eqn:Hv;
      [|unfold respond, json_parse; rewrite Ht; flow; rewrite Hv; flow;
        discriminate].
    destruct (transformResponseSchema [] v) as [validated|issues] eqn:Hs;
      [|rewrite (respond_schema_error _ _ _ _ _ _ _ Ht Hv Hs); discriminate].
    rewrite (respond_validated _ _ _ _ _ _ _ Ht Hv Hs).
    destruct (notes_present notes) eqn:Hn;
      [|rewrite (rewrite_pass_skipped _ _ _ _ _ Hn); flow; intros [= <-];
        exists validated; auto].
    destruct (responses_create openai (rewrite_params env rt validated notes))
      as [out|reason] eqn:Hr.
    + destruct (rewrite_pass_resolved _ _ _ _ _ _ Hn Hr) as (final & -> & _);
        flow; intros [= <-].
      exists final; auto.
    + rewrite (rewrite_pass_rejected _ _ _ _ _ _ Hn Hr).
      cbn [fst]; apply error_body_no_content.
  - intros Hbody; destruct (He r0 eq_refl) as [msg Hm]; simpl in Hbody; congruence.
  - destruct e as [issues|reason]; [discriminate|apply error_body_no_content].
Qed.

End ContentResponses.

(** X14: a response with a content body always has status 200 and exactly
    one header, [x-received-notes-length], whose value is the decimal length
    of the notes the request carried (0 without notes), a number between 0
    and 10,000. *)
Theorem content_response_shape
        (env : Env) (rt : Runtime) (systemPrompt : jsstring) (openai : OpenAI)
        (request : Request) (r : TransformResponse) :
  body_of (fst (POST env rt systemPrompt openai request)) = Some (TransformBody r) ->
  let k := js_length (match request_notes request with
                      | Some n => n
                      | None => []
                      end) in
  status_of (fst (POST env rt systemPrompt openai request)) = Some 200
  /\ 0 <= k <= 10000
  /\ headers_of (fst (POST env rt systemPrompt openai request))
     = Some [(lit "x-received-notes-length", String_of_number k)].
Proof.
  intros Hb k.
  destruct (POST_success_notes _ _ _ _ _ _ Hb) as (validated & Hn & _ & ->).
  split; [reflexivity|]; split; [|reflexivity].
  subst k; destruct (request_notes request) as [n|]; simpl in *;
    unfold js_length in *; simpl; lia.
Qed.

Lemma content_response_shape_witness :
  let run := sample_POST (sample_openai (lit "first") (Resolved None))
                         (json_request (lit "hello team") (Some (lit "as a poem"))) in
  status_of (fst run) = Some 200
  /\ headers_of (fst run) = Some [(lit "x-received-notes-length", lit "9")].
Proof.
  intros run.
  destruct (content_response_shape sample_env sample_runtime (lit "policy")
              (sample_openai (lit "first") (Resolved None))
              (json_request (lit "hello team") (Some (lit "as a poem")))
              (sanitize sample_validated)) as (Hs & _ & Hh);
    [vm_compute; reflexivity|].
  split; [exact Hs | exact Hh].
Defined.
(** ** The response schema on serialized responses *)

Lemma elements_map {A} (inner : Zod.Schema A) (enc : A -> value) :
  (forall p a, inner p (enc a) = Zod.Data a) ->
  forall l p i, Zod.elements inner p i (map enc l) = Zod.Data l.
Proof.
  intros Hi; induction l as [|a l IH]; intros p i; simpl; [reflexivity|].
  now rewrite Hi, IH.
Qed.

Lemma section_round_trip (p : list Zod.PathItem) (s : Section_) :
  sectionSchema p (section_value s) = Zod.Data s.
Proof.
  unfold sectionSchema, section_value, Zod.field; cbn [Zod.is_object].
  change (prop "heading" (VObj _)) with (VStr (heading s)).
  change (prop "bullets" (VObj _)) with (VArr (map VStr (bullets s))).
  cbn [Zod.string_ Zod.array app].
  rewrite (elements_map (Zod.string_ None None) VStr); [destruct s; reflexivity|].
  reflexivity.
Qed.

Lemma next_action_round_trip (p : list Zod.PathItem) (a : NextAction) :
  nextActionSchema p (next_action_value a) = Zod.Data a.
Proof. destruct a; reflexivity. Qed.

(** The response schema reads back a serialized response. *)
Lemma response_value_parses (p : list Zod.PathItem) (r : TransformResponse) :
  transformResponseSchema p (response_value r) = Zod.Data r.
Proof.
  unfold transformResponseSchema, response_value, Zod.field; cbn [Zod.is_object].
  change (prop "title" (VObj _)) with (VStr (title r)).
  change (prop "summary" (VObj _)) with (VStr (summary r)).
  change (prop "sections" (VObj _)) with (VArr (map section_value (sections r))).
  change (prop "next_actions" (VObj _))
    with (VArr (map next_action_value (next_actions r))).
  cbn [Zod.string_ Zod.array app].
  rewrite (elements_map sectionSchema section_value section_round_trip).
  rewrite (elements_map nextActionSchema next_action_value next_action_round_trip).
  destruct r; reflexivity.
Qed.

(** X17: the response schema reads back every serialized TransformResponse
    unchanged: parsing the object of [r] yields [r] itself, empty strings and
    empty lists included, and that object is of the response shape.  Two
    responses with the same serialization are the same response. *)
Theorem response_schema_round_trip (r r' : TransformResponse) :
  transformResponseSchema [] (response_value r) = Zod.Data r
  /\ conforms (response_value r) = true
  /\ (response_value r = response_value r' -> r = r').
Proof.
  split; [apply response_value_parses|split].
  - rewrite <- (accepted_response []), response_value_parses; reflexivity.
  - intros H.
    pose proof (response_value_parses [] r) as Hr.
    rewrite H, response_value_parses in Hr; congruence.
Qed.

Lemma response_schema_round_trip_witness :
  transformResponseSchema [] (response_value (sanitize sample_validated))
  = Zod.Data (sanitize sample_validated)
  /\ sanitize sample_validated = sanitize (sanitize sample_validated).
Proof.
  destruct (response_schema_round_trip (sanitize sample_validated)
              (sanitize (sanitize sample_validated))) as (H1 & _ & H3).
  split; [exact H1|apply H3; reflexivity].
Defined.

Lemma lookup_unknown (k k' : jsstring) (x : value) (props : list (jsstring * value)) :
  jsstring_eqb k' k = false ->
  lookup k' ((k, x) :: props) = lookup k' props.
Proof. intros H; simpl; now rewrite H. Qed.

(** X18: the response schema ignores unknown keys: a property under a key
    other than title, summary, sections and next_actions changes neither
    whether an object is accepted nor the data it yields. *)
Theorem response_schema_ignores_unknown_keys
        (p : list Zod.PathItem) (k : jsstring) (x : value)
        (props : list (jsstring * value)) :
  response_key k = false ->
  transformResponseSchema p (VObj ((k, x) :: props))
  = transformResponseSchema p (VObj props).
Proof.
  unfold response_key; intros H.
  apply orb_false_iff in H; destruct H as [H H4].
  apply orb_false_iff in H; destruct H as [H H3].
  apply orb_false_iff in H; destruct H as [H1 H2].
  unfold transformResponseSchema, Zod.field, prop; cbn [Zod.is_object].
  now rewrite !(lookup_unknown k _ x props) by assumption.
Qed.

Lemma response_schema_ignores_unknown_keys_witness :
  transformResponseSchema []
    (VObj [(lit "confidence", VNum 3);
           (lit "title", VStr (lit "T")); (lit "summary", VStr []);
           (lit "sections", VArr []); (lit "next_actions", VArr [])])
  = Zod.Data {| title := lit "T"; summary := []; sections := []; next_actions := [] |}.
Proof.
  rewrite (response_schema_ignores_unknown_keys [] (lit "confidence") (VNum 3));
    reflexivity.
Defined.

(** ** Accepted requests *)

(** A body with a text within the limits and valid notes leads to the
    first model call. *)
Lemma valid_text_request_called
        (env : Env) (rt : Runtime) (systemPrompt : jsstring) (openai : OpenAI)
        (request : Request) (body : value) (s : jsstring) :
  falsy_string (OPENAI_API_KEY env) = false ->
  is_multipart request = false ->
  json request = Resolved body ->
  prop "text" body = VStr s ->
  1 <= js_length s <= MAX_INPUT_CHARS env ->
  notes_property_valid body ->
  exists r rest,
    snd (POST env rt systemPrompt openai request)
    = ResponsesCreate (text_call env systemPrompt s (body_notes body)) r :: rest.
Proof.
  intros Hk Hm Hj Ht Hlen Hn.
  assert (Hs : transformRequestSchema env [] body
               = Zod.Data {| text := s; notes := body_notes body |}).
  { unfold transformRequestSchema, Zod.field.
    rewrite (string_property_object _ _ _ Ht), Ht.
    unfold Zod.string_ at 1.
    assert (H1 : (js_length s <? 1) = false) by (apply Z.ltb_ge; lia).
    assert (H2 : (js_length s >? MAX_INPUT_CHARS env) = false)
      by (rewrite Z.gtb_ltb; apply Z.ltb_ge; lia).
    rewrite H1, H2; cbn [app].
    unfold notes_property_valid in Hn; unfold body_notes.
    destruct (prop "notes" body) as [| | | |n| |]; try contradiction;
      [reflexivity|].
    now rewrite (notes_within_limit _ n Hn). }
  rewrite POST_trace; unfold POST_try, first_pass; rewrite Hk.
  fold (is_multipart request); rewrite Hm.
  unfold json_branch, parse; rewrite Hj; flow; rewrite Hs; flow.
  cbn [text notes]; fold (text_call env systemPrompt s (body_notes body)).
  unfold call_responses_create.
  destruct (responses_create openai _) as [out|reason]; flow.
  - destruct (respond env rt openai out (body_notes body)) as [c tr'].
    eexists; eexists; reflexivity.
  - eexists; eexists; reflexivity.
Qed.

(** X19: a JSON request whose text has between 1 and MAX_INPUT_CHARS code
    units and whose notes are absent or within their limit is accepted: the
    handler's first provider call is the model call with the text model, the
    system prompt, temperature 0.1 and a prompt built from the text and
    notes exactly as received. *)
Theorem valid_text_request_reaches_the_model
        (env : Env) (rt : Runtime) (systemPrompt : jsstring) (openai : OpenAI)
        (request : Request) (body : value) (s : jsstring) :
  falsy_string (OPENAI_API_KEY env) = false ->
  is_multipart request = false ->
  json request = Resolved body ->
  prop "text" body = VStr s ->
  1 <= js_length s <= MAX_INPUT_CHARS env ->
  notes_property_valid body ->
  exists r rest,
    snd (POST env rt systemPrompt openai request)
    = ResponsesCreate
        {| model := OPENAI_TEXT_MODEL env;
           instructions := systemPrompt;
           content := [input_text (buildTextUserPrompt s (body_notes body))];
           text_format := lit "json_object";
           temperature := 1 # 10 |} r
      :: rest.
Proof.
  intros Hk Hm Hj Ht Hlen Hn.
  exact (valid_text_request_called env rt systemPrompt openai request body s
           Hk Hm Hj Ht Hlen Hn).
Qed.

Lemma valid_text_request_reaches_the_model_witness :
  exists r rest,
    snd (sample_POST (sample_openai (lit "first") (Resolved None))
                     (json_request (lit "hello team") (Some (lit " as a poem "))))
    = ResponsesCreate (text_call sample_env (lit "policy") (lit "hello team")
                                 (Some (lit " as a poem "))) r :: rest.
Proof.
  apply (valid_text_request_reaches_the_model sample_env sample_runtime (lit "policy")
           _ (json_request (lit "hello team") (Some (lit " as a poem ")))
           (VObj [(lit "text", VStr (lit "hello team"));
                  (lit "notes", VStr (lit " as a poem "))])
           (lit "hello team"));
    try reflexivity;
    try (split; vm_compute; discriminate);
    try (vm_compute; discriminate).
Defined.

(** X20: a JSON request whose text is longer than MAX_INPUT_CHARS is
    answered 413 with a message that states the configured limit, without
    any provider call, whatever else the body holds. *)
Theorem oversize_text_is_413
        (env : Env) (rt : Runtime) (systemPrompt : jsstring) (openai : OpenAI)
        (request : Request) (body : value) (s : jsstring) :
  falsy_string (OPENAI_API_KEY env) = false ->
  is_multipart request = false ->
  json request = Resolved body ->
  prop "text" body = VStr s ->
  js_length s > MAX_INPUT_CHARS env ->
  POST env rt systemPrompt openai request
  = (Resolved
       {| status := 413;
          body := ErrorBody (lit "Input text is too large. Maximum is "
                             ++ toLocaleString rt (MAX_INPUT_CHARS env)
                             ++ lit " characters.");
          headers := [] |}, []).
Proof.
  intros Hk Hm Hj Ht Hlen.
  exact (oversize_text_rejected env rt systemPrompt openai request body
           Hk Hm Hj s Ht Hlen).
Qed.

Lemma oversize_text_is_413_witness :
  POST small_env sample_runtime (lit "policy")
       (sample_openai (lit "first") (Resolved None))
       (json_request (lit "sixsix") (Some (lit "as a poem")))
  = (Resolved
       {| status := 413;
          body := ErrorBody (lit "Input text is too large. Maximum is 5 characters.");
          headers := [] |}, []).
Proof.
  apply (oversize_text_is_413 small_env sample_runtime (lit "policy") _
           (json_request (lit "sixsix") (Some (lit "as a poem")))
           (VObj [(lit "text", VStr (lit "sixsix"));
                  (lit "notes", VStr (lit "as a poem"))])
           (lit "sixsix"));
    reflexivity.
Defined.

(** X21: a multipart request with a file within the size limit and notes
    within theirs is uploaded first; when the upload succeeds the model call
    follows, with the file model, the system prompt, temperature 0.1, the
    file prompt, and the uploaded id attached as an image for [image/*]
    types and as a file otherwise. *)
Theorem accepted_file_is_uploaded_then_analyzed
        (env : Env) (rt : Runtime) (systemPrompt : jsstring) (openai : OpenAI)
        (request : Request) (form : FormData) (f : File) (id : jsstring) :
  falsy_string (OPENAI_API_KEY env) = false ->
  is_multipart request = true ->
  formData request = Resolved form ->
  form_get (lit "file") form = Some (EntryFile f) ->
  notes_field_within_limit form ->
  file_size f <= MAX_FILE_BYTES env ->
  files_create openai (upload_params f) = Resolved id ->
  exists r rest,
    snd (POST env rt systemPrompt openai request)
    = FilesCreate (upload_params f) (Resolved id)
      :: ResponsesCreate (file_call env systemPrompt f id (form_notes form)) r
      :: rest.
Proof.
  intros Hk Hm Hform Hfile Hnotes Hsize Hup.
  assert (Hp : match form_get (lit "notes") form with
               | Some (EntryString s) =>
                   parse transformFileNotesSchema (VObj [(lit "notes", VStr s)])
               | _ => ret None
               end = (Normal (form_notes form), [])).
  { unfold notes_field_within_limit in Hnotes; unfold form_notes.
    destruct (form_get (lit "notes") form) as [[s|f0]|]; try reflexivity.
    unfold parse, transformFileNotesSchema, Zod.field; cbn [Zod.is_object].
    change (prop "notes" (VObj [(lit "notes", VStr s)])) with (VStr s).
    now rewrite (notes_within_limit _ s Hnotes). }
  rewrite POST_trace; unfold POST_try, first_pass; rewrite Hk.
  fold (is_multipart request); rewrite Hm.
  unfold multipart_branch; rewrite Hform; flow; rewrite Hp; flow; rewrite Hfile.
  assert (Hg : (file_size f >? MAX_FILE_BYTES env) = false)
    by (rewrite Z.gtb_ltb; apply Z.ltb_ge; lia).
  rewrite Hg; unfold call_files_create; rewrite Hup; flow.
  fold (file_call env systemPrompt f id (form_notes form)).
  unfold call_responses_create.
  destruct (responses_create openai _) as [out|reason]; flow.
  - destruct (respond env rt openai out (form_notes form)) as [c tr'].
    eexists; eexists; reflexivity.
  - eexists; eexists; reflexivity.
Qed.

Lemma accepted_file_is_uploaded_then_analyzed_witness :
  let photo := {| file_name := lit "scan.png"; file_type := lit "image/png";
                  file_size := 10485760 |} in
  exists r rest,
    snd (sample_POST (sample_openai (lit "first") (Resolved None))
                     (multipart_request photo None))
    = FilesCreate (upload_params photo) (Resolved (lit "file-1"))
      :: ResponsesCreate
           {| model := lit "gpt-4o-mini";
              instructions := lit "policy";
              content := [input_text (buildFileUserPrompt None);
                          input_image (lit "auto") (lit "file-1")];
              text_format := lit "json_object";
              temperature := 1 # 10 |} r
      :: rest.
Proof.
  intros photo.
  apply (accepted_file_is_uploaded_then_analyzed sample_env sample_runtime
           (lit "policy") _ (multipart_request photo None)
           [(lit "file", EntryFile photo)] photo (lit "file-1"));
    try reflexivity; try exact I.
Defined.

(** ** Notes in prompts *)

Lemma blank_trim (n : jsstring) : blank (trim n) = blank n.
Proof.
  destruct (blank n) eqn:Hb.
  - apply trim_nil in Hb; now rewrite Hb.
  - destruct (blank (trim n)) eqn:Ht; [|reflexivity].
    apply trim_nil in Ht; rewrite trim_idempotent in Ht.
    apply trim_nil in Ht; congruence.
Qed.

Lemma notes_given_trim (n : jsstring) :
  notes_given (Some (trim n)) = notes_given (Some n).
Proof.
  change (shouldApplyNotesRewritePass (Some (trim n))
          = shouldApplyNotesRewritePass (Some n)).
  rewrite !shouldApplyNotesRewritePass_spec; simpl; now rewrite blank_trim.
Qed.

(** X22: whitespace around the notes never reaches the model: each of the
    three prompt builders gives the same prompt for notes and for the same
    notes trimmed, and the restyle decision is the same too. *)
Theorem prompts_ignore_whitespace_around_notes (t json n : jsstring) :
  buildTextUserPrompt t (Some n) = buildTextUserPrompt t (Some (trim n))
  /\ buildFileUserPrompt (Some n) = buildFileUserPrompt (Some (trim n))
  /\ buildNotesRewritePrompt json (Some n) = buildNotesRewritePrompt json (Some (trim n))
  /\ shouldApplyNotesRewritePass (Some n) = shouldApplyNotesRewritePass (Some (trim n)).
Proof.
  unfold buildTextUserPrompt, buildFileUserPrompt, buildNotesRewritePrompt,
    shouldApplyNotesRewritePass, notes_text.
  rewrite notes_given_trim, trim_idempotent; repeat split.
Qed.

(* ================================================================== *)
(** * The page and the handler together *)

Lemma getMeaningfulNextActions_keep (output : TransformResponse) :
  Page.getMeaningfulNextActions output = filter keep_action (next_actions output).
Proof. reflexivity. Qed.

(** X23: what the page's [getMeaningfulNextActions] keeps of an output is
    what the server's sanitization keeps; on a sanitized output it removes
    nothing, so the page shows every next action the server delivers. *)
Theorem page_keeps_delivered_actions (validated : TransformResponse) :
  Page.getMeaningfulNextActions validated = next_actions (sanitize validated)
  /\ Page.getMeaningfulNextActions (sanitize validated)
     = next_actions (sanitize validated).
Proof.
  rewrite !getMeaningfulNextActions_keep; split; [reflexivity|].
  simpl; apply filter_idempotent.
Qed.

Section PageAndHandler.

Variable browser : Page.Browser.
Variable env : Env.
Variable rt : Runtime.
Variable systemPrompt : jsstring.
Variable openai : OpenAI.
Variable raw : Settled jsstring.
Variable crash : Settled Page.Fetched.

Lemma handleMakeUsable_sends (fetch : Request -> Settled Page.Fetched)
      (inputText : jsstring) (selectedFile : option File) :
  Page.sends inputText selectedFile = true ->
  Page.handleMakeUsable browser fetch inputText selectedFile
  = match Page.exchange browser fetch (Page.request_of browser inputText selectedFile) with
    | inl validated => Page.ShowOutput validated
    | inr (AnError message) => Page.ShowError message
    | inr NotAnError =>
        Page.ShowError (lit "An unexpected error occurred. Please try again.")
    end.
Proof.
  unfold Page.sends, Page.handleMakeUsable.
  destruct selectedFile as [f|]; [reflexivity|].
  cbn [andb]; intros H; apply andb_true_iff in H; destruct H as [H1 H2].
  apply negb_true_iff in H2; now rewrite H1, H2.
Qed.

Lemma exchange_delivered (request : Request) (r : TransformResponse) :
  body_of (fst (POST env rt systemPrompt openai request)) = Some (TransformBody r) ->
  Page.exchange browser (Page.served env rt systemPrompt openai raw crash) request
  = inl r.
Proof.
  intros Hb.
  destruct (POST_success_notes _ _ _ _ _ _ Hb) as (validated & _ & -> & Hd).
  unfold Page.exchange, Page.served, Page.on_the_wire; rewrite Hd.
  cbn [Page.ok Page.fetched_status Page.fetched_json].
  cbn [delivered status body Page.body_value].
  change ((200 <=? 200) && (200 <=? 299))%bool with true; cbn [negb].
  now rewrite response_value_parses.
Qed.

Lemma exchange_error (request : Request) (resp : Response) (msg : jsstring) :
  fst (POST env rt systemPrompt openai request) = Resolved resp ->
  body resp = ErrorBody msg ->
  Page.ok (Page.on_the_wire raw resp) = false ->
  Page.exchange browser (Page.served env rt systemPrompt openai raw crash) request
  = inr (AnError msg).
Proof.
  intros Hr Hb Hok.
  pose proof (POST_sound_error env rt systemPrompt openai request) as Hsound.
  rewrite Hr in Hsound; destruct (Hsound msg Hb) as [Hne _].
  unfold Page.exchange, Page.served; rewrite Hr, Hok; cbn [negb].
  unfold Page.on_the_wire; cbn [Page.fetched_json]; rewrite Hb.
  cbn [Page.body_value]; unfold Page.error_or.
  change (prop "error" (VObj [(lit "error", VStr msg)])) with (VStr msg).
  destruct msg as [|c msg]; [congruence|reflexivity].
Qed.

End PageAndHandler.

(** X24: whatever the handler delivers, the page shows: when the request
    that [handleMakeUsable] sends is answered with a content body, the page
    validates it with its own copy of the schema without loss and sets
    exactly that output. *)
Theorem page_shows_the_delivered_output
        (browser : Page.Browser) (env : Env) (rt : Runtime)
        (systemPrompt : jsstring) (openai : OpenAI) (raw : Settled jsstring)
        (crash : Settled Page.Fetched)
        (inputText : jsstring) (selectedFile : option File) (r : TransformResponse) :
  Page.sends inputText selectedFile = true ->
  body_of (fst (POST env rt systemPrompt openai
                  (Page.request_of browser inputText selectedFile)))
  = Some (TransformBody r) ->
  Page.handleMakeUsable browser (Page.served env rt systemPrompt openai raw crash)
                        inputText selectedFile
  = Page.ShowOutput r.
Proof.
  intros Hs Hb.
  rewrite (handleMakeUsable_sends browser _ _ _ Hs).
  now rewrite (exchange_delivered browser env rt systemPrompt openai raw crash _ r Hb).
Qed.

Lemma page_shows_the_delivered_output_witness :
  Page.handleMakeUsable Page.sample_browser
    (Page.served sample_env sample_runtime (lit "policy")
       (sample_openai (lit "first") (Resolved None))
       (Failed NotAnError) (Failed NotAnError))
    (lit "hello team") None
  = Page.ShowOutput (sanitize sample_validated).
Proof.
  apply (page_shows_the_delivered_output Page.sample_browser sample_env sample_runtime
           (lit "policy")); vm_compute; reflexivity.
Defined.

(** X25: the page shows the handler's error message as it is: when the
    request that [handleMakeUsable] sends is answered with an error body and
    a status outside 200-299, the error set on the page is exactly the
    body's [error] string. *)
Theorem page_shows_the_handler_error
        (browser : Page.Browser) (env : Env) (rt : Runtime)
        (systemPrompt : jsstring) (openai : OpenAI) (raw : Settled jsstring)
        (crash : Settled Page.Fetched)
        (inputText : jsstring) (selectedFile : option File)
        (resp : Response) (msg : jsstring) :
  Page.sends inputText selectedFile = true ->
  fst (POST env rt systemPrompt openai
         (Page.request_of browser inputText selectedFile))
  = Resolved resp ->
  body resp = ErrorBody msg ->
  Page.ok (Page.on_the_wire raw resp) = false ->
  Page.handleMakeUsable browser (Page.served env rt systemPrompt openai raw crash)
                        inputText selectedFile
  = Page.ShowError msg.
Proof.
  intros Hs Hr Hb Hok.
  rewrite (handleMakeUsable_sends browser _ _ _ Hs).
  now rewrite (exchange_error browser env rt systemPrompt openai raw crash _ resp msg
                 Hr Hb Hok).
Qed.

Lemma page_shows_the_handler_error_witness :
  Page.handleMakeUsable Page.sample_browser
    (Page.served sample_env sample_runtime (lit "policy")
       (scripted (Resolved (lit "file-1")) (Resolved None) (Resolved None))
       (Failed NotAnError) (Failed NotAnError))
    (lit "hello team") (Some (sample_file 2048))
  = Page.ShowError (lit "No response from OpenAI").
Proof.
  apply (page_shows_the_handler_error Page.sample_browser sample_env sample_runtime
           (lit "policy")
           (scripted (Resolved (lit "file-1")) (Resolved None) (Resolved None))
           (Failed NotAnError) (Failed NotAnError)
           (lit "hello team") (Some (sample_file 2048))
           (error_response 500 "No response from OpenAI"));
    vm_compute; reflexivity.
Defined.

(** X26: without a selected file, what [handleMakeUsable] lets out passes
    the server's request validation whenever the server's MAX_INPUT_CHARS
    equals the page's MAX_TEXT_CHARS: the request is the JSON request with
    the text as typed, and the handler's first step is the model call with
    that text. *)
Theorem page_text_request_is_accepted
        (browser : Page.Browser) (env : Env) (rt : Runtime)
        (systemPrompt : jsstring) (openai : OpenAI) (inputText : jsstring) :
  falsy_string (OPENAI_API_KEY env) = false ->
  MAX_INPUT_CHARS env = Page.MAX_TEXT_CHARS ->
  Page.sends inputText None = true ->
  Page.request_of browser inputText None = Page.text_request inputText
  /\ exists r rest,
       snd (POST env rt systemPrompt openai (Page.request_of browser inputText None))
       = ResponsesCreate
           {| model := OPENAI_TEXT_MODEL env;
              instructions := systemPrompt;
              content := [input_text (buildTextUserPrompt inputText None)];
              text_format := lit "json_object";
              temperature := 1 # 10 |} r
         :: rest.
Proof.
  intros Hk Hmax Hs; unfold Page.sends in Hs.
  apply andb_true_iff in Hs; destruct Hs as [Ht Hlen].
  apply negb_true_iff in Hlen; rewrite Z.gtb_ltb in Hlen; apply Z.ltb_ge in Hlen.
  assert (Hpos : (js_length (trim inputText) >? 0) = true).
  { destruct (trim inputText); [discriminate|].
    unfold js_length; cbn [List.length]; apply Z.gtb_lt; lia. }
  assert (Hreq : Page.request_of browser inputText None = Page.text_request inputText)
    by (unfold Page.request_of; now rewrite Hpos).
  split; [exact Hreq|rewrite Hreq].
  apply (valid_text_request_called env rt systemPrompt openai
           (Page.text_request inputText)
           (VObj [(lit "text", VStr inputText)]) inputText Hk);
    try reflexivity; try exact I.
  rewrite Hmax; split; [|exact Hlen].
  destruct inputText; [discriminate|].
  unfold js_length; cbn [List.length]; lia.
Qed.

Lemma page_text_request_is_accepted_witness :
  exists r rest,
    snd (sample_POST (sample_openai (lit "first") (Resolved None))
                     (Page.text_request (lit "  hello team ")))
    = ResponsesCreate (text_call sample_env (lit "policy") (lit "  hello team ") None) r
      :: rest.
Proof.
  destruct (page_text_request_is_accepted Page.sample_browser sample_env sample_runtime
              (lit "policy") (sample_openai (lit "first") (Resolved None))
              (lit "  hello team ")) as [_ H]; try reflexivity.
  exact H.
Defined.

(** X27: the page sends the selected file only when there is no text.
    With a selected file and text that has a non-whitespace character, the
    request is the JSON request with that text, which holds no file and is
    not multipart; with blank text it is the multipart request holding the
    file, and when the file is within the server's MAX_FILE_BYTES the
    handler's first step is to upload it. *)
Theorem page_file_request_is_uploaded
        (browser : Page.Browser) (env : Env) (rt : Runtime)
        (systemPrompt : jsstring) (openai : OpenAI)
        (inputText : jsstring) (f : File) :
  falsy_string (OPENAI_API_KEY env) = false ->
  file_size f <= MAX_FILE_BYTES env ->
  Page.sends inputText (Some f) = true
  /\ (blank inputText = false ->
      Page.request_of browser inputText (Some f) = Page.text_request inputText
      /\ is_multipart (Page.request_of browser inputText (Some f)) = false
      /\ json (Page.request_of browser inputText (Some f))
         = Resolved (VObj [(lit "text", VStr inputText)]))
  /\ (blank inputText = true ->
      Page.request_of browser inputText (Some f) = Page.file_request browser (Some f)
      /\ formData (Page.request_of browser inputText (Some f))
         = Resolved [(lit "file", EntryFile f)]
      /\ exists r rest,
           snd (POST env rt systemPrompt openai
                  (Page.request_of browser inputText (Some f)))
           = FilesCreate (upload_params f) r :: rest).
Proof.
  intros Hk Hsize; split; [reflexivity|split]; intros Hb.
  - assert (Hreq : Page.request_of browser inputText (Some f)
                   = Page.text_request inputText).
    { unfold Page.request_of; now rewrite trim_length_pos, Hb. }
    rewrite Hreq; repeat split.
  - assert (Hreq : Page.request_of browser inputText (Some f)
                   = Page.file_request browser (Some f)).
    { unfold Page.request_of; apply trim_nil in Hb; now rewrite Hb. }
    rewrite Hreq; split; [reflexivity|split; [reflexivity|]].
    apply (file_within_limit_uploaded env rt systemPrompt openai
             (Page.file_request browser (Some f))
             [(lit "file", EntryFile f)] Hk);
      try reflexivity; try exact I; try exact Hsize.
Qed.

Lemma page_file_request_is_uploaded_witness :
  Page.request_of Page.sample_browser (lit "hello team") (Some (sample_file 2048))
  = Page.text_request (lit "hello team")
  /\ exists r rest,
       snd (sample_POST (sample_openai (lit "first") (Resolved None))
              (Page.file_request Page.sample_browser (Some (sample_file 2048))))
       = FilesCreate (upload_params (sample_file 2048)) r :: rest.
Proof.
  assert (Hk : falsy_string (OPENAI_API_KEY sample_env) = false) by reflexivity.
  assert (Hsize : file_size (sample_file 2048) <= MAX_FILE_BYTES sample_env)
    by (vm_compute; discriminate).
  pose proof (page_file_request_is_uploaded Page.sample_browser sample_env
                sample_runtime (lit "policy")
                (sample_openai (lit "first") (Resolved None))
                (lit "hello team") (sample_file 2048) Hk Hsize) as (_ & Htext & _).
  pose proof (page_file_request_is_uploaded Page.sample_browser sample_env
                sample_runtime (lit "policy")
                (sample_openai (lit "first") (Resolved None))
                (lit "   ") (sample_file 2048) Hk Hsize) as (_ & _ & Hfile).
  destruct (Htext eq_refl) as [Hreq _].
  destruct (Hfile eq_refl) as (Hreq' & _ & H).
  split; [exact Hreq|rewrite Hreq' in H; exact H].
Defined.

(* ================================================================== *)
(** * The text-only handler *)


Lemma text_only_loads (env : Env) (rt : Runtime) (systemPrompt : jsstring)
      (openai : TextOnly.OpenAI) (request : Request) :
  falsy_string (OPENAI_API_KEY env) = false ->
  TextOnly.POST env rt systemPrompt openai request
  = Some (TextOnly.handle env rt systemPrompt openai request).
Proof.
  unfold TextOnly.POST, TextOnly.module_loads.
  destruct (OPENAI_API_KEY env); [reflexivity|discriminate].
Qed.

(** The responses of the text-only handler have statuses that
    [NextResponse.json] accepts. *)
Lemma text_only_respond (st : Z) (msg : string) :
  usable_status st = true ->
  TextOnly.respond st msg = Resolved (error_response st msg).
Proof. intros H; unfold TextOnly.respond; now apply NextResponse_json_usable. Qed.




(** The messages the text-only handler can answer with. *)
Lemma text_only_error_cases
      (env : Env) (rt : Runtime) (systemPrompt : jsstring)
      (openai : TextOnly.OpenAI) (request : Request) (msg : jsstring) :
  body_of (fst (TextOnly.handle env rt systemPrompt openai request))
  = Some (ErrorBody msg) ->
  In msg [lit "Invalid request body";
          lit "Invalid request format";
          lit "Input text is too large. Maximum is "
            ++ toLocaleString rt (MAX_INPUT_CHARS env) ++ lit " characters.";
          lit "Failed to transform text. Please try again.";
          lit "An unexpected error occurred";
          lit "Model returned an invalid response format. Please try again.";
          lit "Model returned an unexpected response shape. Please try again."].
Proof.
  unfold TextOnly.handle.
  destruct (json request) as [b|reason]; [|intros [= <-]; simpl; auto].
  destruct (TextOnly.transformRequestSchema env [] b) as [t|issues].
  - unfold TextOnly.transform.
    destruct (TextOnly.chat_completions_create openai _) as [[c|]|[m|]];
      try (intros [= <-]; simpl; tauto).
    destruct (truthy_string c); [|intros [= <-]; simpl; tauto].
    destruct (JSON_parse rt c) as [v|]; [|intros [= <-]; simpl; tauto].
    destruct (transformResponseSchema [] v); [discriminate|].
    intros [= <-]; simpl; tauto.
  - destruct (existsb _ issues); intros [= <-]; simpl; tauto.
Qed.

(** X29: the text-only handler, with the API key configured, never passes
    on what the provider says: for every body whose text is within the
    limits, a failed chat call is answered 500 with one of two fixed
    messages, and every error message of the handler is one of seven texts
    that depend on nothing but the configured limit. *)
Theorem text_only_errors_are_fixed_texts
        (env : Env) (rt : Runtime) (systemPrompt : jsstring)
        (openai openai' : TextOnly.OpenAI) (request : Request)
        (body : value) (t : jsstring) (err : Caught) :
  falsy_string (OPENAI_API_KEY env) = false ->
  json request = Resolved body ->
  prop "text" body = VStr t ->
  1 <= js_length t <= MAX_INPUT_CHARS env ->
  TextOnly.chat_completions_create openai (TextOnly.chat_params systemPrompt t)
  = Failed err ->
  TextOnly.POST env rt systemPrompt openai request
  = Some (Resolved
            {| status := 500;
               body := ErrorBody
                         (match err with
                          | AnError _ => lit "Failed to transform text. Please try again."
                          | NotAnError => lit "An unexpected error occurred"
                          end);
               headers := [] |},
          [TextOnly.chat_params systemPrompt t])
  /\ forall request' outcome calls msg,
       TextOnly.POST env rt systemPrompt openai' request' = Some (outcome, calls) ->
       body_of outcome = Some (ErrorBody msg) ->
       In msg [lit "Invalid request body";
               lit "Invalid request format";
               lit "Input text is too large. Maximum is "
                 ++ toLocaleString rt (MAX_INPUT_CHARS env) ++ lit " characters.";
               lit "Failed to transform text. Please try again.";
               lit "An unexpected error occurred";
               lit "Model returned an invalid response format. Please try again.";
               lit "Model returned an unexpected response shape. Please try again."].
Proof.
  intros Hk Hj Ht Hlen Hc.
  assert (Hs : TextOnly.transformRequestSchema env [] body = Zod.Data t).
  { unfold TextOnly.transformRequestSchema, Zod.field.
    rewrite (string_property_object _ _ _ Ht), Ht.
    unfold Zod.string_.
    assert (H1 : (js_length t <? 1) = false) by (apply Z.ltb_ge; lia).
    assert (H2 : (js_length t >? MAX_INPUT_CHARS env) = false)
      by (rewrite Z.gtb_ltb; apply Z.ltb_ge; lia).
    now rewrite H1, H2. }
  split.
  - rewrite (text_only_loads _ _ _ _ _ Hk).
    unfold TextOnly.handle; rewrite Hj, Hs; unfold TextOnly.transform.
    rewrite Hc; destruct err; reflexivity.
  - intros request' outcome calls msg.
    rewrite (text_only_loads _ _ _ _ _ Hk); intros [= Hrun] Hb.
    apply (text_only_error_cases env rt systemPrompt openai' request').
    now rewrite Hrun.
Qed.

Lemma text_only_errors_are_fixed_texts_witness :
  TextOnly.POST sample_env sample_runtime (lit "policy")
    {| TextOnly.chat_completions_create :=
         fun _ => Failed (AnError (lit "429 Rate limit reached for org-123")) |}
    (json_request (lit "hello team") None)
  = Some (Resolved (error_response 500 "Failed to transform text. Please try again."),
          [TextOnly.chat_params (lit "policy") (lit "hello team")]).
Proof.
  assert (Hlen : 1 <= js_length (lit "hello team") <= MAX_INPUT_CHARS sample_env)
    by (split; vm_compute; discriminate).
  exact (proj1 (text_only_errors_are_fixed_texts sample_env sample_runtime (lit "policy")
                  {| TextOnly.chat_completions_create :=
                       fun _ => Failed (AnError (lit "429 Rate limit reached for org-123")) |}
                  {| TextOnly.chat_completions_create := fun _ => Fulfilled None |}
                  (json_request (lit "hello team") None)
                  (VObj [(lit "text", VStr (lit "hello team"))]) (lit "hello team")
                  (AnError (lit "429 Rate limit reached for org-123"))
                  eq_refl eq_refl eq_refl Hlen eq_refl)).
Defined.

(** X30: on a text request without notes the current handler is the
    text-only handler followed by sanitization: when both get the same
    output text from their model call and the text-only handler delivers a
    validated output, the current handler delivers that output sanitized,
    with the same status. *)
Theorem current_handler_sanitizes_what_text_only_delivers
        (env : Env) (rt : Runtime) (systemPrompt systemPrompt' : jsstring)
        (openai : OpenAI) (openai' : TextOnly.OpenAI)
        (t : jsstring) (out : option jsstring) (validated : TransformResponse)
        (resp' : Response) (calls' : list TextOnly.ChatParams) :
  falsy_string (OPENAI_API_KEY env) = false ->
  responses_create openai (text_call env systemPrompt t None) = Resolved out ->
  TextOnly.chat_completions_create openai' (TextOnly.chat_params systemPrompt' t)
  = Fulfilled out ->
  TextOnly.POST env rt systemPrompt' openai' (json_request t None)
  = Some (Resolved resp', calls') ->
  body resp' = TransformBody validated ->
  exists resp,
    fst (POST env rt systemPrompt openai (json_request t None)) = Resolved resp
    /\ body resp = TransformBody (sanitize validated)
    /\ status resp = status resp'.
Proof.
  intros Hk Hr Hc; rewrite (text_only_loads _ _ _ _ _ Hk).
  unfold TextOnly.handle, POST, POST_try, first_pass; rewrite Hk.
  cbn [json_request json content_type]; rewrite json_content_type.
  unfold json_branch; cbn [json_request json]; flow.
  unfold parse, transformRequestSchema, TextOnly.transformRequestSchema, Zod.field.
  cbn [Zod.is_object].
  change (prop "text" (VObj [(lit "text", VStr t)])) with (VStr t).
  change (prop "notes" (VObj [(lit "text", VStr t)])) with VUndefined.
  cbn [Zod.optional].
  destruct (Zod.string_ (Some 1) (Some (MAX_INPUT_CHARS env)) _ (VStr t))
    as [t'|issues] eqn:Hs.
  - apply string_accepts in Hs; destruct Hs as [[= <-] _].
    flow; cbn [text notes fst].
    fold (text_call env systemPrompt t None).
    unfold call_responses_create; rewrite Hr; flow.
    unfold TextOnly.transform; rewrite Hc.
    unfold respond.
    destruct out as [c|]; [|intros [= <- _]; discriminate].
    destruct (truthy_string c); [|intros [= <- _]; discriminate]; flow.
    unfold json_parse; destruct (JSON_parse rt c) as [v|];
      [|intros [= <- _]; discriminate]; flow.
    unfold parse; destruct (transformResponseSchema [] v) as [validated'|i];
      [|intros [= <- _]; discriminate]; flow.
    intros [= <- _] [= <-]; eexists; repeat split.
  - destruct (existsb _ _); intros [= <- _]; discriminate.
Qed.

Lemma current_handler_sanitizes_what_text_only_delivers_witness :
  body_of (fst (sample_POST (sample_openai (lit "first") (Resolved None))
                            (json_request (lit "hello team") None)))
  = Some (TransformBody (sanitize sample_validated)).
Proof.
  destruct (current_handler_sanitizes_what_text_only_delivers
              sample_env sample_runtime (lit "policy") (lit "older policy")
              (sample_openai (lit "first") (Resolved None))
              {| TextOnly.chat_completions_create := fun _ => Fulfilled (Some (lit "first")) |}
              (lit "hello team") (Some (lit "first")) sample_validated
              {| status := 200; body := TransformBody sample_validated; headers := [] |}
              [TextOnly.chat_params (lit "older policy") (lit "hello team")]
              eq_refl eq_refl eq_refl eq_refl eq_refl)
    as (resp & Hr & Hb & _).
  unfold sample_POST; rewrite Hr; simpl; now rewrite Hb.
Defined.
